(** * Uptime-monitor scheduling and incident engine: a shallow embedding

    The development follows the JavaScript sources of the monitoring
    back end:

    - [src/workers/workerCache.js]   the in-memory scheduling cache
                                     ([WorkerCache]) and, further down the
                                     same file, the heartbeat executor
                                     ([checkHeartbeat]),
    - [src/workers/worker.js]        the timer-driven runner and its state
                                     machine,
    - [src/workers/bullWorker.js]    the queue-backed runner and its state
                                     machine,
    - [src/services/alerts/telegram.js]  the alert dispatcher ([sendAlert],
                                     [sendToChannel] and the per-channel
                                     helpers),
    - [src/workers/checks/keyword.js], [src/workers/checks/cronjob.js]
                                     two more check executors,
    - [src/models/Incident.js], [src/models/AlertChannel.js] and the
      monitor schema               the documents.

    Conventions.  A JavaScript number holding a count or a millisecond
    time stamp is a [Z]; [NaN], [undefined] and [null] are [None] of an
    option type.  A Mongo collection is a finite map from the document id
    to the document; the [Map] of the scheduling cache is a [gmap] keyed by
    the monitor id.  Every reading of the wall clock ([Date.now()],
    [new Date()]) is an explicit argument, one argument per reading.
    Requests to the outside (HTTP, the store, the delivery services) are
    answered by the environment: their answers are arguments, and the
    store is taken to be available.  Logging and socket broadcasts have no
    influence on the state below and are left out. *)

From Stdlib Require Import ZArith Lia Bool List Ascii String.
From stdpp Require Import gmap strings list fin_maps.

Local Open Scope Z_scope.

(** ** JavaScript idioms *)

Module JS.

(** [x || d] on a number: [0], [NaN] and [undefined] are falsy. *)
Definition num_or (x : option Z) (d : Z) : Z :=
  match x with
  | Some v => if v =? 0 then d else v
  | None => d
  end.

(** [s || d] on a string: the empty string and [undefined] are falsy. *)
Definition str_or (s : option string) (d : string) : string :=
  match s with
  | Some EmptyString => d
  | Some v => v
  | None => d
  end.

(** Truthiness of a string-valued field. *)
Definition str_truthy (s : option string) : bool :=
  match s with
  | Some EmptyString => false
  | Some _ => true
  | None => false
  end.

(** Truthiness of an object reference (an ObjectId, a Date, a record). *)
Definition truthy {A} (o : option A) : bool :=
  match o with Some _ => true | None => false end.

End JS.

(** ** Monitor status ([lastStatus] enum of the monitor schema) *)

Inductive status : Type := Pending | Up | Down | Degraded.

Definition status_eqb (a b : status) : bool :=
  match a, b with
  | Pending, Pending | Up, Up | Down, Down | Degraded, Degraded => true
  | _, _ => false
  end.

(** [success ? 'up' : 'down'] *)
Definition status_of_success (success : bool) : status :=
  if success then Up else Down.

(** ** The monitor document (models/Monitor.js), restricted to the fields
    the scheduler, the runners and the state machines read or write. *)

Record MonitorDoc : Type := mkMonitorDoc {
  m_id : string;
  m_teamId : string;
  m_name : string;
  m_url : string;
  m_method : string;
  m_intervalSec : Z;
  m_expectedCode : Z;
  m_timeout : Z;
  m_headers : list (string * string);
  m_body : string;
  m_alertAfterFailures : option Z;
  m_active : bool;
  m_lastStatus : option status;
  m_lastChecked : option Z;
  m_lastResponseMs : option Z;
  m_lastError : option string;
  m_consecutiveFailures : option Z;
  m_currentIncidentId : option nat;
  m_totalChecks : option Z;
  m_sslExpiresAt : option Z;
  m_sslDaysRemaining : option Z;
  m_sslIssuer : option string
}.

(** ** workers/workerCache.js *)

Module WorkerCache.

(** One value of the [Map]: the configuration copied from the monitor
    document plus the scheduler's own state. *)
Record Entry : Type := mkEntry {
  monitorId : string;
  teamId : string;
  url : string;
  method : string;
  intervalSec : Z;
  expectedCode : Z;
  timeout : Z;
  headers : list (string * string);
  body : string;
  alertAfterFailures : option Z;
  nextRunAt : Z;
  lastStatus : status;
  lastResponseMs : Z;
  consecutiveFailures : Z;
  active : bool
}.

(** The object literal shared by [addMonitor], [updateMonitor] and
    [resumeMonitor]: configuration from the document, state as given. *)
Definition entry_of (m : MonitorDoc) (next : Z) (st : status)
    (ms : Z) (fails : Z) : Entry :=
  {| monitorId := m_id m;
     teamId := m_teamId m;
     url := m_url m;
     method := m_method m;
     intervalSec := m_intervalSec m;
     expectedCode := m_expectedCode m;
     timeout := m_timeout m;
     headers := m_headers m;
     body := m_body m;
     alertAfterFailures := m_alertAfterFailures m;
     nextRunAt := next;
     lastStatus := st;
     lastResponseMs := ms;
     consecutiveFailures := fails;
     active := true |}.

(** [addMonitor(monitor)]; [now] is the reading of [Date.now()]. *)
Definition addMonitor (now : Z) (m : MonitorDoc)
    (cache : gmap string Entry) : gmap string Entry :=
  if negb (m_active m) then cache
  else <[m_id m := entry_of m now
                     (match m_lastStatus m with Some s => s | None => Pending end)
                     (JS.num_or (m_lastResponseMs m) 0)
                     (JS.num_or (m_consecutiveFailures m) 0)]> cache.

(** [removeMonitor(monitorId)] *)
Definition removeMonitor (id : string)
    (cache : gmap string Entry) : gmap string Entry :=
  delete id cache.

(** [updateMonitor(monitor)] *)
Definition updateMonitor (now : Z) (m : MonitorDoc)
    (cache : gmap string Entry) : gmap string Entry :=
  let existing := cache !! m_id m in
  if negb (m_active m) then removeMonitor (m_id m) cache
  else <[m_id m := entry_of m
                     (match existing with Some e => nextRunAt e | None => now end)
                     (match existing with Some e => lastStatus e | None => Pending end)
                     (match existing with Some e => lastResponseMs e | None => 0 end)
                     (match existing with Some e => consecutiveFailures e | None => 0 end)]>
         cache.

(** [pauseMonitor(monitorId)]: the entry is mutated in place. *)
Definition set_active (b : bool) (e : Entry) : Entry :=
  {| monitorId := monitorId e; teamId := teamId e; url := url e;
     method := method e; intervalSec := intervalSec e;
     expectedCode := expectedCode e; timeout := timeout e;
     headers := headers e; body := body e;
     alertAfterFailures := alertAfterFailures e;
     nextRunAt := nextRunAt e; lastStatus := lastStatus e;
     lastResponseMs := lastResponseMs e;
     consecutiveFailures := consecutiveFailures e;
     active := b |}.

Definition pauseMonitor (id : string)
    (cache : gmap string Entry) : gmap string Entry :=
  match cache !! id with
  | Some e => <[id := set_active false e]> cache
  | None => cache
  end.

(** [resumeMonitor(monitor)] *)
Definition resumeMonitor (now : Z) (m : MonitorDoc)
    (cache : gmap string Entry) : gmap string Entry :=
  <[m_id m := entry_of m now Pending 0 0]> cache.

(** [getMonitorsToRun()]: the due entries, each once.  The [Map] hands
    them out in the order of insertion, which the finite map does not
    record: the list has them in the order of [map_to_list], and what is
    stated of it below is membership and length, never the order. *)
Definition getMonitorsToRun (now : Z)
    (cache : gmap string Entry) : list Entry :=
  List.filter (fun e => active e && (nextRunAt e <=? now))
              (snd <$> map_to_list cache).

(** The object returned by [updateAfterCheck]. *)
Record CheckUpdate : Type := mkCheckUpdate {
  statusChanged : bool;
  previousStatus : status;
  newStatus : status;
  u_consecutiveFailures : Z;
  u_alertAfterFailures : option Z
}.

(** The four assignments of [updateAfterCheck] on the entry. *)
Definition record_check (success : bool) (responseMs next : Z)
    (e : Entry) : Entry :=
  {| monitorId := monitorId e; teamId := teamId e; url := url e;
     method := method e; intervalSec := intervalSec e;
     expectedCode := expectedCode e; timeout := timeout e;
     headers := headers e; body := body e;
     alertAfterFailures := alertAfterFailures e;
     nextRunAt := next;
     lastStatus := status_of_success success;
     lastResponseMs := responseMs;
     consecutiveFailures :=
       if success then 0 else consecutiveFailures e + 1;
     active := active e |}.

(** [updateAfterCheck(monitorId, success, responseMs, nextRunAt)]:
    the new cache and the returned object ([null] is [None]). *)
Definition updateAfterCheck (id : string) (success : bool)
    (responseMs next : Z) (cache : gmap string Entry)
    : gmap string Entry * option CheckUpdate :=
  match cache !! id with
  | Some e =>
      let previous := lastStatus e in
      let e' := record_check success responseMs next e in
      (<[id := e']> cache,
       Some {| statusChanged := negb (status_eqb previous (lastStatus e'));
               previousStatus := previous;
               newStatus := lastStatus e';
               u_consecutiveFailures := consecutiveFailures e';
               u_alertAfterFailures := alertAfterFailures e' |})
  | None => (cache, None)
  end.

(** A sequence of [updateAfterCheck] calls for one monitor, oldest
    first; each item is [(success, responseMs, nextRunAt)]. *)
Fixpoint update_all (id : string) (results : list (bool * Z * Z))
    (cache : gmap string Entry) : gmap string Entry :=
  match results with
  | [] => cache
  | (success, ms, next) :: rest =>
      update_all id rest (fst (updateAfterCheck id success ms next cache))
  end.

(** The same sequence seen on the entry alone. *)
Fixpoint run_checks (results : list (bool * Z * Z)) (e : Entry) : Entry :=
  match results with
  | [] => e
  | (success, ms, next) :: rest =>
      run_checks rest (record_check success ms next e)
  end.

End WorkerCache.

(** ** models/Incident.js *)

Inductive incident_status : Type :=
  Investigating | Identified | Monitoring | Resolved.

Inductive severity : Type := Minor | Major | Critical.

Inductive origin : Type := Auto | Manual.

Definition incident_status_eqb (a b : incident_status) : bool :=
  match a, b with
  | Investigating, Investigating | Identified, Identified
  | Monitoring, Monitoring | Resolved, Resolved => true
  | _, _ => false
  end.

Record TimelineEntry : Type := mkTimelineEntry {
  tl_status : incident_status;
  tl_message : string;
  tl_createdAt : Z
}.

Record Incident : Type := mkIncident {
  i_teamId : string;
  i_monitorId : option string;
  i_title : string;
  i_description : string;
  i_status : incident_status;
  i_severity : severity;
  i_type : origin;
  i_timeline : list TimelineEntry;
  i_startedAt : Z;
  i_resolvedAt : option Z;
  i_duration : option Z
}.

Module IncidentModel.

(** [incidentSchema.pre('save')]: [now] is the hook's [new Date()]. *)
Definition pre_save (now : Z) (i : Incident) : Incident :=
  if incident_status_eqb (i_status i) Resolved
     && negb (JS.truthy (i_resolvedAt i))
  then {| i_teamId := i_teamId i; i_monitorId := i_monitorId i;
          i_title := i_title i; i_description := i_description i;
          i_status := i_status i; i_severity := i_severity i;
          i_type := i_type i; i_timeline := i_timeline i;
          i_startedAt := i_startedAt i;
          i_resolvedAt := Some now;
          i_duration := Some (now - i_startedAt i) |}
  else i.

(** The four assignments both state machines make on the incident they
    resolve: [status = 'resolved'], [resolvedAt = new Date()],
    [duration = new Date() - startedAt], [timeline.push(...)].  The two
    [new Date()] are two readings of the clock, [t_resolved] and
    [t_duration]; [t_entry] is the default [createdAt] of the pushed
    timeline entry. *)
Definition mark_resolved (t_resolved t_duration t_entry : Z)
    (i : Incident) : Incident :=
  {| i_teamId := i_teamId i; i_monitorId := i_monitorId i;
     i_title := i_title i; i_description := i_description i;
     i_status := Resolved;
     i_severity := i_severity i; i_type := i_type i;
     i_timeline :=
       i_timeline i ++
       [ {| tl_status := Resolved;
            tl_message := "Automatically resolved - Monitor is back online";
            tl_createdAt := t_entry |} ];
     i_startedAt := i_startedAt i;
     i_resolvedAt := Some t_resolved;
     i_duration := Some (t_duration - i_startedAt i) |}.

End IncidentModel.

(** ** The stores and the alert sink *)

Inductive alert_type : Type := AlertDown | AlertUp | AlertSslExpiry.

(** The payload handed to [alertService.sendAlert] (timer mode) or to
    [addAlertJob] (queue mode). *)
Record AlertRequest : Type := mkAlertRequest {
  al_type : alert_type;
  al_teamId : string;
  al_monitorId : option string;
  al_monitorName : string;
  al_url : string;
  al_error : option string;
  al_teamName : string;
  al_responseMs : option Z;
  al_downtimeDuration : option Z;
  al_daysRemaining : option Z;
  al_expiryDate : option Z
}.

Record HistoryRow : Type := mkHistoryRow {
  h_monitorId : string;
  h_success : bool;
  h_statusCode : option Z;
  h_responseMs : Z;
  h_error : option string;
  h_checkedAt : Z
}.

(** The document store as the runners see it, together with the alerts
    requested so far (oldest first).  An incident id is the position of
    the incident in [incidents]. *)
Record Db : Type := mkDb {
  monitors : gmap string MonitorDoc;
  incidents : list Incident;
  teams : gmap string string;
  history : list HistoryRow;
  outbox : list AlertRequest
}.

Module Store.

Definition with_monitors (f : gmap string MonitorDoc -> gmap string MonitorDoc)
    (db : Db) : Db :=
  {| monitors := f (monitors db); incidents := incidents db;
     teams := teams db; history := history db; outbox := outbox db |}.

Definition with_incidents (f : list Incident -> list Incident) (db : Db) : Db :=
  {| monitors := monitors db; incidents := f (incidents db);
     teams := teams db; history := history db; outbox := outbox db |}.

(** [MonitorHistory.create(row)] *)
Definition add_history (h : HistoryRow) (db : Db) : Db :=
  {| monitors := monitors db; incidents := incidents db;
     teams := teams db; history := history db ++ [h]; outbox := outbox db |}.

(** A requested alert. *)
Definition request_alert (a : AlertRequest) (db : Db) : Db :=
  {| monitors := monitors db; incidents := incidents db;
     teams := teams db; history := history db; outbox := outbox db ++ [a] |}.

(** [team?.name || 'Unknown Team'] after [Team.findById(teamId)] *)
Definition team_name (tid : string) (db : Db) : string :=
  JS.str_or (teams db !! tid) "Unknown Team".

Definition set_currentIncidentId (v : option nat) (m : MonitorDoc) : MonitorDoc :=
  {| m_id := m_id m; m_teamId := m_teamId m; m_name := m_name m;
     m_url := m_url m; m_method := m_method m;
     m_intervalSec := m_intervalSec m; m_expectedCode := m_expectedCode m;
     m_timeout := m_timeout m; m_headers := m_headers m; m_body := m_body m;
     m_alertAfterFailures := m_alertAfterFailures m; m_active := m_active m;
     m_lastStatus := m_lastStatus m; m_lastChecked := m_lastChecked m;
     m_lastResponseMs := m_lastResponseMs m; m_lastError := m_lastError m;
     m_consecutiveFailures := m_consecutiveFailures m;
     m_currentIncidentId := v;
     m_totalChecks := m_totalChecks m;
     m_sslExpiresAt := m_sslExpiresAt m;
     m_sslDaysRemaining := m_sslDaysRemaining m;
     m_sslIssuer := m_sslIssuer m |}.

(** [Monitor.findByIdAndUpdate(id, { currentIncidentId: v })] *)
Definition link_incident (id : string) (v : option nat) (db : Db) : Db :=
  with_monitors (alter (set_currentIncidentId v) id) db.

(** [Incident.create(fields)]: the document gets the next id; the save
    hook runs on it like on every save. *)
Definition create_incident (hook_now : Z) (i : Incident) (db : Db) : Db * nat :=
  (with_incidents (fun l => l ++ [IncidentModel.pre_save hook_now i]) db,
   length (incidents db)).

(** [incident.save()] of a document loaded by [Incident.findById(id)] *)
Definition save_incident (hook_now : Z) (id : nat) (i : Incident) (db : Db) : Db :=
  with_incidents (fun l => <[id := IncidentModel.pre_save hook_now i]> l) db.

End Store.

(** The readings of the clock made while one check result goes through a
    state machine, named after the place that reads it. *)
Record Clock : Type := mkClock {
  at_next : Z;         (* [Date.now()] of [nextRunAt] (timer mode) *)
  at_lastChecked : Z;  (* [lastChecked: new Date()] *)
  at_checkedAt : Z;    (* [checkedAt: new Date()] of the history row *)
  at_started : Z;      (* default [startedAt] of a created incident *)
  at_detected : Z;     (* default [createdAt] of its first timeline entry *)
  at_resolved : Z;     (* [incident.resolvedAt = new Date()] *)
  at_duration : Z;     (* [incident.duration = new Date() - startedAt] *)
  at_entry : Z;        (* default [createdAt] of the pushed timeline entry *)
  at_save : Z;         (* the save hook's [new Date()] *)
  at_downtime : Z      (* [Date.now() - startTime] of the queue mode *)
}.

(** The argument object of both [handleStatusChange] functions. *)
Record Params : Type := mkParams {
  p_monitor : MonitorDoc;
  p_previousStatus : option status;
  p_newStatus : status;
  p_statusChanged : bool;
  p_consecutiveFailures : Z;
  p_error : option string;
  p_responseMs : Z;
  p_teamId : string
}.

Module StateMachine.

(** The incident both modes create ([Incident.create({...})]). *)
Definition auto_incident (clk : Clock) (p : Params) : Incident :=
  {| i_teamId := p_teamId p;
     i_monitorId := Some (m_id (p_monitor p));
     i_title := m_name (p_monitor p) +:+ " is down";
     i_description := JS.str_or (p_error p) "Monitor is not responding";
     i_status := Investigating;
     i_severity := Major;
     i_type := Auto;
     i_timeline :=
       [ {| tl_status := Investigating;
            tl_message :=
              "Detected: " +:+ JS.str_or (p_error p) "Monitor stopped responding";
            tl_createdAt := at_detected clk |} ];
     i_startedAt := at_started clk;
     i_resolvedAt := None;
     i_duration := None |}.

Definition down_alert (with_id : bool) (p : Params) (teamName : string)
    : AlertRequest :=
  {| al_type := AlertDown;
     al_teamId := p_teamId p;
     al_monitorId := if with_id then Some (m_id (p_monitor p)) else None;
     al_monitorName := m_name (p_monitor p);
     al_url := m_url (p_monitor p);
     al_error := p_error p;
     al_teamName := teamName;
     al_responseMs := None;
     al_downtimeDuration := None;
     al_daysRemaining := None;
     al_expiryDate := None |}.

Definition up_alert (with_id : bool) (p : Params) (teamName : string)
    (downtime : option Z) : AlertRequest :=
  {| al_type := AlertUp;
     al_teamId := p_teamId p;
     al_monitorId := if with_id then Some (m_id (p_monitor p)) else None;
     al_monitorName := m_name (p_monitor p);
     al_url := m_url (p_monitor p);
     al_error := None;
     al_teamName := teamName;
     al_responseMs := Some (p_responseMs p);
     al_downtimeDuration := downtime;
     al_daysRemaining := None;
     al_expiryDate := None |}.

(** The block both modes run once their down condition holds: create
    the incident, link it to the monitor, request the 'down' alert. *)
Definition open_incident (with_id : bool) (clk : Clock) (p : Params)
    (teamName : string) (db : Db) : Db :=
  let '(db1, iid) :=
    Store.create_incident (at_save clk) (auto_incident clk p) db in
  let db2 := Store.link_incident (m_id (p_monitor p)) (Some iid) db1 in
  Store.request_alert (down_alert with_id p teamName) db2.

(** The recovery condition, the same expression in both files:
    [statusChanged && newStatus === 'up' && previousStatus === 'down']. *)
Definition recovered (p : Params) : bool :=
  p_statusChanged p
  && status_eqb (p_newStatus p) Up
  && match p_previousStatus p with Some Down => true | _ => false end.

(** The inner block of the recovery branch, under
    [if (monitor.currentIncidentId)]: resolve the incident unless it is
    resolved already, then clear the link.  Returns the duration stored
    on a freshly resolved incident. *)
Definition resolve_current (clk : Clock) (p : Params) (iid : nat)
    (db : Db) : Db * option Z :=
  let '(db1, dur) :=
    match incidents db !! iid with
    | Some inc =>
        if negb (incident_status_eqb (i_status inc) Resolved)
        then
          let inc' := IncidentModel.mark_resolved
                        (at_resolved clk) (at_duration clk) (at_entry clk) inc in
          let db' := Store.save_incident (at_save clk) iid inc' db in
          (db', i_duration (IncidentModel.pre_save (at_save clk) inc'))
        else (db, None)
    | None => (db, None)
    end in
  (Store.link_incident (m_id (p_monitor p)) None db1, dur).

Definition is_down_alert (a : AlertRequest) : bool :=
  match al_type a with AlertDown => true | _ => false end.

Definition is_up_alert (a : AlertRequest) : bool :=
  match al_type a with AlertUp => true | _ => false end.

Definition is_ssl_alert (a : AlertRequest) : bool :=
  match al_type a with AlertSslExpiry => true | _ => false end.

End StateMachine.

(** Number to decimal text, for the template strings of the sources. *)
Definition show_Z (z : Z) : string := pretty.pretty z.

Module MonitorFields.

(** The fields [checkMonitor] (worker.js) writes with
    [Monitor.findByIdAndUpdate]. *)
Definition set_check_fields (st : status) (checked ms : Z)
    (err : option string) (fails : Z) (m : MonitorDoc) : MonitorDoc :=
  {| m_id := m_id m; m_teamId := m_teamId m; m_name := m_name m;
     m_url := m_url m; m_method := m_method m;
     m_intervalSec := m_intervalSec m; m_expectedCode := m_expectedCode m;
     m_timeout := m_timeout m; m_headers := m_headers m; m_body := m_body m;
     m_alertAfterFailures := m_alertAfterFailures m; m_active := m_active m;
     m_lastStatus := Some st;
     m_lastChecked := Some checked;
     m_lastResponseMs := Some ms;
     m_lastError := err;
     m_consecutiveFailures := Some fails;
     m_currentIncidentId := m_currentIncidentId m;
     m_totalChecks := m_totalChecks m;
     m_sslExpiresAt := m_sslExpiresAt m;
     m_sslDaysRemaining := m_sslDaysRemaining m;
     m_sslIssuer := m_sslIssuer m |}.

Definition set_totalChecks (n : Z) (m : MonitorDoc) : MonitorDoc :=
  {| m_id := m_id m; m_teamId := m_teamId m; m_name := m_name m;
     m_url := m_url m; m_method := m_method m;
     m_intervalSec := m_intervalSec m; m_expectedCode := m_expectedCode m;
     m_timeout := m_timeout m; m_headers := m_headers m; m_body := m_body m;
     m_alertAfterFailures := m_alertAfterFailures m; m_active := m_active m;
     m_lastStatus := m_lastStatus m; m_lastChecked := m_lastChecked m;
     m_lastResponseMs := m_lastResponseMs m; m_lastError := m_lastError m;
     m_consecutiveFailures := m_consecutiveFailures m;
     m_currentIncidentId := m_currentIncidentId m;
     m_totalChecks := Some n;
     m_sslExpiresAt := m_sslExpiresAt m;
     m_sslDaysRemaining := m_sslDaysRemaining m;
     m_sslIssuer := m_sslIssuer m |}.

Definition set_ssl (expires days : option Z) (issuer : option string)
    (m : MonitorDoc) : MonitorDoc :=
  {| m_id := m_id m; m_teamId := m_teamId m; m_name := m_name m;
     m_url := m_url m; m_method := m_method m;
     m_intervalSec := m_intervalSec m; m_expectedCode := m_expectedCode m;
     m_timeout := m_timeout m; m_headers := m_headers m; m_body := m_body m;
     m_alertAfterFailures := m_alertAfterFailures m; m_active := m_active m;
     m_lastStatus := m_lastStatus m; m_lastChecked := m_lastChecked m;
     m_lastResponseMs := m_lastResponseMs m; m_lastError := m_lastError m;
     m_consecutiveFailures := m_consecutiveFailures m;
     m_currentIncidentId := m_currentIncidentId m;
     m_totalChecks := m_totalChecks m;
     m_sslExpiresAt := expires;
     m_sslDaysRemaining := days;
     m_sslIssuer := issuer |}.

End MonitorFields.

(** ** workers/worker.js: the timer-driven runner *)

Module Worker.

(** [monitor.alertAfterFailures || 1] *)
Definition alertThreshold (m : MonitorDoc) : Z :=
  JS.num_or (m_alertAfterFailures m) 1.

Definition isThresholdReached (p : Params) : bool :=
  p_consecutiveFailures p =? alertThreshold (p_monitor p).

Definition isAlreadyDownMissingIncident (p : Params) : bool :=
  status_eqb (p_newStatus p) Down
  && (p_consecutiveFailures p >? alertThreshold (p_monitor p))
  && negb (JS.truthy (m_currentIncidentId (p_monitor p))).

(** The condition of the first [if] of [handleStatusChange]. *)
Definition down_trigger (p : Params) : bool :=
  (status_eqb (p_newStatus p) Down && isThresholdReached p)
  || isAlreadyDownMissingIncident p.

(** [handleStatusChange(params)] *)
Definition handleStatusChange (clk : Clock) (p : Params) (db : Db) : Db :=
  let teamName := Store.team_name (p_teamId p) db in
  let db1 :=
    if down_trigger p
    then StateMachine.open_incident false clk p teamName db
    else db in
  if StateMachine.recovered p then
    let '(db2, downtimeDuration) :=
      match m_currentIncidentId (p_monitor p) with
      | Some iid => StateMachine.resolve_current clk p iid db1
      | None => (db1, None)
      end in
    Store.request_alert
      (StateMachine.up_alert false p teamName downtimeDuration) db2
  else db1.

(** What the [axios] call of [checkMonitor] comes back with: a response
    with its status code, or an exception with its [code] and
    [message]. *)
Inductive HttpOutcome : Type :=
| Responded (statusCode : Z)
| Threw (code message : option string).

Definition outcome_success (expected : Z) (o : HttpOutcome) : bool :=
  match o with
  | Responded sc => sc =? expected
  | Threw _ _ => false
  end.

Definition outcome_statusCode (o : HttpOutcome) : option Z :=
  match o with
  | Responded sc => Some sc
  | Threw _ _ => None
  end.

Definition outcome_error (expected : Z) (o : HttpOutcome) : option string :=
  match o with
  | Responded sc =>
      if sc =? expected then None
      else Some ("Expected " +:+ show_Z expected +:+ ", got " +:+ show_Z sc)
  | Threw code message =>
      Some (JS.str_or code (JS.str_or message "Connection failed"))
  end.

(** The scheduler's world: the cache of the process and the store. *)
Record World : Type := mkWorld {
  cache : gmap string WorkerCache.Entry;
  db : Db
}.

(** [checkMonitor(monitorData)]: [monitorData] is the entry handed out
    by [getMonitorsToRun]; only its configuration fields are read, and
    no operation of the cache mutates those in place.  [responseMs] is
    the measured duration and [clk] the clock readings.  A [null] from
    [updateAfterCheck] or from [Monitor.findById] makes the argument
    object of [handleStatusChange] or its first use of [monitor] throw,
    which the surrounding [catch] swallows. *)
Definition checkMonitor (monitorData : WorkerCache.Entry)
    (o : HttpOutcome) (responseMs : Z) (clk : Clock) (w : World) : World :=
  let success := outcome_success (WorkerCache.expectedCode monitorData) o in
  let statusCode := outcome_statusCode o in
  let error := outcome_error (WorkerCache.expectedCode monitorData) o in
  let id := WorkerCache.monitorId monitorData in
  let nextRunAt := at_next clk + WorkerCache.intervalSec monitorData * 1000 in
  let '(cache1, result) :=
    WorkerCache.updateAfterCheck id success responseMs nextRunAt (cache w) in
  let db1 :=
    Store.with_monitors
      (alter (MonitorFields.set_check_fields (status_of_success success)
                (at_lastChecked clk) responseMs error
                (match result with
                 | Some r => WorkerCache.u_consecutiveFailures r
                 | None => 0
                 end)) id) (db w) in
  let db2 :=
    Store.add_history
      {| h_monitorId := id; h_success := success; h_statusCode := statusCode;
         h_responseMs := responseMs; h_error := error;
         h_checkedAt := at_checkedAt clk |} db1 in
  let db3 :=
    match monitors db2 !! id, result with
    | Some monitor, Some r =>
        handleStatusChange clk
          {| p_monitor := monitor;
             p_previousStatus := Some (WorkerCache.previousStatus r);
             p_newStatus := WorkerCache.newStatus r;
             p_statusChanged := WorkerCache.statusChanged r;
             p_consecutiveFailures := WorkerCache.u_consecutiveFailures r;
             p_error := error;
             p_responseMs := responseMs;
             p_teamId := WorkerCache.teamId monitorData |} db2
    | _, _ => db2
    end in
  {| cache := cache1; db := db3 |}.

(** The down rule as the specification words it. *)
Definition down_rule (p : Params) : Prop :=
  p_newStatus p = Down
  /\ (p_consecutiveFailures p = alertThreshold (p_monitor p)
      \/ (p_consecutiveFailures p > alertThreshold (p_monitor p)
          /\ m_currentIncidentId (p_monitor p) = None)).

(** The part of the world a streak of failures depends on: the cache
    entry of the monitor with its expected code and failure count, the
    stored monitor with its threshold and whether an incident is linked,
    and the number of incidents. *)
Record streak_state (id : string) (w : World) (expected : Z)
    (fails : Z) (thr : Z) (linked : bool) (created : nat) : Prop := {
  ss_entry :
    exists e, cache w !! id = Some e
              /\ WorkerCache.monitorId e = id
              /\ WorkerCache.expectedCode e = expected
              /\ WorkerCache.consecutiveFailures e = fails;
  ss_doc :
    exists m, monitors (db w) !! id = Some m
              /\ m_id m = id
              /\ alertThreshold m = thr
              /\ JS.truthy (m_currentIncidentId m) = linked;
  ss_incidents : length (incidents (db w)) = created
}.

(** Whether a streak of [n] failed checks that starts at count [k]
    creates an incident: it crosses the threshold, or it starts at or
    past the threshold with no incident linked. *)
Definition streak_fires (k thr : Z) (linked : bool) (n : nat) : bool :=
  match n with
  | O => false
  | S _ => ((k <? thr) && (thr <=? k + Z.of_nat n))
           || ((thr <=? k) && negb linked)
  end.

(** The checks of one monitor in successive sweeps, oldest first: each
    runs on the entry the cache holds for the monitor at that time. *)
Definition check_by_id (id : string) (o : HttpOutcome) (responseMs : Z)
    (clk : Clock) (w : World) : World :=
  match cache w !! id with
  | Some e => checkMonitor e o responseMs clk w
  | None => w
  end.

Fixpoint check_all (id : string) (checks : list (HttpOutcome * Z * Clock))
    (w : World) : World :=
  match checks with
  | [] => w
  | (o, ms, clk) :: rest => check_all id rest (check_by_id id o ms clk w)
  end.

End Worker.

(** ** workers/bullWorker.js: the queue-backed runner *)

Module BullWorker.

(** The [sslInfo] object of a check result (checks/http.js). *)
Record SslInfo : Type := mkSslInfo {
  expiresAt : Z;
  daysRemaining : option Z;
  issuer : string
}.

(** The uniform result of [performCheck]. *)
Record CheckResult : Type := mkCheckResult {
  success : bool;
  responseMs : Z;
  error : option string;
  statusCode : option Z;
  sslInfo : option SslInfo
}.

(** [previousStatus !== newStatus && previousStatus !== 'pending'] *)
Definition statusChanged (previousStatus : option status)
    (newStatus : status) : bool :=
  negb (match previousStatus with
        | Some s => status_eqb s newStatus
        | None => false
        end)
  && negb (match previousStatus with
           | Some s => status_eqb s Pending
           | None => false
           end).

(** The counter update of [processMonitorCheck]. *)
Definition next_failures (stored : option Z) (success : bool) : Z :=
  let consecutiveFailures := JS.num_or stored 0 in
  if success then 0 else consecutiveFailures + 1.

(** The condition of the first [if] of [handleStatusChange]. *)
Definition down_trigger (p : Params) : bool :=
  status_eqb (p_newStatus p) Down
  && (p_consecutiveFailures p
      =? JS.num_or (m_alertAfterFailures (p_monitor p)) 1).

(** [handleStatusChange(params)] *)
Definition handleStatusChange (clk : Clock) (p : Params) (db : Db) : Db :=
  let teamName := Store.team_name (p_teamId p) db in
  let db1 :=
    if down_trigger p
    then StateMachine.open_incident true clk p teamName db
    else db in
  if StateMachine.recovered p then
    let db2 :=
      match m_currentIncidentId (p_monitor p) with
      | Some iid => fst (StateMachine.resolve_current clk p iid db1)
      | None => db1
      end in
    let startTime :=
      match m_currentIncidentId (p_monitor p) with
      | Some iid => i_startedAt <$> (incidents db2 !! iid)
      | None => None
      end in
    let downtimeDuration :=
      match startTime with
      | Some t => Some (at_downtime clk - t)
      | None => None
      end in
    Store.request_alert
      (StateMachine.up_alert true p teamName downtimeDuration) db2
  else db1.

Definition alertDays : list Z := [30; 14; 7; 3; 1].

(** [alertDays.includes(sslInfo.daysRemaining)] *)
Definition includes (l : list Z) (x : option Z) : bool :=
  match x with
  | Some v => existsb (Z.eqb v) l
  | None => false
  end.

(** [handleSslExpiryAlert(monitor, sslInfo, teamId)] *)
Definition handleSslExpiryAlert (monitor : MonitorDoc) (info : SslInfo)
    (tid : string) (db : Db) : Db :=
  let teamName := Store.team_name tid db in
  if includes alertDays (daysRemaining info) then
    Store.request_alert
      {| al_type := AlertSslExpiry;
         al_teamId := tid;
         al_monitorId := Some (m_id monitor);
         al_monitorName := m_name monitor;
         al_url := m_url monitor;
         al_error := None;
         al_teamName := teamName;
         al_responseMs := None;
         al_downtimeDuration := None;
         al_daysRemaining := daysRemaining info;
         al_expiryDate := Some (expiresAt info) |} db
  else db.

(** [sslInfo && sslInfo.daysRemaining <= 30] *)
Definition within_30_days (s : option SslInfo) : bool :=
  match s with
  | Some info =>
      match daysRemaining info with
      | Some d => d <=? 30
      | None => false
      end
  | None => false
  end.

(** [processMonitorCheck(data)] once [performCheck(data)] has returned
    [result]; of the job data only [monitorId] and [teamId] are used. *)
Definition processMonitorCheck (monitorId teamId : string)
    (result : CheckResult) (clk : Clock) (db : Db) : Db :=
  let newStatus := status_of_success (success result) in
  match monitors db !! monitorId with
  | None => db
  | Some monitor =>
      let previousStatus := m_lastStatus monitor in
      let changed := statusChanged previousStatus newStatus in
      let consecutiveFailures :=
        next_failures (m_consecutiveFailures monitor) (success result) in
      let update (m : MonitorDoc) : MonitorDoc :=
        let m1 := MonitorFields.set_check_fields newStatus (at_lastChecked clk)
                    (responseMs result) (error result) consecutiveFailures m in
        let m2 := MonitorFields.set_totalChecks
                    (JS.num_or (m_totalChecks monitor) 0 + 1) m1 in
        match sslInfo result with
        | Some info =>
            MonitorFields.set_ssl (Some (expiresAt info)) (daysRemaining info)
              (Some (issuer info)) m2
        | None => m2
        end in
      let db1 := Store.with_monitors (alter update monitorId) db in
      let db2 :=
        Store.add_history
          {| h_monitorId := monitorId; h_success := success result;
             h_statusCode := statusCode result;
             h_responseMs := responseMs result; h_error := error result;
             h_checkedAt := at_checkedAt clk |} db1 in
      let db3 :=
        handleStatusChange clk
          {| p_monitor := monitor;
             p_previousStatus := previousStatus;
             p_newStatus := newStatus;
             p_statusChanged := changed;
             p_consecutiveFailures := consecutiveFailures;
             p_error := error result;
             p_responseMs := responseMs result;
             p_teamId := teamId |} db2 in
      match sslInfo result with
      | Some info =>
          if within_30_days (sslInfo result)
          then handleSslExpiryAlert monitor info teamId db3
          else db3
      | None => db3
      end
  end.

(** Whether a check result carries certificate data whose
    [daysRemaining] is one of the alert days. *)
Definition on_alert_day (r : CheckResult) : bool :=
  match sslInfo r with
  | Some info => includes alertDays (daysRemaining info)
  | None => false
  end.

(** The 'sslExpiry' alerts requested so far for monitor [id] at
    [days] days remaining. *)
Definition ssl_alerts_for (id : string) (days : Z) (db : Db)
    : list AlertRequest :=
  List.filter
    (fun a => StateMachine.is_ssl_alert a
              && match al_monitorId a, al_daysRemaining a with
                 | Some i, Some d => String.eqb i id && (d =? days)
                 | _, _ => false
                 end)
    (outbox db).

(** A sequence of checks of one monitor, oldest first. *)
Fixpoint process_all (monitorId teamId : string)
    (checks : list (CheckResult * Clock)) (db : Db) : Db :=
  match checks with
  | [] => db
  | (r, clk) :: rest =>
      process_all monitorId teamId rest
        (processMonitorCheck monitorId teamId r clk db)
  end.

End BullWorker.

(** ** The alert dispatcher (src/services/alerts/telegram.js) *)

Module Alerts.

(** The [alertType] argument; ['incident'] comes from the incident
    controller. *)
Inductive kind : Type := KDown | KUp | KSslExpiry | KIncident.

Inductive channel_type : Type :=
  Email | Telegram | Webhook | Slack | Discord | OtherType (name : string).

Record Config : Type := mkConfig {
  emails : list string;
  telegramBotToken : option string;
  telegramChatId : option string;
  webhookUrl : option string
}.

(** models/AlertChannel.js *)
Record Channel : Type := mkChannel {
  ch_id : string;
  ch_teamId : string;
  ch_type : channel_type;
  ch_enabled : bool;
  ch_config : Config;
  notify_down : bool;
  notify_up : bool;
  notify_degraded : bool;
  notify_sslExpiry : bool;
  cooldownMinutes : Z;
  lastAlertAt : option Z;
  alertsSent : Z;
  lastError : option string
}.

(** One call into a delivery service (mailer, Telegram, webhook, Slack
    or Discord client): the channel it was made for and when. *)
Record Attempt : Type := mkAttempt {
  att_channel : string;
  att_kind : kind;
  att_time : Z
}.

(** What a [send...Alert] helper does. *)
Inductive send_result : Type :=
| Delivered            (* the delivery service was called and returned *)
| DeliveryFailed (message : string)  (* it was called and threw *)
| Ignored              (* returned without calling a service *)
| Rejected (message : string).       (* threw without calling a service *)

(** The outcome of the call into the delivery service is the
    environment's: [None] when it returns, the message when it throws. *)
Definition Transport : Type := Attempt -> option string.

Definition deliver (tr : Transport) (a : Attempt) : send_result :=
  match tr a with
  | None => Delivered
  | Some msg => DeliveryFailed msg
  end.

Definition sendEmailAlert (tr : Transport) (a : Attempt) (cfg : Config)
    : send_result :=
  match emails cfg with
  | [] => Rejected "No email addresses configured"
  | _ =>
      match att_kind a with
      | KDown | KUp | KSslExpiry => deliver tr a
      | KIncident => Rejected "Unknown alert type for email: incident"
      end
  end.

Definition sendTelegramAlert (tr : Transport) (a : Attempt) (cfg : Config)
    : send_result :=
  if negb (JS.str_truthy (telegramBotToken cfg))
     || negb (JS.str_truthy (telegramChatId cfg))
  then Rejected "Telegram not configured"
  else deliver tr a.

(** The dispatcher never binds the name [webhookService] it uses in
    every arm of this helper's [switch], so evaluating any arm throws a
    [ReferenceError] before a request is made. *)
Definition sendWebhookAlert (tr : Transport) (a : Attempt) (cfg : Config)
    : send_result :=
  if negb (JS.str_truthy (webhookUrl cfg))
  then Rejected "Webhook URL not configured"
  else Rejected "webhookService is not defined".

Definition sendSlackAlert (tr : Transport) (a : Attempt) (cfg : Config)
    : send_result :=
  if negb (JS.str_truthy (webhookUrl cfg))
  then Rejected "Slack Webhook URL not configured"
  else match att_kind a with
       | KDown | KUp | KSslExpiry => deliver tr a
       | KIncident => Ignored
       end.

Definition sendDiscordAlert (tr : Transport) (a : Attempt) (cfg : Config)
    : send_result :=
  if negb (JS.str_truthy (webhookUrl cfg))
  then Rejected "Discord Webhook URL not configured"
  else match att_kind a with
       | KDown | KUp | KSslExpiry => deliver tr a
       | KIncident => Ignored
       end.

(** The [switch (type)] of [sendToChannel]. *)
Definition dispatch (tr : Transport) (a : Attempt) (c : Channel)
    : send_result :=
  match ch_type c with
  | Email => sendEmailAlert tr a (ch_config c)
  | Telegram => sendTelegramAlert tr a (ch_config c)
  | Webhook => sendWebhookAlert tr a (ch_config c)
  | Slack => sendSlackAlert tr a (ch_config c)
  | Discord => sendDiscordAlert tr a (ch_config c)
  | OtherType name => Rejected ("Unknown channel type: " +:+ name)
  end.

Definition attempted (r : send_result) : bool :=
  match r with
  | Delivered | DeliveryFailed _ => true
  | Ignored | Rejected _ => false
  end.

Definition on_success (now : Z) (c : Channel) : Channel :=
  {| ch_id := ch_id c; ch_teamId := ch_teamId c; ch_type := ch_type c;
     ch_enabled := ch_enabled c; ch_config := ch_config c;
     notify_down := notify_down c; notify_up := notify_up c;
     notify_degraded := notify_degraded c;
     notify_sslExpiry := notify_sslExpiry c;
     cooldownMinutes := cooldownMinutes c;
     lastAlertAt := Some now;
     alertsSent := alertsSent c + 1;
     lastError := None |}.

Definition on_failure (message : string) (c : Channel) : Channel :=
  {| ch_id := ch_id c; ch_teamId := ch_teamId c; ch_type := ch_type c;
     ch_enabled := ch_enabled c; ch_config := ch_config c;
     notify_down := notify_down c; notify_up := notify_up c;
     notify_degraded := notify_degraded c;
     notify_sslExpiry := notify_sslExpiry c;
     cooldownMinutes := cooldownMinutes c;
     lastAlertAt := lastAlertAt c;
     alertsSent := alertsSent c;
     lastError := Some message |}.

(** The schema's enum of [type]: [channel.save()] validates the loaded
    document and rejects one whose type is not listed. *)
Definition in_schema (t : channel_type) : bool :=
  match t with
  | Email | Telegram | Webhook => true
  | Slack | Discord | OtherType _ => false
  end.

(** [sendToChannel(channel, alertType, data)] at time [now]: the stored
    channel document afterwards, the delivery attempts made (none or
    one) and whether the promise is fulfilled.  For a type outside the
    schema's enum the [save()] of the [try] block rejects, so does the
    one of the [catch] block, and nothing is stored. *)
Definition sendToChannel (tr : Transport) (now : Z) (k : kind)
    (c : Channel) : Channel * list Attempt * bool :=
  let a := {| att_channel := ch_id c; att_kind := k; att_time := now |} in
  let r := dispatch tr a c in
  let log := if attempted r then [a] else [] in
  if in_schema (ch_type c) then
    match r with
    | Delivered | Ignored => (on_success now c, log, true)
    | DeliveryFailed msg | Rejected msg => (on_failure msg c, log, false)
    end
  else (c, log, false).

(** [notifyOn.<alertType>: true] of the query of [sendAlert]. *)
Definition notifies (k : kind) (c : Channel) : bool :=
  match k with
  | KDown => notify_down c
  | KUp => notify_up c
  | KSslExpiry => notify_sslExpiry c
  | KIncident => false
  end.

Definition selected (team : string) (k : kind) (c : Channel) : bool :=
  String.eqb (ch_teamId c) team && ch_enabled c && notifies k c.

(** [sendAlert(teamId, alertType, data)] over the channel collection:
    the collection afterwards, the delivery attempts, and the [sent] and
    [failed] counts of the returned object.  [clock c] is the reading of
    the clock made while channel [c] is handled. *)
Fixpoint sendAlert (tr : Transport) (clock : string -> Z) (team : string)
    (k : kind) (channels : list Channel)
    : list Channel * list Attempt * (nat * nat) :=
  match channels with
  | [] => ([], [], (0%nat, 0%nat))
  | c :: rest =>
      let '(rest', log', (sent, failed)) := sendAlert tr clock team k rest in
      if selected team k c then
        let '(c', log, ok) := sendToChannel tr (clock (ch_id c)) k c in
        (c' :: rest', log ++ log',
         if ok then (S sent, failed) else (sent, S failed))
      else (c :: rest', log', (sent, failed))
  end.

(** The cooldown gate as the schema comment on [cooldownMinutes]
    describes it ("Don't send more than 1 alert per 5 minutes"): a send
    at [now] is allowed when no alert was sent yet or the last one is at
    least [cooldownMinutes] old. *)
Definition cooldown_elapsed (now : Z) (c : Channel) : bool :=
  match lastAlertAt c with
  | Some t => cooldownMinutes c * 60000 <=? now - t
  | None => true
  end.

End Alerts.

(** ** Text helpers shared by the check executors

    A text is the sequence of the bytes of its UTF-8 form (of a
    well-formed string: no lone surrogate).  A character outside ASCII is
    two to four bytes, none of which is an ASCII byte. *)

Module Text.

(** What [String.prototype.toLowerCase] does to a text of ASCII
    characters: the letters A to Z are folded, nothing else.  On other
    texts the language's function is an argument of the definitions
    that use it (see [Keyword]). *)
Definition lower_ascii (c : ascii) : ascii :=
  let n := N_of_ascii c in
  if ((65 <=? n) && (n <=? 90))%N then ascii_of_N (n + 32) else c.

Fixpoint fold_ascii (s : string) : string :=
  match s with
  | EmptyString => EmptyString
  | String c r => String (lower_ascii c) (fold_ascii r)
  end.

(** Whether every character of a text is ASCII. *)
Fixpoint is_ascii (s : string) : bool :=
  match s with
  | EmptyString => true
  | String c r => (N_of_ascii c <? 128)%N && is_ascii r
  end.

(** [hay.includes(needle)] *)
Fixpoint includes (hay needle : string) : bool :=
  String.prefix needle hay
  || match hay with
     | EmptyString => false
     | String _ rest => includes rest needle
     end.

(** White space is what [trim()] strips, [\s] matches and [parseInt]
    skips: U+0009 to U+000D, U+0020, U+00A0, U+1680, U+2000 to U+200A,
    U+2028, U+2029, U+202F, U+205F, U+3000 and U+FEFF.  [space_width s]
    is the number of bytes of the white-space character [s] starts
    with, [0] when it starts with none. *)
Definition space_width (s : string) : nat :=
  match s with
  | EmptyString => 0
  | String c r =>
      let b := N_of_ascii c in
      if ((9 <=? b) && (b <=? 13) || (b =? 32))%N then 1
      else
        match r with
        | EmptyString => 0
        | String c1 r1 =>
            let b1 := N_of_ascii c1 in
            if (b =? 194)%N then (if (b1 =? 160)%N then 2 else 0)
            else
              match r1 with
              | EmptyString => 0
              | String c2 _ =>
                  let b2 := N_of_ascii c2 in
                  if ((b =? 225) && (b1 =? 154) && (b2 =? 128))%N then 3
                  else if ((b =? 226) && (b1 =? 128)
                           && ((128 <=? b2) && (b2 <=? 138)
                               || (b2 =? 168) || (b2 =? 169)
                               || (b2 =? 175)))%N then 3
                  else if ((b =? 226) && (b1 =? 129) && (b2 =? 159))%N then 3
                  else if ((b =? 227) && (b1 =? 128) && (b2 =? 128))%N then 3
                  else if ((b =? 239) && (b1 =? 187) && (b2 =? 191))%N then 3
                  else 0
              end
        end
  end.

(** [skip] counts the bytes still to pass of a white-space character
    already recognised. *)
Fixpoint trimStart_go (s : string) (skip : nat) : string :=
  match s with
  | EmptyString => EmptyString
  | String _ r =>
      match skip with
      | S k => trimStart_go r k
      | O =>
          match space_width s with
          | O => s
          | S k => trimStart_go r k
          end
      end
  end.

Definition trimStart (s : string) : string := trimStart_go s 0.

(** Whether a text is made of white space only. *)
Fixpoint all_space_go (s : string) (skip : nat) : bool :=
  match s with
  | EmptyString => true
  | String _ r =>
      match skip with
      | S k => all_space_go r k
      | O =>
          match space_width s with
          | O => false
          | S k => all_space_go r k
          end
      end
  end.

Definition all_space (s : string) : bool := all_space_go s 0.

Fixpoint trimEnd (s : string) : string :=
  match s with
  | EmptyString => EmptyString
  | String c r => if all_space s then EmptyString else String c (trimEnd r)
  end.

(** [s.trim()] *)
Definition trim (s : string) : string := trimEnd (trimStart s).

(** [s.split(/\s+/)]: [cur] is the piece being read, [in_sep] tells
    that the previous character was white space, [skip] as above. *)
Fixpoint split_go (s cur : string) (in_sep : bool) (skip : nat)
    : list string :=
  match s with
  | EmptyString => [cur]
  | String c r =>
      match skip with
      | S k => split_go r cur in_sep k
      | O =>
          match space_width s with
          | O => split_go r (cur +:+ String c EmptyString) false 0
          | S k =>
              if in_sep then split_go r cur true k
              else cur :: split_go r EmptyString true k
          end
      end
  end.

Definition split_ws (s : string) : list string :=
  split_go s EmptyString false 0.

Definition digit (c : ascii) : option Z :=
  Z.of_nat <$> Ascii.is_nat c.

Fixpoint digits_go (s : string) (acc : Z) (seen : bool) : option Z :=
  match s with
  | EmptyString => if seen then Some acc else None
  | String c r =>
      match digit c with
      | Some d => digits_go r (acc * 10 + d) true
      | None => if seen then Some acc else None
      end
  end.

(** [parseInt(s, 10)]; [None] is [NaN]. *)
Definition parseInt (s : string) : option Z :=
  match trimStart s with
  | String "-" r => Z.opp <$> digits_go r 0 false
  | String "+" r => digits_go r 0 false
  | t => digits_go t 0 false
  end.

End Text.

(** ** workers/checks/keyword.js *)

Module Keyword.

(** The fields of the job data [checkKeyword] reads. *)
Record Monitor : Type := mkMonitor {
  method : option string;
  url : string;
  timeout : option Z;
  headers : list (string * string);
  keyword : option string;
  keywordType : option string
}.

(** What the [axios] call comes back with.  [body] is the text the
    function searches: [response.data] when that is a string, its
    [JSON.stringify] otherwise. *)
Inductive HttpOutcome : Type :=
| Responded (statusCode : Z) (body : string)
| Threw (code message : option string).

Record Result : Type := mkResult {
  success : bool;
  statusCode : option Z;
  responseMs : Z;
  error : option string;
  keywordFound : bool
}.

(** The double-quote character of the error messages. *)
Definition dquote : ascii := "034"%char.

Section Lowering.

(** [String.prototype.toLowerCase], the language's: it folds every
    cased letter by the tables of the Unicode standard the engine
    ships; on a text of ASCII characters it is [Text.fold_ascii]. *)
Variable toLowerCase : string -> string.

(** [body.toLowerCase().includes(keyword.toLowerCase())] *)
Definition found (body kw : string) : bool :=
  Text.includes (toLowerCase body) (toLowerCase kw).

(** [checkKeyword(monitor)]; [elapsed] is [Date.now() - startTime]. *)
Definition checkKeyword (monitor : Monitor) (o : HttpOutcome)
    (elapsed : Z) : Result :=
  match o with
  | Responded sc body =>
      if (sc <? 200) || (sc >=? 400) then
        {| success := false; statusCode := Some sc; responseMs := elapsed;
           error := Some ("HTTP " +:+ show_Z sc); keywordFound := false |}
      else
        let keywordType := JS.str_or (keywordType monitor) "contains" in
        match keyword monitor with
        | Some (String c r as kw) =>
            let keywordFound := found body kw in
            if String.eqb keywordType "contains" then
              {| success := keywordFound; statusCode := Some sc;
                 responseMs := elapsed;
                 error :=
                   if keywordFound then None
                   else Some ("Keyword " +:+ String dquote kw
                              +:+ String dquote " not found");
                 keywordFound := keywordFound |}
            else if String.eqb keywordType "not_contains" then
              {| success := negb keywordFound; statusCode := Some sc;
                 responseMs := elapsed;
                 error :=
                   if negb keywordFound then None
                   else Some ("Keyword " +:+ String dquote kw
                              +:+ String dquote " found (should not be present)");
                 keywordFound := keywordFound |}
            else
              {| success := false; statusCode := Some sc;
                 responseMs := elapsed; error := None;
                 keywordFound := keywordFound |}
        | _ =>
            {| success := false; statusCode := Some sc; responseMs := elapsed;
               error := Some "No keyword specified"; keywordFound := false |}
        end
  | Threw code message =>
      {| success := false; statusCode := None; responseMs := elapsed;
         error := Some (JS.str_or code (JS.str_or message "Request failed"));
         keywordFound := false |}
  end.

End Lowering.

(** Whether [toLowerCase] is the fold of A to Z on the texts of ASCII
    characters, as the language's is. *)
Definition ascii_faithful (toLowerCase : string -> string) : Prop :=
  forall s, Text.is_ascii s = true -> toLowerCase s = Text.fold_ascii s.

End Keyword.

(** ** The heartbeat executor (src/workers/workerCache.js) *)

Module Heartbeat.

Record Monitor : Type := mkMonitor {
  lastHeartbeat : option Z;
  heartbeatInterval : option Z
}.

Record Result : Type := mkResult {
  success : bool;
  error : option string;
  responseMs : Z;
  r_lastHeartbeat : option Z
}.

(** [Math.round(x)] of the rational [n / 1000]: the nearest integer,
    halves upwards. *)
Definition round_div_1000 (n : Z) : Z := (2 * n + 1000) / 2000.

(** [checkHeartbeat(monitor)] at time [now] (milliseconds); the
    comparison in seconds is made on the milliseconds. *)
Definition checkHeartbeat (now : Z) (monitor : Monitor) : Result :=
  let expectedInterval := JS.num_or (heartbeatInterval monitor) 300 in
  let gracePeriod := 30 in
  match lastHeartbeat monitor with
  | None =>
      {| success := false; error := Some "No heartbeat received yet";
         responseMs := 0; r_lastHeartbeat := None |}
  | Some last =>
      let maxAllowedInterval := expectedInterval + gracePeriod in
      if now - last <=? maxAllowedInterval * 1000 then
        {| success := true; error := None; responseMs := 0;
           r_lastHeartbeat := Some last |}
      else
        let missedBy := round_div_1000 (now - last - expectedInterval * 1000) in
        {| success := false;
           error := Some ("Heartbeat missed by " +:+ show_Z missedBy
                          +:+ " seconds");
           responseMs := 0; r_lastHeartbeat := Some last |}
  end.

End Heartbeat.

(** ** The [Date] object, as far as checks/cronjob.js uses it

    A date is its time value in milliseconds since the epoch, or [None]
    for an invalid date (time value [NaN]).  Local time is UTC shifted by a
    fixed offset [tz] (milliseconds); daylight-saving changes are outside
    the model.  The functions are the abstract operations of the language
    specification under their names there. *)

Module JSDate.

Definition Date : Type := option Z.

Definition msPerDay : Z := 86400000.
Definition msPerHour : Z := 3600000.
Definition msPerMinute : Z := 60000.
Definition msPerSecond : Z := 1000.

Definition Day (t : Z) : Z := t / msPerDay.
Definition TimeWithinDay (t : Z) : Z := t mod msPerDay.
Definition HourFromTime (t : Z) : Z := (t / msPerHour) mod 24.
Definition MinFromTime (t : Z) : Z := (t / msPerMinute) mod 60.
Definition SecFromTime (t : Z) : Z := (t / msPerSecond) mod 60.
Definition msFromTime (t : Z) : Z := t mod msPerSecond.

Definition MakeTime (hour min sec ms : Z) : Z :=
  hour * msPerHour + min * msPerMinute + sec * msPerSecond + ms.

Definition MakeDate (day time : Z) : Z := day * msPerDay + time.

Definition TimeClip (t : Z) : Date :=
  if Z.abs t <=? 8640000000000000 then Some t else None.

Definition LocalTime (tz t : Z) : Z := t + tz.
Definition UTC (tz t : Z) : Z := t - tz.

(** [d.getHours()] of a valid date *)
Definition getHours (tz : Z) (t : Z) : Z := HourFromTime (LocalTime tz t).

(** [d.setMinutes(min)] *)
Definition setMinutes (tz : Z) (min : option Z) (d : Date) : Date :=
  match d, min with
  | Some u, Some m =>
      let t := LocalTime tz u in
      TimeClip (UTC tz (MakeDate (Day t)
                  (MakeTime (HourFromTime t) m (SecFromTime t) (msFromTime t))))
  | _, _ => None
  end.

(** [d.setHours(hour)] *)
Definition setHours (tz : Z) (hour : option Z) (d : Date) : Date :=
  match d, hour with
  | Some u, Some h =>
      let t := LocalTime tz u in
      TimeClip (UTC tz (MakeDate (Day t)
                  (MakeTime h (MinFromTime t) (SecFromTime t) (msFromTime t))))
  | _, _ => None
  end.

(** [d.setSeconds(sec)] *)
Definition setSeconds (tz : Z) (sec : Z) (d : Date) : Date :=
  match d with
  | Some u =>
      let t := LocalTime tz u in
      TimeClip (UTC tz (MakeDate (Day t)
                  (MakeTime (HourFromTime t) (MinFromTime t) sec (msFromTime t))))
  | None => None
  end.

(** [d.setMilliseconds(ms)] *)
Definition setMilliseconds (tz : Z) (ms : Z) (d : Date) : Date :=
  match d with
  | Some u =>
      let t := LocalTime tz u in
      TimeClip (UTC tz (MakeDate (Day t)
                  (MakeTime (HourFromTime t) (MinFromTime t) (SecFromTime t) ms)))
  | None => None
  end.

(** [d.setHours(d.getHours() + 1)] *)
Definition addHour (tz : Z) (d : Date) : Date :=
  match d with
  | Some u => setHours tz (Some (getHours tz u + 1)) d
  | None => None
  end.

(** [d.setDate(d.getDate() + 1)]: [MakeDay] of the year and month of
    the date with the day of the month plus one is the day after
    [Day t], whatever the month, so the calendar is not needed. *)
Definition addDay (tz : Z) (d : Date) : Date :=
  match d with
  | Some u =>
      let t := LocalTime tz u in
      TimeClip (UTC tz (MakeDate (Day t + 1) (TimeWithinDay t)))
  | None => None
  end.

(** [a <= b] and [a > b] on dates: false as soon as one is invalid. *)
Definition le (a b : Date) : bool :=
  match a, b with
  | Some x, Some y => x <=? y
  | _, _ => false
  end.

Definition gt (a b : Date) : bool :=
  match a, b with
  | Some x, Some y => x >? y
  | _, _ => false
  end.

Definition lt (a b : Date) : bool :=
  match a, b with
  | Some x, Some y => x <? y
  | _, _ => false
  end.

(** Zero-padded decimal of a non-negative number. *)
Fixpoint pad (fuel width : nat) (s : string) : string :=
  match fuel with
  | O => s
  | S f => if (String.length s <? width)%nat then pad f width ("0" +:+ s) else s
  end.

Definition padded (width : nat) (n : Z) : string :=
  pad width width (show_Z n).

(** Year, month (1-12) and day of the month of a day number. *)
Definition civil (days : Z) : Z * Z * Z :=
  let z := days + 719468 in
  let era := z / 146097 in
  let doe := z - era * 146097 in
  let yoe := (doe - doe / 1460 + doe / 36524 - doe / 146096) / 365 in
  let doy := doe - (365 * yoe + yoe / 4 - yoe / 100) in
  let mp := (5 * doy + 2) / 153 in
  let d := doy - (153 * mp + 2) / 5 + 1 in
  let m := if mp <? 10 then mp + 3 else mp - 9 in
  let y := yoe + era * 400 + (if m <=? 2 then 1 else 0) in
  (y, m, d).

(** [d.toISOString()] of a valid date *)
Definition toISOString (t : Z) : string :=
  let '(y, m, d) := civil (Day t) in
  let year :=
    if (0 <=? y) && (y <=? 9999) then padded 4 y
    else if y <? 0 then "-" +:+ padded 6 (- y)
    else "+" +:+ padded 6 y in
  year +:+ "-" +:+ padded 2 m +:+ "-" +:+ padded 2 d
    +:+ "T" +:+ padded 2 (HourFromTime t)
    +:+ ":" +:+ padded 2 (MinFromTime t)
    +:+ ":" +:+ padded 2 (SecFromTime t)
    +:+ "." +:+ padded 3 (msFromTime t) +:+ "Z".

End JSDate.

(** ** workers/checks/cronjob.js *)

Module Cronjob.

Import JSDate.

Record Monitor : Type := mkMonitor {
  lastCronRun : option Z;
  cronGracePeriod : option Z;
  cronExpression : option string;
  expectedCronRun : option Z
}.

Record Result : Type := mkResult {
  success : bool;
  error : option string;
  responseMs : Z;
  r_lastCronRun : option Z
}.

(** The block under the comment "Set minutes" of [getNextCronRun]. *)
Definition set_minute_field (tz now : Z) (minute : string) (next : Date)
    : Date :=
  if negb (String.eqb minute "*") then
    let next := setMinutes tz (Text.parseInt minute) next in
    if le next (Some now) then addHour tz next else next
  else next.

(** The block under the comment "Set hours". *)
Definition set_hour_field (tz now : Z) (hour : string) (next : Date)
    : Date :=
  if negb (String.eqb hour "*") then
    let next := setHours tz (Text.parseInt hour) next in
    if le next (Some now) then addDay tz next else next
  else next.

(** [getNextCronRun(cronExpression)] with the clock at [now]: [None]
    is [null], [Some d] the returned date, valid or not. *)
Definition getNextCronRun (tz now : Z) (cronExpression : string)
    : option Date :=
  match Text.split_ws (Text.trim cronExpression) with
  | [minute; hour; dayOfMonth; month; dayOfWeek] =>
      let next : Date := Some now in
      let next := set_minute_field tz now minute next in
      let next := set_hour_field tz now hour next in
      let next := setSeconds tz 0 next in
      let next := setMilliseconds tz 0 next in
      Some next
  | _ => None
  end.

(** [new Date(d.getTime() + ms)] *)
Definition plus_ms (d : Date) (ms : Z) : Date :=
  match d with
  | Some t => TimeClip (t + ms)
  | None => None
  end.

(** [checkCronjob(monitor)]: [now] is the function's own
    [new Date()], [inner] the one [getNextCronRun] makes when it is
    called. *)
Definition checkCronjob (tz now inner : Z) (monitor : Monitor) : Result :=
  let gracePeriod := JS.num_or (cronGracePeriod monitor) 60 in
  match cronExpression monitor with
  | Some (String _ _ as cronExpression) =>
      match lastCronRun monitor with
      | None =>
          match getNextCronRun tz inner cronExpression with
          | Some expectedRun =>
              if gt (Some now) (plus_ms expectedRun (gracePeriod * 1000))
              then {| success := false;
                      error := Some "Cron job never reported";
                      responseMs := 0; r_lastCronRun := None |}
              else {| success := true; error := None;
                      responseMs := 0; r_lastCronRun := None |}
          | None =>
              {| success := true; error := None;
                 responseMs := 0; r_lastCronRun := None |}
          end
      | Some last =>
          let expectedRun :=
            match expectedCronRun monitor with
            | Some e => Some (Some e)
            | None => getNextCronRun tz inner cronExpression
            end in
          match expectedRun with
          | Some expectedTime =>
              let graceEndTime := plus_ms expectedTime (gracePeriod * 1000) in
              if gt (Some now) graceEndTime && lt (Some last) expectedTime
              then {| success := false;
                      error :=
                        Some ("Cron job missed at " +:+
                              match expectedTime with
                              | Some t => toISOString t
                              | None => EmptyString
                              end);
                      responseMs := 0; r_lastCronRun := Some last |}
              else {| success := true; error := None;
                      responseMs := 0; r_lastCronRun := Some last |}
          | None =>
              {| success := true; error := None;
                 responseMs := 0; r_lastCronRun := Some last |}
          end
      end
  | _ =>
      {| success := false; error := Some "No cron expression specified";
         responseMs := 0; r_lastCronRun := None |}
  end.

(** The deadline of a monitor that never reported: the next run
    computed from its expression (with the clock at [inner]) plus the
    grace period, when there is an expression and a valid date comes out
    of it. *)
Definition first_run_deadline (tz inner : Z) (monitor : Monitor)
    : option Z :=
  match cronExpression monitor with
  | Some expr =>
      match getNextCronRun tz inner expr with
      | Some (Some next) =>
          TimeClip (next + JS.num_or (cronGracePeriod monitor) 60 * 1000)
      | _ => None
      end
  | None => None
  end.

(** Clock readings far enough from the ends of the range of valid
    time values (years 1970 to about 255000) for every date computed by
    [getNextCronRun] to be valid. *)
Definition roomy (t : Z) : Prop := 0 <= t <= 8000000000000000.

(** A minute or hour field that is ["*"] or starts with a number from
    0 to [hi]. *)
Definition plain_field (hi : Z) (field : string) : Prop :=
  field = "*" \/ exists v, Text.parseInt field = Some v /\ 0 <= v <= hi.

End Cronjob.

(** * Further parts of the sources

    Beyond the functions above the development follows

    - [src/workers/workerCache.js]   [getStats], and [recordHeartbeat] of
                                     the heartbeat executor,
    - [src/workers/worker.js]        the batches of [runChecks],
    - [src/workers/checks/cronjob.js]  [recordCronRun],
    - [src/workers/checks/index.js]  [performCheck] and
                                     [validateMonitorConfig],
    - [src/config/redis.js]          the queue's [addMonitorCheckJob] and
                                     [getPriority],
    - [src/unnamed/part_002]         the HTTP executor, [checkHttp] and
                                     [getSslInfo],
    - [src/services/alerts/telegram.js]  [escapeHtml].

    The executors for ping, port and DNS are made of socket and resolver
    events alone and are not modelled. *)

(** ** workers/workerCache.js: statistics *)

Module WorkerCacheStats.

(** The object returned by [getStats()]. *)
Record Stats : Type := mkStats {
  total : nat;
  active : nat;
  up : nat;
  down : nat
}.

(** The three counters of the loop of [getStats], after one entry. *)
Definition count_entry (acc : nat * nat * nat) (data : WorkerCache.Entry)
    : nat * nat * nat :=
  let '(active, up, down) := acc in
  if WorkerCache.active data then
    (S active,
     if status_eqb (WorkerCache.lastStatus data) Up then S up else up,
     if status_eqb (WorkerCache.lastStatus data) Down then S down else down)
  else acc.

(** [getStats()] *)
Definition getStats (cache : gmap string WorkerCache.Entry) : Stats :=
  let '(active, up, down) :=
    fold_left count_entry (snd <$> map_to_list cache) (0, 0, 0)%nat in
  {| total := size cache; active := active; up := up; down := down |}.

(** [getAll()] *)
Definition getAll (cache : gmap string WorkerCache.Entry)
    : list WorkerCache.Entry :=
  snd <$> map_to_list cache.

(** The test of the loop of [getMonitorsToRun]:
    [data.active && data.nextRunAt <= now]. *)
Definition due (now : Z) (data : WorkerCache.Entry) : bool :=
  WorkerCache.active data && (WorkerCache.nextRunAt data <=? now).

End WorkerCacheStats.

(** ** workers/worker.js: the sweep *)

Module Sweep.

Definition CONCURRENCY_LIMIT : nat := 10.

(** [l.slice(i, j)] for [0 <= i <= j] *)
Definition slice {A} (i j : nat) (l : list A) : list A :=
  take (j - i) (drop i l).

(** The batches the loop of [runChecks] takes,
    [for (let i = 0; i < l.length; i += CONCURRENCY_LIMIT)], from index
    [i] on; [fuel] bounds the number of iterations. *)
Fixpoint batches_from {A} (fuel i : nat) (l : list A) : list (list A) :=
  match fuel with
  | O => []
  | S fuel' =>
      if (i <? length l)%nat
      then slice i (i + CONCURRENCY_LIMIT) l
           :: batches_from fuel' (i + CONCURRENCY_LIMIT) l
      else []
  end.

(** The loop leaves after at most [length l] iterations. *)
Definition batches {A} (l : list A) : list (list A) :=
  batches_from (length l) 0 l.

End Sweep.

(** ** models/Incident.js: the shape of a stored incident *)

Module IncidentShape.

(** [resolvedAt] is set exactly on resolved incidents. *)
Definition resolved_iff (i : Incident) : Prop :=
  JS.truthy (i_resolvedAt i) = true <-> i_status i = Resolved.

End IncidentShape.

(** ** The ping endpoints of the passive monitors
    (workers/checks/heartbeat.js, workers/checks/cronjob.js) *)

Module Passive.

(** The monitor document (models/Monitor.js), restricted to the fields
    [recordHeartbeat], [recordCronRun] and the two passive checks read
    or write.  The schema's defaults make [consecutiveFailures] a number
    or [null] ([None]) on every loaded document. *)
Record Doc : Type := mkDoc {
  _id : string;
  name : string;
  type : string;
  active : bool;
  heartbeatToken : option string;
  heartbeatInterval : option Z;
  lastHeartbeat : option Z;
  cronExpression : option string;
  cronGracePeriod : option Z;
  lastCronRun : option Z;
  expectedCronRun : option Z;
  lastStatus : option status;
  lastChecked : option Z;
  lastResponseMs : option Z;
  lastError : option string;
  consecutiveFailures : option Z
}.

(** The filter [{ heartbeatToken: token, type: ty, active: true }]. *)
Definition matches (token ty : string) (d : Doc) : bool :=
  match heartbeatToken d with
  | Some t => String.eqb t token
  | None => false
  end
  && String.eqb (type d) ty
  && active d.

(** [Monitor.findOne(filter)]: the first matching document of the
    collection, with its position. *)
Definition findOne (token ty : string) (coll : list Doc)
    : option (nat * Doc) :=
  list_find (fun d => matches token ty d = true) coll.

(** The schema's save hook: a heartbeat monitor without token gets a
    fresh one ([fresh] stands for the 16 random bytes in hex). *)
Definition pre_save (fresh : string) (d : Doc) : Doc :=
  if String.eqb (type d) "heartbeat"
     && negb (JS.str_truthy (heartbeatToken d))
  then {| _id := _id d; name := name d; type := type d;
          active := active d;
          heartbeatToken := Some fresh;
          heartbeatInterval := heartbeatInterval d;
          lastHeartbeat := lastHeartbeat d;
          cronExpression := cronExpression d;
          cronGracePeriod := cronGracePeriod d;
          lastCronRun := lastCronRun d;
          expectedCronRun := expectedCronRun d;
          lastStatus := lastStatus d;
          lastChecked := lastChecked d;
          lastResponseMs := lastResponseMs d;
          lastError := lastError d;
          consecutiveFailures := consecutiveFailures d |}
  else d.

(** The five assignments of [recordHeartbeat]; the two [new Date()]
    are two readings of the clock. *)
Definition beat (t_heartbeat t_checked : Z) (d : Doc) : Doc :=
  {| _id := _id d; name := name d; type := type d;
     active := active d;
     heartbeatToken := heartbeatToken d;
     heartbeatInterval := heartbeatInterval d;
     lastHeartbeat := Some t_heartbeat;
     cronExpression := cronExpression d;
     cronGracePeriod := cronGracePeriod d;
     lastCronRun := lastCronRun d;
     expectedCronRun := expectedCronRun d;
     lastStatus := Some Up;
     lastChecked := Some t_checked;
     lastResponseMs := lastResponseMs d;
     lastError := None;
     consecutiveFailures := Some 0 |}.

Inductive HeartbeatReply : Type :=
| HbInvalid (error : string)
| HbRecorded (monitorId monitorName : string).

(** [recordHeartbeat(token)] *)
Definition recordHeartbeat (t_heartbeat t_checked : Z) (fresh : string)
    (token : string) (coll : list Doc) : list Doc * HeartbeatReply :=
  match findOne token "heartbeat" coll with
  | None => (coll, HbInvalid "Invalid heartbeat token")
  | Some (i, monitor) =>
      let monitor := pre_save fresh (beat t_heartbeat t_checked monitor) in
      (<[i := monitor]> coll, HbRecorded (_id monitor) (name monitor))
  end.

(** The assignments of [recordCronRun] before the next run is
    computed; [status] and [duration] are the arguments after the
    default of [status] has been applied. *)
Definition ran (now : Z) (status : string) (duration : option Z) (d : Doc)
    : Doc :=
  let ok := String.eqb status "success" in
  {| _id := _id d; name := name d; type := type d;
     active := active d;
     heartbeatToken := heartbeatToken d;
     heartbeatInterval := heartbeatInterval d;
     lastHeartbeat := lastHeartbeat d;
     cronExpression := cronExpression d;
     cronGracePeriod := cronGracePeriod d;
     lastCronRun := Some now;
     expectedCronRun := expectedCronRun d;
     lastStatus := Some (if ok then Up else Down);
     lastChecked := Some now;
     lastResponseMs :=
       if ok then Some (JS.num_or duration 0) else lastResponseMs d;
     lastError := if ok then None else Some status;
     consecutiveFailures :=
       if ok then Some 0
       else Some (match consecutiveFailures d with
                  | Some n => n + 1
                  | None => 1
                  end) |}.

Definition set_expectedCronRun (v : option Z) (d : Doc) : Doc :=
  {| _id := _id d; name := name d; type := type d;
     active := active d;
     heartbeatToken := heartbeatToken d;
     heartbeatInterval := heartbeatInterval d;
     lastHeartbeat := lastHeartbeat d;
     cronExpression := cronExpression d;
     cronGracePeriod := cronGracePeriod d;
     lastCronRun := lastCronRun d;
     expectedCronRun := v;
     lastStatus := lastStatus d;
     lastChecked := lastChecked d;
     lastResponseMs := lastResponseMs d;
     lastError := lastError d;
     consecutiveFailures := consecutiveFailures d |}.

Inductive CronReply : Type :=
| CronInvalid (error : string)
| CronRecorded (monitorId monitorName : string)
    (nextExpectedRun : option Z)
| CronThrew.

(** [recordCronRun(token, status, duration)]: [now] is the function's
    [new Date()], [inner] the one of [getNextCronRun].  An invalid date
    does not pass the cast of the schema's [Date] path, [save()] rejects
    and nothing is written ([CronThrew]; the route answers 500).
    [fresh] is for the save hook. *)
Definition recordCronRun (tz now inner : Z) (fresh : string)
    (token : string) (status : option string) (duration : option Z)
    (coll : list Doc)
    : list Doc * CronReply :=
  match findOne token "cronjob" coll with
  | None => (coll, CronInvalid "Invalid cronjob token")
  | Some (i, monitor) =>
      let status := default "success" status in
      let monitor := ran now status duration monitor in
      let next :=
        match cronExpression monitor with
        | Some (String _ _ as expr) =>
            match Cronjob.getNextCronRun tz inner expr with
            | None => Some (set_expectedCronRun None monitor)
            | Some (Some t) => Some (set_expectedCronRun (Some t) monitor)
            | Some None => None
            end
        | _ => Some monitor
        end in
      match next with
      | Some monitor =>
          let monitor := pre_save fresh monitor in
          (<[i := monitor]> coll,
           CronRecorded (_id monitor) (name monitor)
             (expectedCronRun monitor))
      | None => (coll, CronThrew)
      end
  end.

(** What [checkHeartbeat] and [checkCronjob] read of a document. *)
Definition heartbeat_view (d : Doc) : Heartbeat.Monitor :=
  {| Heartbeat.lastHeartbeat := lastHeartbeat d;
     Heartbeat.heartbeatInterval := heartbeatInterval d |}.

Definition cron_view (d : Doc) : Cronjob.Monitor :=
  {| Cronjob.lastCronRun := lastCronRun d;
     Cronjob.cronGracePeriod := cronGracePeriod d;
     Cronjob.cronExpression := cronExpression d;
     Cronjob.expectedCronRun := expectedCronRun d |}.

(** A minute or hour field that is a number from 0 to [hi]. *)
Definition numeric_field (hi : Z) (field : string) (v : Z) : Prop :=
  field <> "*" /\ Text.parseInt field = Some v /\ 0 <= v <= hi.

(** Whether a local time [t] agrees with a cron field. *)
Definition field_admits (field : string) (v : Z) : Prop :=
  field = "*" \/ Text.parseInt field = Some v.

End Passive.

(** ** workers/checks/index.js: validation of a monitor's configuration *)

Module Validate.

(** The fields [validateMonitorConfig] reads.  [None] is a missing
    field; a [port] that is [null] behaves as [Some 0]. *)
Record Config : Type := mkConfig {
  type : option string;
  url : option string;
  keyword : option string;
  port : option Z;
  cronExpression : option string
}.

Record Verdict : Type := mkVerdict {
  valid : bool;
  errors : list string
}.

(** [if (c) errors.push(msg)] *)
Definition push_if (c : bool) (msg : string) (errors : list string)
    : list string :=
  if c then errors ++ [msg] else errors.

(** [!monitor.url?.startsWith('http')] *)
Definition not_http (u : option string) : bool :=
  match u with
  | Some s => negb (String.prefix "http" s)
  | None => true
  end.

(** [!monitor.port] *)
Definition no_port (p : option Z) : bool :=
  match p with
  | Some n => n =? 0
  | None => true
  end.

(** [monitor.port < 1 || monitor.port > 65535] *)
Definition port_out_of_range (p : option Z) : bool :=
  match p with
  | Some n => (n <? 1) || (n >? 65535)
  | None => false
  end.

(** [validateMonitorConfig(monitor)] *)
Definition validateMonitorConfig (monitor : Config) : Verdict :=
  let type := JS.str_or (type monitor) "http" in
  let no_url := negb (JS.str_truthy (url monitor)) in
  let errors : list string := [] in
  let errors :=
    if String.eqb type "http" || String.eqb type "keyword" then
      let errors := push_if no_url "URL is required" errors in
      let errors :=
        push_if (not_http (url monitor))
          "URL must start with http:// or https://" errors in
      push_if (String.eqb type "keyword"
               && negb (JS.str_truthy (keyword monitor)))
        "Keyword is required" errors
    else if String.eqb type "ping" then
      push_if no_url "Host/URL is required" errors
    else if String.eqb type "port" then
      let errors := push_if no_url "Host is required" errors in
      let errors := push_if (no_port (port monitor)) "Port is required" errors in
      push_if (port_out_of_range (port monitor)) "Port must be 1-65535" errors
    else if String.eqb type "dns" then
      push_if no_url "Domain is required" errors
    else if String.eqb type "heartbeat" then
      errors
    else if String.eqb type "cronjob" then
      push_if (negb (JS.str_truthy (cronExpression monitor)))
        "Cron expression is required" errors
    else errors in
  {| valid := Nat.eqb (length errors) 0; errors := errors |}.

End Validate.

(** ** config/queue.js: the check jobs of the queue *)

Module Queue.

(** The values the fields of a monitor document hold, by the types of
    the schema. *)
Inductive value : Type :=
| VNull
| VBool (b : bool)
| VNum (n : Z)
| VStr (s : string)
| VDate (t : Z)
| VHeaders (h : list (string * string)).

(** A JavaScript object is the finite map of its own properties by
    name, a [gmap string value]; a property that is missing or
    [undefined] has no entry. *)

(** A monitor document: the two object ids, as the hex strings their
    [toString()] gives, and the other fields. *)
Record MonitorObject : Type := mkMonitorObject {
  _id : string;
  teamId : string;
  fields : gmap string value
}.

(** Readers of a field, by its schema type: a number (or [NaN], as
    [None]) for a relational comparison, and the truthy value of an
    [x || d]. *)
Definition to_number (v : option value) : option Z :=
  match v with
  | Some (VNum n) => Some n
  | Some VNull => Some 0
  | _ => None
  end.

Definition number_field (v : option value) : option Z :=
  match v with
  | Some (VNum n) => Some n
  | _ => None
  end.

Definition string_field (v : option value) : option string :=
  match v with
  | Some (VStr s) => Some s
  | _ => None
  end.

Definition date_field (v : option value) : option Z :=
  match v with
  | Some (VDate t) => Some t
  | _ => None
  end.

(** [getPriority(intervalSec)] *)
Definition getPriority (intervalSec : option Z) : Z :=
  match intervalSec with
  | Some n =>
      if n <=? 30 then 1
      else if n <=? 60 then 2
      else if n <=? 300 then 3
      else 4
  | None => 4
  end.

(** The properties [addMonitorCheckJob] copies under their own
    names. *)
Definition copied : list string :=
  [ "type"; "url"; "method"; "timeout"; "headers"; "body";
    "expectedCode"; "port"; "portProtocol"; "dnsRecordType";
    "dnsExpectedValue"; "keyword"; "keywordType"; "sslCheck";
    "intervalSec"; "alertAfterFailures" ].

(** [{ ..., k: monitor.k }] *)
Definition copy (monitor : gmap string value) (k : string)
    (data : gmap string value) : gmap string value :=
  match monitor !! k with
  | Some v => <[k := v]> data
  | None => data
  end.

Record JobOptions : Type := mkJobOptions {
  jobId : string;
  delay : Z;
  priority : Z
}.

(** [addMonitorCheckJob(monitor, delay)]: the job data and the job
    options handed to [monitorQueue.add]. *)
Definition addMonitorCheckJob (monitor : MonitorObject) (delay : Z)
    : gmap string value * JobOptions :=
  (foldr (copy (fields monitor))
     (<["monitorId" := VStr (_id monitor)]>
        (<["teamId" := VStr (teamId monitor)]> ∅))
     copied,
   {| jobId := "check-" +:+ _id monitor;
      delay := delay;
      priority := getPriority (to_number (fields monitor !! "intervalSec")) |}).

(** What the two passive executors read of the object they are
    given. *)
Definition heartbeat_view (monitor : gmap string value)
    : Heartbeat.Monitor :=
  {| Heartbeat.lastHeartbeat := date_field (monitor !! "lastHeartbeat");
     Heartbeat.heartbeatInterval :=
       number_field (monitor !! "heartbeatInterval") |}.

Definition cron_view (monitor : gmap string value)
    : Cronjob.Monitor :=
  {| Cronjob.lastCronRun := date_field (monitor !! "lastCronRun");
     Cronjob.cronGracePeriod := number_field (monitor !! "cronGracePeriod");
     Cronjob.cronExpression := string_field (monitor !! "cronExpression");
     Cronjob.expectedCronRun := date_field (monitor !! "expectedCronRun") |}.

End Queue.

(** ** workers/checks/index.js: the dispatcher *)

Module Dispatch.

(** The result object of the two passive executors as
    [processMonitorCheck] destructures it: no [statusCode], no
    [sslInfo]. *)
Definition of_heartbeat (r : Heartbeat.Result) : BullWorker.CheckResult :=
  {| BullWorker.success := Heartbeat.success r;
     BullWorker.responseMs := Heartbeat.responseMs r;
     BullWorker.error := Heartbeat.error r;
     BullWorker.statusCode := None;
     BullWorker.sslInfo := None |}.

Definition of_cronjob (r : Cronjob.Result) : BullWorker.CheckResult :=
  {| BullWorker.success := Cronjob.success r;
     BullWorker.responseMs := Cronjob.responseMs r;
     BullWorker.error := Cronjob.error r;
     BullWorker.statusCode := None;
     BullWorker.sslInfo := None |}.

(** [performCheck(monitor)].  The five executors that go to the
    network catch their own exceptions and return a result; it is the
    environment's answer [network].  The two passive ones are
    computed. *)
Definition performCheck (tz now inner : Z) (network : BullWorker.CheckResult)
    (monitor : gmap string Queue.value) : BullWorker.CheckResult :=
  let type := JS.str_or (Queue.string_field (monitor !! "type")) "http" in
  if String.eqb type "heartbeat" then
    of_heartbeat (Heartbeat.checkHeartbeat now (Queue.heartbeat_view monitor))
  else if String.eqb type "cronjob" then
    of_cronjob (Cronjob.checkCronjob tz now inner (Queue.cron_view monitor))
  else network.

End Dispatch.

(** ** The HTTP executor (workers/checks/http.js) *)

Module Http.

(** The fields of the peer certificate [getSslInfo] reads; [valid_to]
    is the time value the text of the certificate's end date parses
    to. *)
Record Cert : Type := mkCert {
  valid_to : option Z;
  issuer_O : option string;
  issuer_CN : option string;
  subject_CN : option string
}.

(** How the TLS connection of [getSslInfo] ends: the handshake
    callback runs, with the certificate the socket reports, or the
    socket fails, times out or the URL does not parse. *)
Inductive TlsOutcome : Type :=
| Handshake (cert : option Cert)
| NoHandshake.

(** The object [getSslInfo] resolves to: the three fields
    [processMonitorCheck] reads, and the two it does not. *)
Record SslReport : Type := mkSslReport {
  info : BullWorker.SslInfo;
  subject : string;
  valid : bool
}.

Definition msPerDay : Z := 1000 * 60 * 60 * 24.

(** [Math.ceil(a / b)] for [b > 0] *)
Definition ceil_div (a b : Z) : Z := - ((- a) / b).

(** [getSslInfo(url)]; [now] is the [new Date()] of the handshake
    callback. *)
Definition getSslInfo (now : Z) (o : TlsOutcome) : option SslReport :=
  match o with
  | Handshake (Some cert) =>
      match valid_to cert with
      | Some expiryDate =>
          let daysRemaining := ceil_div (expiryDate - now) msPerDay in
          Some {| info :=
                    {| BullWorker.expiresAt := expiryDate;
                       BullWorker.daysRemaining := Some daysRemaining;
                       BullWorker.issuer :=
                         JS.str_or (issuer_O cert)
                           (JS.str_or (issuer_CN cert) "Unknown") |};
                  subject := JS.str_or (subject_CN cert) "Unknown";
                  valid := daysRemaining >? 0 |}
      | None => None
      end
  | _ => None
  end.

(** The fields of the monitor [checkHttp] reads. *)
Record Monitor : Type := mkMonitor {
  method : option string;
  url : string;
  timeout : option Z;
  body : option string;
  expectedCode : option Z;
  sslCheck : bool
}.

(** [checkHttp(monitor)]: [o] is what the [axios] call comes back
    with, [elapsed] the measured [Date.now() - startTime], [tls] and
    [ssl_now] the connection and the clock of [getSslInfo]. *)
Definition checkHttp (monitor : Monitor) (o : Worker.HttpOutcome)
    (elapsed : Z) (ssl_now : Z) (tls : TlsOutcome)
    : BullWorker.CheckResult :=
  match o with
  | Worker.Responded statusCode =>
      let expected := JS.num_or (expectedCode monitor) 200 in
      let success := statusCode =? expected in
      {| BullWorker.success := success;
         BullWorker.responseMs := elapsed;
         BullWorker.error :=
           if success then None
           else Some ("Expected " +:+ show_Z expected +:+ ", got "
                      +:+ show_Z statusCode);
         BullWorker.statusCode := Some statusCode;
         BullWorker.sslInfo :=
           if sslCheck monitor && String.prefix "https://" (url monitor)
           then info <$> getSslInfo ssl_now tls
           else None |}
  | Worker.Threw code message =>
      {| BullWorker.success := false;
         BullWorker.responseMs := elapsed;
         BullWorker.error :=
           Some (JS.str_or code (JS.str_or message "Connection failed"));
         BullWorker.statusCode := None;
         BullWorker.sslInfo := None |}
  end.

End Http.

(** ** services/alerts/telegram.js: the text of a Telegram message *)

Module Telegram.

(** [s.replace(/c/g, rep)] for a pattern of one character *)
Fixpoint replace_all (c : ascii) (rep : string) (s : string) : string :=
  match s with
  | EmptyString => EmptyString
  | String a r =>
      if Ascii.eqb a c then rep +:+ replace_all c rep r
      else String a (replace_all c rep r)
  end.

(** [escapeHtml(text)].  A text is the sequence of its bytes in UTF-8;
    the four characters replaced are ASCII, and no byte of a multi-byte
    sequence is. *)
Definition escapeHtml (text : option string) : string :=
  match text with
  | Some (String _ _ as text) =>
      replace_all Keyword.dquote "&quot;"
        (replace_all ">" "&gt;"
           (replace_all "<" "&lt;"
              (replace_all "&" "&amp;" text)))
  | _ => EmptyString
  end.

(** One character of the escaped text. *)
Definition escaped (a : ascii) : string :=
  if Ascii.eqb a "&" then "&amp;"
  else if Ascii.eqb a "<" then "&lt;"
  else if Ascii.eqb a ">" then "&gt;"
  else if Ascii.eqb a Keyword.dquote then "&quot;"
  else String a EmptyString.

(** Whether a character occurs in a text. *)
Fixpoint mentions (c : ascii) (s : string) : bool :=
  match s with
  | EmptyString => false
  | String a r => Ascii.eqb a c || mentions c r
  end.

(** Reading the four entities back. *)
Fixpoint unescape (s : string) : string :=
  match s with
  | String "&" (String "a" (String "m" (String "p" (String ";" r)))) =>
      String "&" (unescape r)
  | String "&" (String "l" (String "t" (String ";" r))) =>
      String "<" (unescape r)
  | String "&" (String "g" (String "t" (String ";" r))) =>
      String ">" (unescape r)
  | String "&" (String "q" (String "u" (String "o" (String "t" (String ";" r))))) =>
      String Keyword.dquote (unescape r)
  | String a r => String a (unescape r)
  | EmptyString => EmptyString
  end.

End Telegram.

(** ** Concrete data used by the examples below *)

Module Samples.

Definition api_monitor : MonitorDoc :=
  {| m_id := "m1"; m_teamId := "t1"; m_name := "API";
     m_url := "https://api.example.com/health"; m_method := "GET";
     m_intervalSec := 60; m_expectedCode := 200; m_timeout := 30000;
     m_headers := []; m_body := "";
     m_alertAfterFailures := Some 1; m_active := true;
     m_lastStatus := Some Pending; m_lastChecked := None;
     m_lastResponseMs := None; m_lastError := None;
     m_consecutiveFailures := Some 0; m_currentIncidentId := None;
     m_totalChecks := Some 0; m_sslExpiresAt := None;
     m_sslDaysRemaining := None; m_sslIssuer := None |}.

(** The same monitor after an edit of its URL and threshold. *)
Definition edited_monitor : MonitorDoc :=
  {| m_id := "m1"; m_teamId := "t1"; m_name := "API";
     m_url := "https://api.example.com/v2/health"; m_method := "GET";
     m_intervalSec := 120; m_expectedCode := 200; m_timeout := 30000;
     m_headers := []; m_body := "";
     m_alertAfterFailures := Some 3; m_active := true;
     m_lastStatus := Some Down; m_lastChecked := None;
     m_lastResponseMs := None; m_lastError := None;
     m_consecutiveFailures := Some 0; m_currentIncidentId := None;
     m_totalChecks := Some 0; m_sslExpiresAt := None;
     m_sslDaysRemaining := None; m_sslIssuer := None |}.

(** A cache entry of that monitor: down for two checks, next run at
    time 90000. *)
Definition down_entry : WorkerCache.Entry :=
  WorkerCache.entry_of api_monitor 90000 Down 250 2.

(** A freshly added entry. *)
Definition fresh_entry : WorkerCache.Entry :=
  WorkerCache.entry_of api_monitor 0 Pending 0 0.

Definition down_cache : gmap string WorkerCache.Entry :=
  {[ "m1" := down_entry ]}.

Definition fresh_cache : gmap string WorkerCache.Entry :=
  {[ "m1" := fresh_entry ]}.

Definition empty_db : Db :=
  {| monitors := {[ "m1" := api_monitor ]}; incidents := [];
     teams := {[ "t1" := "Ops" ]}; history := []; outbox := [] |}.

(** A clock that stands still at [t] while a check is processed. *)
Definition clock_at (t : Z) : Clock :=
  {| at_next := t; at_lastChecked := t; at_checkedAt := t;
     at_started := t; at_detected := t; at_resolved := t; at_duration := t;
     at_entry := t; at_save := t; at_downtime := t |}.

Definition ok_result : BullWorker.CheckResult :=
  {| BullWorker.success := true; BullWorker.responseMs := 120;
     BullWorker.error := None; BullWorker.statusCode := Some 200;
     BullWorker.sslInfo := None |}.

Definition failed_result : BullWorker.CheckResult :=
  {| BullWorker.success := false; BullWorker.responseMs := 30000;
     BullWorker.error := Some "ETIMEDOUT"; BullWorker.statusCode := None;
     BullWorker.sslInfo := None |}.

(** The argument of [handleStatusChange] for the first failed check of
    [api_monitor] (threshold 1). *)
Definition first_failure : Params :=
  {| p_monitor := api_monitor;
     p_previousStatus := Some Up;
     p_newStatus := Down;
     p_statusChanged := true;
     p_consecutiveFailures := 1;
     p_error := Some "ETIMEDOUT";
     p_responseMs := 30000;
     p_teamId := "t1" |}.

(** A further failed check of a monitor whose stored count is already
    past the threshold and which has no incident linked. *)
Definition missed_failure : Params :=
  {| p_monitor := api_monitor;
     p_previousStatus := Some Down;
     p_newStatus := Down;
     p_statusChanged := false;
     p_consecutiveFailures := 2;
     p_error := Some "ETIMEDOUT";
     p_responseMs := 30000;
     p_teamId := "t1" |}.

Definition fresh_world : Worker.World :=
  {| Worker.cache := fresh_cache; Worker.db := empty_db |}.

(** A monitor that is down with a stored count of 1 (its threshold)
    and no incident linked: the incident of the first failure was not
    recorded. *)
Definition unlinked_down_monitor : MonitorDoc :=
  {| m_id := "m1"; m_teamId := "t1"; m_name := "API";
     m_url := "https://api.example.com/health"; m_method := "GET";
     m_intervalSec := 60; m_expectedCode := 200; m_timeout := 30000;
     m_headers := []; m_body := "";
     m_alertAfterFailures := Some 1; m_active := true;
     m_lastStatus := Some Down; m_lastChecked := Some 0;
     m_lastResponseMs := Some 30000; m_lastError := Some "ETIMEDOUT";
     m_consecutiveFailures := Some 1; m_currentIncidentId := None;
     m_totalChecks := Some 1; m_sslExpiresAt := None;
     m_sslDaysRemaining := None; m_sslIssuer := None |}.

Definition unlinked_db : Db :=
  {| monitors := {[ "m1" := unlinked_down_monitor ]}; incidents := [];
     teams := {[ "t1" := "Ops" ]}; history := []; outbox := [] |}.

(** The timer mode's view of the same situation: the cache was seeded
    from that document by [addMonitor]. *)
Definition unlinked_world : Worker.World :=
  {| Worker.cache := WorkerCache.addMonitor 0 unlinked_down_monitor ∅;
     Worker.db := unlinked_db |}.

(** A successful check of a certificate with 30 days left. *)
Definition ssl_result (days : Z) : BullWorker.CheckResult :=
  {| BullWorker.success := true; BullWorker.responseMs := 120;
     BullWorker.error := None; BullWorker.statusCode := Some 200;
     BullWorker.sslInfo :=
       Some {| BullWorker.expiresAt := 1796083200000;
               BullWorker.daysRemaining := Some days;
               BullWorker.issuer := "Example CA" |} |}.

(** A monitor that is down with an open incident started at 1000. *)
Definition open_incident_0 : Incident :=
  {| i_teamId := "t1"; i_monitorId := Some "m1";
     i_title := "API is down"; i_description := "ETIMEDOUT";
     i_status := Investigating; i_severity := Major; i_type := Auto;
     i_timeline := [ {| tl_status := Investigating;
                        tl_message := "Detected: ETIMEDOUT";
                        tl_createdAt := 1000 |} ];
     i_startedAt := 1000; i_resolvedAt := None; i_duration := None |}.

Definition linked_down_monitor : MonitorDoc :=
  Store.set_currentIncidentId (Some 0%nat) unlinked_down_monitor.

Definition linked_db : Db :=
  {| monitors := {[ "m1" := linked_down_monitor ]};
     incidents := [open_incident_0];
     teams := {[ "t1" := "Ops" ]}; history := []; outbox := [] |}.

Definition recovery : Params :=
  {| p_monitor := linked_down_monitor;
     p_previousStatus := Some Down;
     p_newStatus := Up;
     p_statusChanged := true;
     p_consecutiveFailures := 0;
     p_error := None;
     p_responseMs := 120;
     p_teamId := "t1" |}.

(** The clock of a recovery at 61000 whose second reading, one
    statement later, falls in the next millisecond. *)
Definition ticking_clock : Clock :=
  {| at_next := 61000; at_lastChecked := 61000; at_checkedAt := 61000;
     at_started := 61000; at_detected := 61000;
     at_resolved := 61000; at_duration := 61001; at_entry := 61001;
     at_save := 61001; at_downtime := 61002 |}.

(** An e-mail channel with the default cooldown of five minutes. *)
Definition mail_channel : Alerts.Channel :=
  {| Alerts.ch_id := "c1"; Alerts.ch_teamId := "t1";
     Alerts.ch_type := Alerts.Email; Alerts.ch_enabled := true;
     Alerts.ch_config :=
       {| Alerts.emails := ["ops@example.com"];
          Alerts.telegramBotToken := None; Alerts.telegramChatId := None;
          Alerts.webhookUrl := None |};
     Alerts.notify_down := true; Alerts.notify_up := true;
     Alerts.notify_degraded := true; Alerts.notify_sslExpiry := true;
     Alerts.cooldownMinutes := 5; Alerts.lastAlertAt := None;
     Alerts.alertsSent := 0; Alerts.lastError := None |}.

(** A delivery service that accepts every message. *)
Definition reliable : Alerts.Transport := fun _ => None.

(** A keyword monitor looking for "OK". *)
Definition keyword_monitor (mode : string) : Keyword.Monitor :=
  {| Keyword.method := Some "GET"; Keyword.url := "https://example.com/";
     Keyword.timeout := Some 30000; Keyword.headers := [];
     Keyword.keyword := Some "OK"; Keyword.keywordType := Some mode |}.

(** A cronjob monitor as the queue hands it to the executor: the job
    data carries no cron field. *)
Definition cron_job_data : Cronjob.Monitor :=
  {| Cronjob.lastCronRun := None; Cronjob.cronGracePeriod := None;
     Cronjob.cronExpression := None; Cronjob.expectedCronRun := None |}.

(** A nightly job (02:30) that never reported. *)
Definition nightly_cron : Cronjob.Monitor :=
  {| Cronjob.lastCronRun := None; Cronjob.cronGracePeriod := Some 60;
     Cronjob.cronExpression := Some "30 2 * * *";
     Cronjob.expectedCronRun := None |}.

End Samples.

(** ** Further concrete data *)

Module Fixtures.

(** A second monitor, inactive. *)
Definition paused_monitor : MonitorDoc :=
  {| m_id := "m2"; m_teamId := "t1"; m_name := "Shop";
     m_url := "https://shop.example.com/"; m_method := "GET";
     m_intervalSec := 30; m_expectedCode := 200; m_timeout := 30000;
     m_headers := []; m_body := "";
     m_alertAfterFailures := Some 2; m_active := false;
     m_lastStatus := Some Up; m_lastChecked := None;
     m_lastResponseMs := Some 80; m_lastError := None;
     m_consecutiveFailures := Some 0; m_currentIncidentId := None;
     m_totalChecks := Some 10; m_sslExpiresAt := None;
     m_sslDaysRemaining := None; m_sslIssuer := None |}.

(** A Telegram channel whose chat id was never filled in. *)
Definition telegram_no_chat : Alerts.Channel :=
  {| Alerts.ch_id := "c2"; Alerts.ch_teamId := "t1";
     Alerts.ch_type := Alerts.Telegram; Alerts.ch_enabled := true;
     Alerts.ch_config :=
       {| Alerts.emails := [];
          Alerts.telegramBotToken := Some "123:abc";
          Alerts.telegramChatId := None;
          Alerts.webhookUrl := None |};
     Alerts.notify_down := true; Alerts.notify_up := true;
     Alerts.notify_degraded := true; Alerts.notify_sslExpiry := true;
     Alerts.cooldownMinutes := 5; Alerts.lastAlertAt := None;
     Alerts.alertsSent := 0; Alerts.lastError := None |}.

(** A webhook channel with its URL set. *)
Definition webhook_channel : Alerts.Channel :=
  {| Alerts.ch_id := "c3"; Alerts.ch_teamId := "t1";
     Alerts.ch_type := Alerts.Webhook; Alerts.ch_enabled := true;
     Alerts.ch_config :=
       {| Alerts.emails := [];
          Alerts.telegramBotToken := None;
          Alerts.telegramChatId := None;
          Alerts.webhookUrl := Some "https://hooks.example.com/x" |};
     Alerts.notify_down := true; Alerts.notify_up := false;
     Alerts.notify_degraded := true; Alerts.notify_sslExpiry := true;
     Alerts.cooldownMinutes := 5; Alerts.lastAlertAt := None;
     Alerts.alertsSent := 0; Alerts.lastError := None |}.

(** A mailer that is down. *)
Definition failing : Alerts.Transport := fun _ => Some "ECONNREFUSED".

(** A monitor whose stored threshold is 0, down with the incident of an
    earlier outage still linked, and its next failed check: the first
    after a pause and resume, which set the count back to 0. *)
Definition zero_threshold_monitor : MonitorDoc :=
  {| m_id := "m1"; m_teamId := "t1"; m_name := "API";
     m_url := "https://api.example.com/health"; m_method := "GET";
     m_intervalSec := 60; m_expectedCode := 200; m_timeout := 30000;
     m_headers := []; m_body := "";
     m_alertAfterFailures := Some 0; m_active := true;
     m_lastStatus := Some Down; m_lastChecked := Some 0;
     m_lastResponseMs := Some 30000; m_lastError := Some "ETIMEDOUT";
     m_consecutiveFailures := Some 1;
     m_currentIncidentId := Some 0%nat;
     m_totalChecks := Some 1; m_sslExpiresAt := None;
     m_sslDaysRemaining := None; m_sslIssuer := None |}.

Definition zero_threshold_db : Db :=
  {| monitors := {[ "m1" := zero_threshold_monitor ]};
     incidents := [Samples.open_incident_0];
     teams := {[ "t1" := "Ops" ]}; history := []; outbox := [] |}.

Definition zero_threshold_failure : Params :=
  {| p_monitor := zero_threshold_monitor;
     p_previousStatus := Some Pending;
     p_newStatus := Down;
     p_statusChanged := true;
     p_consecutiveFailures := 1;
     p_error := Some "ETIMEDOUT";
     p_responseMs := 30000;
     p_teamId := "t1" |}.

(** A no-break space, U+00A0. *)
Definition nbsp : string :=
  String (ascii_of_N 194) (String (ascii_of_N 160) EmptyString).

End Fixtures.

(** ** Passive monitors *)

Module PassiveFixtures.

(** A heartbeat monitor expecting a ping every minute. *)
Definition beacon : Passive.Doc :=
  {| Passive._id := "p1"; Passive.name := "Beacon";
     Passive.type := "heartbeat"; Passive.active := true;
     Passive.heartbeatToken := Some "hb-1";
     Passive.heartbeatInterval := Some 60;
     Passive.lastHeartbeat := None;
     Passive.cronExpression := None;
     Passive.cronGracePeriod := Some 60;
     Passive.lastCronRun := None;
     Passive.expectedCronRun := None;
     Passive.lastStatus := Some Pending;
     Passive.lastChecked := None;
     Passive.lastResponseMs := None;
     Passive.lastError := None;
     Passive.consecutiveFailures := Some 0 |}.

(** The nightly backup, 02:30, as a document. *)
Definition backup_job : Passive.Doc :=
  {| Passive._id := "p2"; Passive.name := "Backup";
     Passive.type := "cronjob"; Passive.active := true;
     Passive.heartbeatToken := Some "cron-1";
     Passive.heartbeatInterval := Some 300;
     Passive.lastHeartbeat := None;
     Passive.cronExpression := Some "30 2 * * *";
     Passive.cronGracePeriod := Some 60;
     Passive.lastCronRun := None;
     Passive.expectedCronRun := None;
     Passive.lastStatus := Some Pending;
     Passive.lastChecked := None;
     Passive.lastResponseMs := None;
     Passive.lastError := None;
     Passive.consecutiveFailures := Some 0 |}.

Definition passive_monitors : list Passive.Doc := [beacon; backup_job].

(** 2026-11-01 12:00:00 UTC *)
Definition noon : Z := 1793534400000.

End PassiveFixtures.

Module ConfigFixtures.

(** A port monitor as the form sends it. *)
Definition port_config : Validate.Config :=
  {| Validate.type := Some "port";
     Validate.url := Some "db.example.com";
     Validate.keyword := None;
     Validate.port := Some 5432;
     Validate.cronExpression := None |}.

(** The beacon as a document, pinged one second before noon. *)
Definition beacon_object : Queue.MonitorObject :=
  {| Queue._id := "p1"; Queue.teamId := "t1";
     Queue.fields :=
       <["type" := Queue.VStr "heartbeat"]>
         (<["intervalSec" := Queue.VNum 60]>
            (<["heartbeatInterval" := Queue.VNum 60]>
               (<["lastHeartbeat" :=
                    Queue.VDate (PassiveFixtures.noon - 1000)]>
                  (<["active" := Queue.VBool true]> ∅)))) |}.

(** A shop front whose certificate ends in six days and one hour. *)
Definition shop_monitor : Http.Monitor :=
  {| Http.method := Some "GET";
     Http.url := "https://shop.example.com/";
     Http.timeout := Some 30000;
     Http.body := None;
     Http.expectedCode := Some 200;
     Http.sslCheck := true |}.

Definition shop_cert : Http.Cert :=
  {| Http.valid_to := Some (PassiveFixtures.noon + 6 * 86400000 + 3600000);
     Http.issuer_O := Some "Example CA";
     Http.issuer_CN := Some "Example CA R3";
     Http.subject_CN := Some "shop.example.com" |}.

End ConfigFixtures.

(** * Properties *)

(** ** Basic facts *)

Lemma status_eqb_eq (a b : status) : status_eqb a b = true <-> a = b.
Proof. destruct a, b; simpl; split; intro H; congruence. Qed.

Lemma status_eqb_refl (a : status) : status_eqb a a = true.
Proof. destruct a; reflexivity. Qed.

Lemma incident_status_eqb_eq (a b : incident_status) :
  incident_status_eqb a b = true <-> a = b.
Proof. destruct a, b; simpl; split; intro H; congruence. Qed.

(** ** The scheduling cache *)

Section CacheFacts.

Import WorkerCache.

Lemma updateAfterCheck_hit id success ms next (cache : gmap string Entry) e :
  cache !! id = Some e ->
  updateAfterCheck id success ms next cache =
    (<[id := record_check success ms next e]> cache,
     Some {| statusChanged :=
               negb (status_eqb (lastStatus e) (status_of_success success));
             previousStatus := lastStatus e;
             newStatus := status_of_success success;
             u_consecutiveFailures :=
               if success then 0 else consecutiveFailures e + 1;
             u_alertAfterFailures := alertAfterFailures e |}).
Proof. intros H. unfold updateAfterCheck. rewrite H. reflexivity. Qed.

Lemma updateAfterCheck_miss id success ms next (cache : gmap string Entry) :
  cache !! id = None ->
  updateAfterCheck id success ms next cache = (cache, None).
Proof. intros H. unfold updateAfterCheck. rewrite H. reflexivity. Qed.

Lemma update_all_lookup id results :
  forall (cache : gmap string Entry) e,
    cache !! id = Some e ->
    update_all id results cache !! id = Some (run_checks results e).
Proof.
  induction results as [|[[s ms] next] rest IH]; intros cache e H; simpl.
  - exact H.
  - rewrite (updateAfterCheck_hit _ _ _ _ _ _ H). simpl.
    apply IH. apply lookup_insert_eq.
Qed.

Lemma run_checks_app r1 r2 e :
  run_checks (r1 ++ r2) e = run_checks r2 (run_checks r1 e).
Proof.
  revert e. induction r1 as [|[[s ms] next] rest IH]; intros e; simpl.
  - reflexivity.
  - apply IH.
Qed.

Lemma run_checks_nonneg results :
  forall e, 0 <= consecutiveFailures e ->
            0 <= consecutiveFailures (run_checks results e).
Proof.
  induction results as [|[[s ms] next] rest IH]; intros e H; simpl.
  - exact H.
  - apply IH. destruct s; simpl; lia.
Qed.

(** A streak of failed checks adds its length to the counter. *)
Lemma run_checks_failures fails :
  forall e,
    Forall (fun r => fst (fst r) = false) fails ->
    consecutiveFailures (run_checks fails e)
    = consecutiveFailures e + Z.of_nat (length fails).
Proof.
  induction fails as [|[[s ms] next] rest IH]; intros e HF; simpl.
  - lia.
  - inversion HF as [|? ? Hs Hrest]; subst. simpl in Hs. subst s.
    rewrite (IH _ Hrest). simpl. lia.
Qed.

End CacheFacts.

(** ** The stores *)

Section StoreFacts.

(** A field of the monitor document that linking an incident leaves
    alone keeps its value through every write the state machines make. *)
Variable A : Type.
Variable field : MonitorDoc -> A.
Hypothesis field_link :
  forall v m, field (Store.set_currentIncidentId v m) = field m.

Lemma field_alter_link v i j (mm : gmap string MonitorDoc) :
  field <$> (alter (Store.set_currentIncidentId v) i mm !! j)
  = field <$> (mm !! j).
Proof.
  rewrite lookup_alter. case_decide as E; [subst j|reflexivity].
  destruct (mm !! i); simpl; [rewrite field_link|]; reflexivity.
Qed.

Lemma field_open_incident b clk p name db j :
  field <$> (monitors (StateMachine.open_incident b clk p name db) !! j)
  = field <$> (monitors db !! j).
Proof. unfold StateMachine.open_incident. simpl. apply field_alter_link. Qed.

Lemma field_resolve_current clk p iid db j :
  field <$> (monitors (fst (StateMachine.resolve_current clk p iid db)) !! j)
  = field <$> (monitors db !! j).
Proof.
  unfold StateMachine.resolve_current.
  destruct (incidents db !! iid) as [inc|]; simpl;
    [destruct (negb (incident_status_eqb (i_status inc) Resolved)); simpl|];
    apply field_alter_link.
Qed.

Lemma field_worker_handleStatusChange clk p db j :
  field <$> (monitors (Worker.handleStatusChange clk p db) !! j)
  = field <$> (monitors db !! j).
Proof.
  unfold Worker.handleStatusChange.
  set (db1 := if Worker.down_trigger p then _ else db).
  assert (field <$> (monitors db1 !! j) = field <$> (monitors db !! j)) as H1.
  { subst db1. destruct (Worker.down_trigger p);
      [apply field_open_incident | reflexivity]. }
  destruct (StateMachine.recovered p); [|exact H1].
  destruct (m_currentIncidentId (p_monitor p)) as [iid|].
  - pose proof (field_resolve_current clk p iid db1 j) as H2.
    destruct (StateMachine.resolve_current clk p iid db1) as [db2 dt].
    simpl in *. congruence.
  - exact H1.
Qed.

Lemma field_bull_handleStatusChange clk p db j :
  field <$> (monitors (BullWorker.handleStatusChange clk p db) !! j)
  = field <$> (monitors db !! j).
Proof.
  unfold BullWorker.handleStatusChange.
  set (db1 := if BullWorker.down_trigger p then _ else db).
  assert (field <$> (monitors db1 !! j) = field <$> (monitors db !! j)) as H1.
  { subst db1. destruct (BullWorker.down_trigger p);
      [apply field_open_incident | reflexivity]. }
  destruct (StateMachine.recovered p); [|exact H1].
  destruct (m_currentIncidentId (p_monitor p)) as [iid|]; simpl.
  - rewrite field_resolve_current. exact H1.
  - exact H1.
Qed.

Lemma field_handleSslExpiryAlert m info tid db j :
  field <$> (monitors (BullWorker.handleSslExpiryAlert m info tid db) !! j)
  = field <$> (monitors db !! j).
Proof.
  unfold BullWorker.handleSslExpiryAlert.
  destruct (BullWorker.includes _ _); reflexivity.
Qed.

End StoreFacts.

(** The stored failure counter after one queue-mode check. *)
Lemma processMonitorCheck_failures id tid r clk db m :
  monitors db !! id = Some m ->
  m_consecutiveFailures <$>
    (monitors (BullWorker.processMonitorCheck id tid r clk db) !! id)
  = Some (Some (BullWorker.next_failures (m_consecutiveFailures m)
                  (BullWorker.success r))).
Proof.
  intros H. unfold BullWorker.processMonitorCheck. rewrite H.
  assert (forall db',
    m_consecutiveFailures <$>
      (monitors (match BullWorker.sslInfo r with
                 | Some info =>
                     if BullWorker.within_30_days (BullWorker.sslInfo r)
                     then BullWorker.handleSslExpiryAlert m info tid db'
                     else db'
                 | None => db'
                 end) !! id)
    = m_consecutiveFailures <$> (monitors db' !! id)) as Hssl.
  { intros db'. destruct (BullWorker.sslInfo r) as [info|]; [|reflexivity].
    destruct (BullWorker.within_30_days _); [|reflexivity].
    apply field_handleSslExpiryAlert. }
  rewrite Hssl.
  rewrite field_bull_handleStatusChange by reflexivity.
  simpl. rewrite lookup_alter_eq, H. simpl.
  destruct (BullWorker.sslInfo r); reflexivity.
Qed.

Lemma process_all_failures id tid checks :
  forall db m,
    monitors db !! id = Some m ->
    m_consecutiveFailures <$>
      (monitors (BullWorker.process_all id tid checks db) !! id)
    = Some (fold_left
              (fun stored rc =>
                 Some (BullWorker.next_failures stored
                         (BullWorker.success (fst rc))))
              checks (m_consecutiveFailures m)).
Proof.
  induction checks as [|[r clk] rest IH]; intros db m H; simpl.
  - rewrite H. reflexivity.
  - pose proof (processMonitorCheck_failures id tid r clk db m H) as Hstep.
    destruct (monitors (BullWorker.processMonitorCheck id tid r clk db) !! id)
      as [m'|] eqn:E; simpl in Hstep; [|discriminate].
    rewrite (IH _ m' E). injection Hstep as ->. reflexivity.
Qed.

Lemma fold_failures_nonneg (checks : list (BullWorker.CheckResult * Clock)) :
  forall stored,
    0 <= JS.num_or stored 0 ->
    0 <= JS.num_or
           (fold_left
              (fun stored rc =>
                 Some (BullWorker.next_failures stored
                         (BullWorker.success (fst rc))))
              checks stored) 0.
Proof.
  induction checks as [|[r clk] rest IH]; intros stored H; simpl.
  - exact H.
  - apply IH. unfold BullWorker.next_failures.
    destruct (BullWorker.success r); simpl; [lia|].
    destruct (JS.num_or stored 0 + 1 =? 0) eqn:E; lia.
Qed.

Lemma fold_failures_streak (fails : list (BullWorker.CheckResult * Clock)) :
  forall n,
    0 <= n ->
    Forall (fun rc => BullWorker.success (fst rc) = false) fails ->
    fold_left
      (fun stored rc =>
         Some (BullWorker.next_failures stored (BullWorker.success (fst rc))))
      fails (Some n)
    = Some (n + Z.of_nat (length fails)).
Proof.
  induction fails as [|[r clk] rest IH]; intros n Hn HF; simpl.
  - f_equal. lia.
  - inversion HF as [|? ? Hs Hrest]; subst. simpl in Hs.
    unfold BullWorker.next_failures at 2. rewrite Hs.
    assert (JS.num_or (Some n) 0 = n) as ->.
    { simpl. destruct (n =? 0) eqn:E; [apply Z.eqb_eq in E|]; lia. }
    rewrite IH by (auto; lia). f_equal. lia.
Qed.

Lemma process_all_app id tid c1 c2 db :
  BullWorker.process_all id tid (c1 ++ c2) db
  = BullWorker.process_all id tid c2 (BullWorker.process_all id tid c1 db).
Proof.
  revert db. induction c1 as [|[r clk] rest IH]; intros db; simpl.
  - reflexivity.
  - apply IH.
Qed.

Lemma process_all_found id tid checks db m :
  monitors db !! id = Some m ->
  exists m', monitors (BullWorker.process_all id tid checks db) !! id = Some m'.
Proof.
  intros H. pose proof (process_all_failures id tid checks db m H) as E.
  destruct (monitors (BullWorker.process_all id tid checks db) !! id) as [m'|];
    [eauto | discriminate].
Qed.

(** C7.  In both execution modes the failure counter of a monitor is
    never negative over any sequence of checks, a successful check sets it
    to 0, a failed check adds 1 to it, and after a success followed by N
    failed checks it is exactly N.  Timer mode: [updateAfterCheck] on the
    cache entry; queue mode: [processMonitorCheck] on the stored monitor. *)
Theorem C7_consecutiveFailures_counter :
  forall (id tid : string) (cache : gmap string WorkerCache.Entry)
         (e : WorkerCache.Entry) (db : Db) (m : MonitorDoc),
    cache !! id = Some e ->
    0 <= WorkerCache.consecutiveFailures e ->
    monitors db !! id = Some m ->
    0 <= JS.num_or (m_consecutiveFailures m) 0 ->
    (forall success ms next,
        WorkerCache.consecutiveFailures <$>
          (fst (WorkerCache.updateAfterCheck id success ms next cache) !! id)
        = Some (if success then 0 else WorkerCache.consecutiveFailures e + 1)
        /\ WorkerCache.u_consecutiveFailures <$>
             snd (WorkerCache.updateAfterCheck id success ms next cache)
           = Some (if success then 0 else WorkerCache.consecutiveFailures e + 1))
    /\ (forall results,
          exists e', WorkerCache.update_all id results cache !! id = Some e'
                     /\ 0 <= WorkerCache.consecutiveFailures e')
    /\ (forall fails,
          Forall (fun r => fst (fst r) = false) fails ->
          exists e', WorkerCache.update_all id fails cache !! id = Some e'
                     /\ WorkerCache.consecutiveFailures e'
                        = WorkerCache.consecutiveFailures e
                          + Z.of_nat (length fails))
    /\ (forall results ms next fails,
          Forall (fun r => fst (fst r) = false) fails ->
          exists e',
            WorkerCache.update_all id (results ++ (true, ms, next) :: fails) cache
              !! id = Some e'
            /\ WorkerCache.consecutiveFailures e' = Z.of_nat (length fails))
    /\ (forall r clk,
          m_consecutiveFailures <$>
            (monitors (BullWorker.processMonitorCheck id tid r clk db) !! id)
          = Some (Some (if BullWorker.success r then 0
                        else JS.num_or (m_consecutiveFailures m) 0 + 1)))
    /\ (forall checks,
          exists m',
            monitors (BullWorker.process_all id tid checks db) !! id = Some m'
            /\ 0 <= JS.num_or (m_consecutiveFailures m') 0)
    /\ (forall checks r clk fails,
          BullWorker.success r = true ->
          Forall (fun rc => BullWorker.success (fst rc) = false) fails ->
          exists m',
            monitors (BullWorker.process_all id tid
                        (checks ++ (r, clk) :: fails) db) !! id = Some m'
            /\ m_consecutiveFailures m' = Some (Z.of_nat (length fails))).
Proof.
  intros id tid cache e db m Hc He Hm Hn.
  repeat split.
  - rewrite (updateAfterCheck_hit _ _ _ _ _ _ Hc). simpl.
    rewrite lookup_insert_eq. reflexivity.
  - rewrite (updateAfterCheck_hit _ _ _ _ _ _ Hc). reflexivity.
  - intros results. exists (WorkerCache.run_checks results e). split.
    + apply update_all_lookup, Hc.
    + apply run_checks_nonneg, He.
  - intros fails HF. exists (WorkerCache.run_checks fails e). split.
    + apply update_all_lookup, Hc.
    + apply run_checks_failures, HF.
  - intros results ms next fails HF.
    exists (WorkerCache.run_checks (results ++ (true, ms, next) :: fails) e).
    split.
    + apply update_all_lookup, Hc.
    + rewrite run_checks_app. simpl.
      rewrite (run_checks_failures _ _ HF). simpl. lia.
  - intros r clk. rewrite (processMonitorCheck_failures _ _ _ _ _ _ Hm).
    reflexivity.
  - intros checks.
    destruct (process_all_found id tid checks db m Hm) as [m' Hm'].
    exists m'. split; [exact Hm'|].
    pose proof (process_all_failures id tid checks db m Hm) as E.
    rewrite Hm' in E. simpl in E. injection E as ->.
    apply fold_failures_nonneg, Hn.
  - intros checks r clk fails Hr HF.
    rewrite process_all_app.
    destruct (process_all_found id tid checks db m Hm) as [m1 Hm1].
    destruct (process_all_found id tid ((r, clk) :: fails) _ m1 Hm1)
      as [m' Hm'].
    exists m'. split; [exact Hm'|].
    pose proof (process_all_failures id tid ((r, clk) :: fails) _ m1 Hm1) as E.
    rewrite Hm' in E. simpl in E. injection E as ->.
    unfold BullWorker.next_failures at 2. rewrite Hr.
    rewrite (fold_failures_streak fails 0) by (auto; lia).
    f_equal.
Qed.

(** An entry that was down twice fails three more times after one
    success: the counter reads 3. *)
Lemma C7_consecutiveFailures_counter_witness :
  exists e',
    WorkerCache.update_all "m1"
      ([(false, 30000, 150000)] ++ (true, 120, 210000)
         :: [(false, 30000, 270000); (false, 30000, 330000);
             (false, 30000, 390000)])
      Samples.down_cache !! "m1" = Some e'
    /\ WorkerCache.consecutiveFailures e' = Z.of_nat 3.
Proof.
  refine (proj1 (proj2 (proj2 (proj2
    (C7_consecutiveFailures_counter "m1" "t1" Samples.down_cache
       Samples.down_entry Samples.empty_db Samples.api_monitor
       eq_refl _ eq_refl _)))) [(false, 30000, 150000)] 120 210000
       [(false, 30000, 270000); (false, 30000, 330000);
        (false, 30000, 390000)] _).
  - vm_compute. discriminate.
  - vm_compute. discriminate.
  - repeat constructor.
Defined.

(** C8.  [updateMonitor] of an active monitor whose id is in the cache
    stores an entry with the configuration of the monitor passed in and
    with [nextRunAt], [lastStatus], [lastResponseMs] and
    [consecutiveFailures] of the entry that was there, and touches no other
    entry; of an inactive monitor it does what [removeMonitor] of its id
    does. *)
Theorem C8_updateMonitor_frame :
  forall (now : Z) (m : MonitorDoc) (cache : gmap string WorkerCache.Entry),
    (forall e,
        m_active m = true ->
        cache !! m_id m = Some e ->
        exists e',
          WorkerCache.updateMonitor now m cache !! m_id m = Some e'
          /\ WorkerCache.nextRunAt e' = WorkerCache.nextRunAt e
          /\ WorkerCache.lastStatus e' = WorkerCache.lastStatus e
          /\ WorkerCache.lastResponseMs e' = WorkerCache.lastResponseMs e
          /\ WorkerCache.consecutiveFailures e'
             = WorkerCache.consecutiveFailures e
          /\ e' = WorkerCache.entry_of m
                    (WorkerCache.nextRunAt e) (WorkerCache.lastStatus e)
                    (WorkerCache.lastResponseMs e)
                    (WorkerCache.consecutiveFailures e)
          /\ (forall k, k <> m_id m ->
                WorkerCache.updateMonitor now m cache !! k = cache !! k))
    /\ (m_active m = false ->
        WorkerCache.updateMonitor now m cache
        = WorkerCache.removeMonitor (m_id m) cache).
Proof.
  intros now m cache. split.
  - intros e Hact He. unfold WorkerCache.updateMonitor.
    rewrite Hact, He. simpl.
    eexists. split; [apply lookup_insert_eq|].
    repeat split; try reflexivity.
    intros k Hk. apply lookup_insert_ne. congruence.
  - intros Hin. unfold WorkerCache.updateMonitor. rewrite Hin. reflexivity.
Qed.

(** Editing the URL, the interval and the threshold of a monitor that is
    down for two checks keeps its schedule and its streak. *)
Lemma C8_updateMonitor_frame_witness :
  exists e',
    WorkerCache.updateMonitor 123456 Samples.edited_monitor Samples.down_cache
      !! "m1" = Some e'
    /\ WorkerCache.nextRunAt e' = 90000
    /\ WorkerCache.lastStatus e' = Down
    /\ WorkerCache.lastResponseMs e' = 250
    /\ WorkerCache.consecutiveFailures e' = 2
    /\ WorkerCache.url e' = "https://api.example.com/v2/health"
    /\ WorkerCache.intervalSec e' = 120.
Proof.
  destruct (proj1 (C8_updateMonitor_frame 123456 Samples.edited_monitor
                     Samples.down_cache)
              Samples.down_entry eq_refl eq_refl)
    as (e' & H1 & H2 & H3 & H4 & H5 & H6 & _).
  exists e'. rewrite H6 at 6 7.
  repeat split; assumption || reflexivity.
Defined.

(** Timer mode: the flag returned by [updateAfterCheck] is
    [previousStatus !== newStatus], whatever the previous status. *)
Lemma timer_statusChanged id success ms next
    (cache : gmap string WorkerCache.Entry) e :
  cache !! id = Some e ->
  WorkerCache.statusChanged <$>
    snd (WorkerCache.updateAfterCheck id success ms next cache)
  = Some (negb (status_eqb (WorkerCache.lastStatus e)
                           (status_of_success success))).
Proof.
  intros H. rewrite (updateAfterCheck_hit _ _ _ _ _ _ H). reflexivity.
Qed.

(** Queue mode: the flag is as the claim defines it. *)
Lemma queue_statusChanged (previous : status) (success : bool) :
  BullWorker.statusChanged (Some previous) (status_of_success success) = true
  <-> previous <> status_of_success success /\ previous <> Pending.
Proof.
  unfold BullWorker.statusChanged.
  destruct previous, success; simpl; split; intros H;
    try discriminate; try (split; congruence);
    destruct H as [H1 H2]; congruence.
Qed.

(** C4, evaluated on the first check of a fresh monitor in timer mode:
    the entry is ['pending'], the check succeeds, and [updateAfterCheck]
    returns [statusChanged = true], where the claimed value
    [previousStatus != newStatus AND previousStatus != 'pending'], which
    the queue mode computes, is [false]. *)
Theorem C4_timer_first_check_counts_as_change :
  WorkerCache.statusChanged <$>
    snd (WorkerCache.updateAfterCheck "m1" true 120 60000 Samples.fresh_cache)
  = Some true
  /\ WorkerCache.previousStatus <$>
       snd (WorkerCache.updateAfterCheck "m1" true 120 60000 Samples.fresh_cache)
     = Some Pending
  /\ BullWorker.statusChanged (Some Pending) (status_of_success true) = false.
Proof. repeat split. Qed.

(** ** The state machine of the timer-driven worker *)

Lemma worker_down_trigger_iff (p : Params) :
  Worker.down_trigger p = true <-> Worker.down_rule p.
Proof.
  unfold Worker.down_trigger, Worker.isThresholdReached,
    Worker.isAlreadyDownMissingIncident, Worker.down_rule.
  rewrite orb_true_iff, !andb_true_iff, status_eqb_eq, Z.eqb_eq,
    Z.gtb_gt, negb_true_iff.
  destruct (m_currentIncidentId (p_monitor p)); simpl; intuition congruence.
Qed.

Lemma recovered_needs_up (p : Params) :
  StateMachine.recovered p = true -> p_newStatus p = Up.
Proof.
  unfold StateMachine.recovered. intros H.
  apply andb_prop in H as [H _]. apply andb_prop in H as [_ H].
  apply status_eqb_eq, H.
Qed.

Lemma resolve_current_incidents_length clk p iid db :
  length (incidents (fst (StateMachine.resolve_current clk p iid db)))
  = length (incidents db).
Proof.
  unfold StateMachine.resolve_current.
  destruct (incidents db !! iid) as [inc|]; simpl; [|reflexivity].
  destruct (negb (incident_status_eqb (i_status inc) Resolved)); simpl;
    [apply length_insert | reflexivity].
Qed.

Lemma resolve_current_outbox clk p iid db :
  outbox (fst (StateMachine.resolve_current clk p iid db)) = outbox db.
Proof.
  unfold StateMachine.resolve_current.
  destruct (incidents db !! iid) as [inc|]; simpl; [|reflexivity].
  destruct (negb (incident_status_eqb (i_status inc) Resolved)); reflexivity.
Qed.

(** In the timer-driven worker, [handleStatusChange] creates an
    incident exactly under the down rule: the new status is 'down' and the
    failure count equals the threshold [alertAfterFailures || 1], or
    exceeds it while the monitor has no [currentIncidentId].  Under the
    rule one incident is appended, with status 'investigating', severity
    'major' and type 'auto'; the monitor's [currentIncidentId] becomes its
    id; one 'down' alert is requested.  Outside the rule no incident is
    added and no 'down' alert is requested; in particular not below the
    threshold, and not past it while an incident is linked. *)
Lemma worker_down_incident_rule :
  forall (clk : Clock) (p : Params) (db : Db),
    (Worker.down_rule p ->
       exists inc,
         incidents (Worker.handleStatusChange clk p db) = incidents db ++ [inc]
         /\ i_status inc = Investigating
         /\ i_severity inc = Major
         /\ i_type inc = Auto
         /\ i_monitorId inc = Some (m_id (p_monitor p))
         /\ (forall m,
               monitors db !! m_id (p_monitor p) = Some m ->
               monitors (Worker.handleStatusChange clk p db) !! m_id (p_monitor p)
               = Some (Store.set_currentIncidentId
                         (Some (length (incidents db))) m))
         /\ outbox (Worker.handleStatusChange clk p db)
            = outbox db
              ++ [StateMachine.down_alert false p
                    (Store.team_name (p_teamId p) db)])
    /\ (~ Worker.down_rule p ->
        length (incidents (Worker.handleStatusChange clk p db))
        = length (incidents db)
        /\ List.filter StateMachine.is_down_alert
             (outbox (Worker.handleStatusChange clk p db))
           = List.filter StateMachine.is_down_alert (outbox db))
    /\ (p_consecutiveFailures p < Worker.alertThreshold (p_monitor p) ->
        ~ Worker.down_rule p)
    /\ (forall iid,
          Worker.alertThreshold (p_monitor p) < p_consecutiveFailures p ->
          m_currentIncidentId (p_monitor p) = Some iid ->
          ~ Worker.down_rule p).
Proof.
  intros clk p db. split; [|split; [|split]].
  - intros Hrule. pose proof Hrule as [Hdown _].
    apply worker_down_trigger_iff in Hrule.
    unfold Worker.handleStatusChange. rewrite Hrule.
    assert (StateMachine.recovered p = false) as ->.
    { destruct (StateMachine.recovered p) eqn:E; [|reflexivity].
      apply recovered_needs_up in E. congruence. }
    exists (StateMachine.auto_incident clk p).
    unfold StateMachine.open_incident. simpl.
    repeat split.
    intros m Hm. rewrite lookup_alter_eq, Hm. reflexivity.
  - intros Hno.
    destruct (Worker.down_trigger p) eqn:E.
    { apply worker_down_trigger_iff in E. contradiction. }
    unfold Worker.handleStatusChange. rewrite E.
    destruct (StateMachine.recovered p); [|split; reflexivity].
    destruct (m_currentIncidentId (p_monitor p)) as [iid|].
    + pose proof (resolve_current_incidents_length clk p iid db) as L.
      pose proof (resolve_current_outbox clk p iid db) as O.
      destruct (StateMachine.resolve_current clk p iid db) as [db2 dt].
      simpl in *. split; [exact L|].
      rewrite O, List.filter_app. simpl. apply app_nil_r.
    + simpl. split; [reflexivity|].
      rewrite List.filter_app. simpl. apply app_nil_r.
  - intros Hlt Hrule. destruct Hrule as [_ [H|[H _]]]; lia.
  - intros iid Hgt Hinc Hrule.
    destruct Hrule as [_ [H|[_ H]]]; [lia | congruence].
Qed.

(** *** A streak of failed checks, end to end *)

Lemma worker_down_only (clk : Clock) (p : Params) (db : Db) :
  p_newStatus p = Down ->
  Worker.handleStatusChange clk p db
  = if Worker.down_trigger p
    then StateMachine.open_incident false clk p
           (Store.team_name (p_teamId p) db) db
    else db.
Proof.
  intros Hd. unfold Worker.handleStatusChange.
  assert (StateMachine.recovered p = false) as ->; [|reflexivity].
  destruct (StateMachine.recovered p) eqn:E; [|reflexivity].
  apply recovered_needs_up in E. congruence.
Qed.

Lemma failed_check_step id w expected fails thr linked created o ms clk :
  Worker.streak_state id w expected fails thr linked created ->
  Worker.outcome_success expected o = false ->
  let fires := (fails + 1 =? thr) || ((fails + 1 >? thr) && negb linked) in
  Worker.streak_state id (Worker.check_by_id id o ms clk w) expected
    (fails + 1) thr (linked || fires)
    (if fires then S created else created).
Proof.
  intros [(e & He & Hid & Hex & Hf) (m & Hm & Hmid & Hthr & Hl) Hlen]
    Hfail fires.
  rewrite <- Hex in Hfail.
  unfold Worker.check_by_id. rewrite He.
  unfold Worker.checkMonitor. rewrite Hfail, Hid.
  rewrite (updateAfterCheck_hit _ _ _ _ _ _ He). cbn zeta iota beta.
  cbn [WorkerCache.u_consecutiveFailures WorkerCache.previousStatus
       WorkerCache.newStatus WorkerCache.statusChanged status_of_success].
  cbn [Store.add_history Store.with_monitors monitors].
  rewrite lookup_alter_eq, Hm. cbn [fmap option_fmap option_map].
  rewrite worker_down_only by reflexivity.
  set (m1 := MonitorFields.set_check_fields _ _ _ _ _ m).
  assert (Worker.down_trigger
            {| p_monitor := m1; p_previousStatus := Some (WorkerCache.lastStatus e);
               p_newStatus := Down;
               p_statusChanged := negb (status_eqb (WorkerCache.lastStatus e) Down);
               p_consecutiveFailures := WorkerCache.consecutiveFailures e + 1;
               p_error := Worker.outcome_error (WorkerCache.expectedCode e) o;
               p_responseMs := ms; p_teamId := WorkerCache.teamId e |}
          = fires) as ->.
  { unfold Worker.down_trigger, Worker.isThresholdReached,
      Worker.isAlreadyDownMissingIncident, fires. simpl.
    change (Worker.alertThreshold m1) with (Worker.alertThreshold m).
    rewrite Hthr, Hf, Hl. reflexivity. }
  destruct fires.
  - split; simpl.
    + exists (WorkerCache.record_check false ms
                (at_next clk + WorkerCache.intervalSec e * 1000) e).
      rewrite lookup_insert_eq. simpl.
      repeat split; [exact Hid | exact Hex | lia].
    + rewrite Hmid, lookup_alter_eq, lookup_alter_eq, Hm. simpl.
      eexists. split; [reflexivity|]. simpl.
      repeat split; [exact Hmid | exact Hthr | symmetry; apply orb_true_r].
    + rewrite length_app. simpl. simpl in Hlen. lia.
  - split; simpl.
    + exists (WorkerCache.record_check false ms
                (at_next clk + WorkerCache.intervalSec e * 1000) e).
      rewrite lookup_insert_eq. simpl.
      repeat split; [exact Hid | exact Hex | lia].
    + rewrite lookup_alter_eq, Hm. simpl.
      eexists. split; [reflexivity|]. simpl.
      repeat split; [exact Hmid | exact Hthr | rewrite orb_false_r; exact Hl].
    + exact Hlen.
Qed.

(** Case analysis on every integer comparison of the goal. *)
Ltac decide_comparisons :=
  repeat match goal with
         | |- context [Z.eqb ?a ?b] => destruct (Z.eqb_spec a b)
         | |- context [Z.ltb ?a ?b] => destruct (Z.ltb_spec a b)
         | |- context [Z.leb ?a ?b] => destruct (Z.leb_spec a b)
         | |- context [Z.gtb ?a ?b] => destruct (Z.gtb_spec a b)
         end;
  cbn [andb orb negb]; try reflexivity; try lia.

Lemma failed_streak id expected checks :
  forall w k thr linked created,
    Worker.streak_state id w expected k thr linked created ->
    Forall (fun c => Worker.outcome_success expected (fst (fst c)) = false)
      checks ->
    Worker.streak_state id (Worker.check_all id checks w) expected
      (k + Z.of_nat (length checks)) thr
      (linked || Worker.streak_fires k thr linked (length checks))
      (if Worker.streak_fires k thr linked (length checks)
       then S created else created).
Proof.
  induction checks as [|[[o ms] clk] rest IH];
    intros w k thr linked created Hst HF.
  - simpl. rewrite orb_false_r, Z.add_0_r. exact Hst.
  - inversion HF as [|? ? Ho Hrest]; subst. simpl in Ho.
    pose proof (failed_check_step id w expected k thr linked created
                  o ms clk Hst Ho) as Hstep.
    cbv zeta in Hstep.
    specialize (IH _ _ _ _ _ Hstep Hrest).
    cbn [Worker.check_all length].
    replace (k + Z.of_nat (S (length rest)))
      with (k + 1 + Z.of_nat (length rest)) by lia.
    set (n := length rest) in *.
    assert (forall b1 b2 c1 c2,
              b1 = b2 -> c1 = c2 ->
              Worker.streak_state id (Worker.check_all id rest
                                 (Worker.check_by_id id o ms clk w))
                expected (k + 1 + Z.of_nat n) thr b1 c1 ->
              Worker.streak_state id (Worker.check_all id rest
                                 (Worker.check_by_id id o ms clk w))
                expected (k + 1 + Z.of_nat n) thr b2 c2) as Hcast.
    { intros ? ? ? ? -> ->. auto. }
    refine (Hcast _ _ _ _ _ _ IH); clear Hcast IH Hstep.
    + destruct n as [|n']; destruct linked; cbv [Worker.streak_fires];
        rewrite ?Nat2Z.inj_succ; decide_comparisons.
    + destruct n as [|n']; destruct linked; cbv [Worker.streak_fires];
        rewrite ?Nat2Z.inj_succ; decide_comparisons.
Qed.

(** C1 as the code has it.  Timer-driven worker; the threshold is
    [alertAfterFailures || 1]: the stored number, and 1 when none or 0 is
    stored.  (1) [handleStatusChange] creates an incident exactly under
    the down rule: the new status is 'down' and the failure count equals
    the threshold, or exceeds it while the monitor has no
    [currentIncidentId].  Under the rule one incident is appended, of the
    monitor and the team, with status 'investigating', severity 'major'
    and type 'auto'; the stored monitor's [currentIncidentId] becomes the
    id of that incident and its other fields stay; one alert is
    requested, of type 'down', with the monitor's name and URL, the error
    of the check and the team.  Outside the rule no incident is added and
    no 'down' alert requested, in particular below the threshold and past
    the threshold with an incident linked.  (2) Through [checkMonitor]: a
    streak of failed checks of a monitor creates one incident when it
    crosses the threshold, or when it starts at or past the threshold with
    no incident linked, and none otherwise, however long it is. *)
Theorem C1_timer_incident_creation :
  (forall (clk : Clock) (p : Params) (db : Db),
      let db' := Worker.handleStatusChange clk p db in
      let id := m_id (p_monitor p) in
      (Worker.down_rule p ->
         exists inc a,
           incidents db' = incidents db ++ [inc]
           /\ i_status inc = Investigating
           /\ i_severity inc = Major
           /\ i_type inc = Auto
           /\ i_monitorId inc = Some id
           /\ i_teamId inc = p_teamId p
           /\ i_resolvedAt inc = None
           /\ (forall m,
                 monitors db !! id = Some m ->
                 exists m',
                   monitors db' !! id = Some m'
                   /\ m_currentIncidentId m' = Some (length (incidents db))
                   /\ incidents db' !! length (incidents db) = Some inc
                   /\ m_lastStatus m' = m_lastStatus m
                   /\ m_consecutiveFailures m' = m_consecutiveFailures m
                   /\ m_alertAfterFailures m' = m_alertAfterFailures m
                   /\ m_active m' = m_active m)
           /\ (forall k, k <> id -> monitors db' !! k = monitors db !! k)
           /\ outbox db' = outbox db ++ [a]
           /\ al_type a = AlertDown
           /\ al_teamId a = p_teamId p
           /\ al_monitorName a = m_name (p_monitor p)
           /\ al_url a = m_url (p_monitor p)
           /\ al_error a = p_error p
           /\ al_teamName a = Store.team_name (p_teamId p) db)
      /\ (~ Worker.down_rule p ->
          length (incidents db') = length (incidents db)
          /\ List.filter StateMachine.is_down_alert (outbox db')
             = List.filter StateMachine.is_down_alert (outbox db))
      /\ (p_consecutiveFailures p < Worker.alertThreshold (p_monitor p) ->
          ~ Worker.down_rule p)
      /\ (forall iid,
            Worker.alertThreshold (p_monitor p) < p_consecutiveFailures p ->
            m_currentIncidentId (p_monitor p) = Some iid ->
            ~ Worker.down_rule p)
      /\ (forall n,
            m_alertAfterFailures (p_monitor p) = Some n -> n <> 0 ->
            Worker.alertThreshold (p_monitor p) = n)
      /\ (m_alertAfterFailures (p_monitor p) = None
          \/ m_alertAfterFailures (p_monitor p) = Some 0 ->
          Worker.alertThreshold (p_monitor p) = 1))
  /\ (forall id w expected k thr linked created checks,
        Worker.streak_state id w expected k thr linked created ->
        Forall (fun c => Worker.outcome_success expected (fst (fst c)) = false)
          checks ->
        length (incidents (Worker.db (Worker.check_all id checks w)))
        = if Worker.streak_fires k thr linked (length checks)
          then S created else created).
Proof.
  split.
  - intros clk p db db' id. subst db' id.
    destruct (worker_down_incident_rule clk p db) as (H1 & H2 & H3 & H4).
    split; [|split; [exact H2|split; [exact H3|split; [exact H4|split]]]].
    + intros Hrule.
      destruct (H1 Hrule) as (inc & Hinc & Hst & Hsev & Hty & Hmon & Hlink & Hout).
      exists inc, (StateMachine.down_alert false p
                     (Store.team_name (p_teamId p) db)).
      assert (inc = StateMachine.auto_incident clk p) as Einc.
      { pose proof Hrule as Hr. apply worker_down_trigger_iff in Hr.
        rewrite (worker_down_only clk p db (proj1 Hrule)), Hr in Hinc.
        unfold StateMachine.open_incident in Hinc. simpl in Hinc.
        apply app_inv_head in Hinc. injection Hinc as <-. reflexivity. }
      split; [exact Hinc|]. split; [exact Hst|]. split; [exact Hsev|].
      split; [exact Hty|]. split; [exact Hmon|].
      split; [rewrite Einc; reflexivity|].
      split; [rewrite Einc; reflexivity|].
      split; [|split; [|split; [exact Hout|repeat split]]].
      * intros m Hm. eexists. split; [apply (Hlink m Hm)|].
        split; [reflexivity|].
        split; [|repeat split].
        rewrite Hinc. apply list_lookup_middle. reflexivity.
      * intros k Hk.
        pose proof Hrule as Hr. apply worker_down_trigger_iff in Hr.
        rewrite (worker_down_only clk p db (proj1 Hrule)), Hr.
        unfold StateMachine.open_incident. simpl.
        apply lookup_alter_ne. congruence.
    + intros n Hn Hne. unfold Worker.alertThreshold. rewrite Hn. simpl.
      destruct (Z.eqb_spec n 0); [contradiction | reflexivity].
    + intros [H | H]; unfold Worker.alertThreshold; rewrite H; reflexivity.
  - intros id w expected k thr linked created checks Hst HF.
    apply (Worker.ss_incidents _ _ _ _ _ _ _
             (failed_streak id expected checks w k thr linked created Hst HF)).
Qed.

(** The first failed check of a monitor with threshold 1 opens a major
    incident and requests one 'down' alert. *)
Lemma C1_timer_incident_creation_witness :
  Worker.down_rule Samples.first_failure
  /\ exists inc a,
       incidents (Worker.handleStatusChange (Samples.clock_at 60000)
                    Samples.first_failure Samples.empty_db)
       = incidents Samples.empty_db ++ [inc]
       /\ i_status inc = Investigating
       /\ i_severity inc = Major
       /\ i_type inc = Auto
       /\ outbox (Worker.handleStatusChange (Samples.clock_at 60000)
                    Samples.first_failure Samples.empty_db)
          = outbox Samples.empty_db ++ [a]
       /\ al_type a = AlertDown.
Proof.
  assert (Worker.down_rule Samples.first_failure) as Hrule.
  { split; [reflexivity | left; reflexivity]. }
  split; [exact Hrule|].
  destruct (proj1 (proj1 C1_timer_incident_creation
                     (Samples.clock_at 60000) Samples.first_failure
                     Samples.empty_db) Hrule)
    as (inc & a & H1 & H2 & H3 & H4 & _ & _ & _ & _ & _ & H5 & H6 & _).
  exists inc, a. repeat split; assumption.
Defined.

(** C1 fails as stated, with the stored value for threshold: a monitor
    whose stored [alertAfterFailures] is 0 and which has an incident
    linked fails with a count of 1.  The count neither equals the stored
    value nor exceeds it with no incident linked, yet the rule of the code
    holds, 1 being the threshold [0 || 1], and a second incident is
    created and a 'down' alert requested. *)
Lemma C1_counterexample_zero_threshold :
  let p := Fixtures.zero_threshold_failure in
  let db' := Worker.handleStatusChange (Samples.clock_at 60000) p
               Fixtures.zero_threshold_db in
  p_newStatus p = Down
  /\ m_alertAfterFailures (p_monitor p) = Some 0
  /\ p_consecutiveFailures p = 1
  /\ m_currentIncidentId (p_monitor p) = Some 0%nat
  /\ ~ (p_consecutiveFailures p = 0
        \/ (p_consecutiveFailures p > 0
            /\ m_currentIncidentId (p_monitor p) = None))
  /\ length (incidents db') = S (length (incidents Fixtures.zero_threshold_db))
  /\ (exists inc, incidents db' !! 1%nat = Some inc
                  /\ i_status inc = Investigating /\ i_type inc = Auto)
  /\ (exists a, outbox db' = [a] /\ al_type a = AlertDown).
Proof.
  cbv zeta. split; [reflexivity|]. split; [reflexivity|].
  split; [reflexivity|]. split; [reflexivity|].
  split.
  { intros [H | [_ H]]; discriminate H. }
  split; [reflexivity|]. split.
  - eexists. split; [reflexivity|]. split; reflexivity.
  - eexists. split; reflexivity.
Qed.

(** Threshold 3, fresh monitor: two failed checks create no incident,
    three create one, and so do five. *)
Example timer_threshold_three :
  let mon3 := Store.with_monitors
                (fun _ => {[ "m1" := Samples.edited_monitor ]}) Samples.empty_db in
  let w := {| Worker.cache := Samples.fresh_cache; Worker.db := mon3 |} in
  let fail t := (Worker.Threw (Some "ETIMEDOUT") None, 30000, Samples.clock_at t) in
  length (incidents (Worker.db (Worker.check_all "m1" [fail 1; fail 2] w))) = 0%nat
  /\ length (incidents (Worker.db
        (Worker.check_all "m1" [fail 1; fail 2; fail 3] w))) = 1%nat
  /\ length (incidents (Worker.db
        (Worker.check_all "m1" [fail 1; fail 2; fail 3; fail 4; fail 5] w)))
     = 1%nat.
Proof. vm_compute. repeat split. Qed.

(** ** Timer mode against queue mode *)

(** The two down conditions differ by the catch-up disjunct only. *)
Lemma down_trigger_modes (p : Params) :
  Worker.down_trigger p
  = BullWorker.down_trigger p || Worker.isAlreadyDownMissingIncident p.
Proof. reflexivity. Qed.

(** Whenever the queue mode opens an incident, so does the timer mode. *)
Lemma queue_trigger_implies_timer_trigger (p : Params) :
  BullWorker.down_trigger p = true -> Worker.down_trigger p = true.
Proof. intros H. rewrite down_trigger_modes, H. reflexivity. Qed.

(** Outside the catch-up case both state machines leave the same
    monitors and incidents and request alerts of the same types. *)
Lemma modes_agree_outside_catch_up clk p db :
  Worker.isAlreadyDownMissingIncident p = false ->
  monitors (Worker.handleStatusChange clk p db)
  = monitors (BullWorker.handleStatusChange clk p db)
  /\ incidents (Worker.handleStatusChange clk p db)
     = incidents (BullWorker.handleStatusChange clk p db)
  /\ List.map al_type (outbox (Worker.handleStatusChange clk p db))
     = List.map al_type (outbox (BullWorker.handleStatusChange clk p db)).
Proof.
  intros H.
  unfold Worker.handleStatusChange, BullWorker.handleStatusChange.
  rewrite down_trigger_modes, H, orb_false_r.
  unfold StateMachine.open_incident, StateMachine.resolve_current.
  destruct (BullWorker.down_trigger p), (StateMachine.recovered p),
    (m_currentIncidentId (p_monitor p)) as [iid|];
    cbn -[IncidentModel.pre_save IncidentModel.mark_resolved];
    repeat match goal with
           | |- context [?l !! ?i] =>
               match type of l with
               | list Incident => destruct (l !! i) as [inc|] eqn:?
               end
           | |- context [incident_status_eqb ?a ?b] =>
               destruct (incident_status_eqb a b)
           end;
    cbn -[IncidentModel.pre_save IncidentModel.mark_resolved];
    rewrite ?List.map_app; repeat split; reflexivity.
Qed.

(** C3, evaluated on a failed check of a monitor that is past its
    threshold with no incident linked.  On the same argument the timer
    mode's [handleStatusChange] creates an incident and requests a 'down'
    alert while the queue mode's creates none and requests none; so do
    the two runners on the same failed check of the same stored monitor. *)
Theorem C3_modes_differ_on_missed_incident :
  (length (incidents (Worker.handleStatusChange (Samples.clock_at 60000)
                        Samples.missed_failure Samples.empty_db)) = 1%nat
   /\ length (outbox (Worker.handleStatusChange (Samples.clock_at 60000)
                        Samples.missed_failure Samples.empty_db)) = 1%nat
   /\ incidents (BullWorker.handleStatusChange (Samples.clock_at 60000)
                   Samples.missed_failure Samples.empty_db) = []
   /\ outbox (BullWorker.handleStatusChange (Samples.clock_at 60000)
                Samples.missed_failure Samples.empty_db) = [])
  /\ (length (incidents (Worker.db
        (Worker.check_by_id "m1" (Worker.Threw (Some "ETIMEDOUT") None) 30000
           (Samples.clock_at 60000) Samples.unlinked_world))) = 1%nat
      /\ incidents (BullWorker.processMonitorCheck "m1" "t1"
                      Samples.failed_result (Samples.clock_at 60000)
                      Samples.unlinked_db) = []
      /\ outbox (BullWorker.processMonitorCheck "m1" "t1"
                   Samples.failed_result (Samples.clock_at 60000)
                   Samples.unlinked_db) = []).
Proof. vm_compute. repeat split. Qed.

(** ** Resolving an incident on recovery *)

(** What the recovery branch of either mode leaves on the incident it
    resolves. *)
Lemma resolve_current_incident clk p iid db inc :
  incidents db !! iid = Some inc ->
  i_status inc <> Resolved ->
  exists inc',
    incidents (fst (StateMachine.resolve_current clk p iid db)) !! iid
    = Some inc'
    /\ i_status inc' = Resolved
    /\ i_resolvedAt inc' = Some (at_resolved clk)
    /\ i_duration inc' = Some (at_duration clk - i_startedAt inc)
    /\ i_startedAt inc' = i_startedAt inc.
Proof.
  intros Hin Hst. unfold StateMachine.resolve_current. rewrite Hin.
  assert (incident_status_eqb (i_status inc) Resolved = false) as ->.
  { destruct (incident_status_eqb (i_status inc) Resolved) eqn:E;
      [apply incident_status_eqb_eq in E; contradiction | reflexivity]. }
  simpl. eexists. split.
  - apply list_lookup_insert_eq. apply lookup_lt_Some in Hin. exact Hin.
  - repeat split.
Qed.

(** The stored duration is the claimed one exactly when the two readings
    of the clock agree. *)
Lemma resolved_duration_exact_iff clk p iid db inc inc' :
  incidents db !! iid = Some inc ->
  i_status inc <> Resolved ->
  incidents (fst (StateMachine.resolve_current clk p iid db)) !! iid
  = Some inc' ->
  (exists r, i_resolvedAt inc' = Some r
             /\ i_duration inc' = Some (r - i_startedAt inc'))
  <-> at_duration clk = at_resolved clk.
Proof.
  intros Hin Hst Hout.
  destruct (resolve_current_incident clk p iid db inc Hin Hst)
    as (x & Hx & _ & Hr & Hd & Hs).
  rewrite Hout in Hx. injection Hx as <-.
  rewrite Hr, Hd, Hs. split.
  - intros (r & Er & Ed). injection Er as <-. injection Ed as Ed. lia.
  - intros E. exists (at_resolved clk). rewrite E. split; reflexivity.
Qed.

Lemma worker_no_trigger_when_up (p : Params) :
  p_newStatus p = Up -> Worker.down_trigger p = false.
Proof.
  intros H. unfold Worker.down_trigger, Worker.isAlreadyDownMissingIncident.
  rewrite H. reflexivity.
Qed.

(** The recovery branch of the timer mode on an open incident: it ends
    'resolved', with [resolvedAt] the first reading of the clock and
    [duration] the second reading minus [startedAt]. *)
Lemma worker_recovery_resolves clk p db iid inc :
  StateMachine.recovered p = true ->
  m_currentIncidentId (p_monitor p) = Some iid ->
  incidents db !! iid = Some inc ->
  i_status inc <> Resolved ->
  exists inc',
    incidents (Worker.handleStatusChange clk p db) !! iid = Some inc'
    /\ i_status inc' = Resolved
    /\ i_resolvedAt inc' = Some (at_resolved clk)
    /\ i_duration inc' = Some (at_duration clk - i_startedAt inc)
    /\ i_startedAt inc' = i_startedAt inc.
Proof.
  intros Hrec Hcur Hin Hst. unfold Worker.handleStatusChange.
  rewrite (worker_no_trigger_when_up p (recovered_needs_up p Hrec)).
  rewrite Hrec, Hcur.
  pose proof (resolve_current_incident clk p iid db inc Hin Hst) as H.
  destruct (StateMachine.resolve_current clk p iid db) as [db2 dt].
  exact H.
Qed.

(** With a clock that does not run backwards the stored duration is at
    least [resolvedAt - startedAt], and [resolvedAt] is not before
    [startedAt] when the incident started in the past. *)
Lemma worker_recovery_bounds clk p db iid inc :
  StateMachine.recovered p = true ->
  m_currentIncidentId (p_monitor p) = Some iid ->
  incidents db !! iid = Some inc ->
  i_status inc <> Resolved ->
  i_startedAt inc <= at_resolved clk <= at_duration clk ->
  exists inc' r d,
    incidents (Worker.handleStatusChange clk p db) !! iid = Some inc'
    /\ i_resolvedAt inc' = Some r
    /\ i_duration inc' = Some d
    /\ i_startedAt inc' <= r
    /\ r - i_startedAt inc' <= d.
Proof.
  intros Hrec Hcur Hin Hst Hclk.
  destruct (worker_recovery_resolves clk p db iid inc Hrec Hcur Hin Hst)
    as (inc' & H1 & _ & H3 & H4 & H5).
  exists inc', (at_resolved clk), (at_duration clk - i_startedAt inc).
  rewrite H5. repeat split; try assumption; lia.
Qed.

(** The save hook: a document saved as 'resolved' has [resolvedAt]. *)
Lemma pre_save_sets_resolvedAt now (i : Incident) :
  i_status i = Resolved ->
  JS.truthy (i_resolvedAt (IncidentModel.pre_save now i)) = true.
Proof.
  intros H. unfold IncidentModel.pre_save. rewrite H.
  destruct (i_resolvedAt i) eqn:E; simpl; [rewrite E|]; reflexivity.
Qed.

(** The hook computes the duration from the [resolvedAt] it stores. *)
Lemma pre_save_duration now (i : Incident) :
  i_status i = Resolved ->
  i_resolvedAt i = None ->
  i_resolvedAt (IncidentModel.pre_save now i) = Some now
  /\ i_duration (IncidentModel.pre_save now i) = Some (now - i_startedAt i).
Proof.
  intros H1 H2. unfold IncidentModel.pre_save. rewrite H1, H2.
  split; reflexivity.
Qed.

(** C9, evaluated on a recovery whose two [new Date()] fall in successive
    milliseconds: the incident started at 1000 ends 'resolved' with
    [resolvedAt = 61000] and [duration = 60001], one more than
    [resolvedAt - startedAt = 60000]; both modes store the same. *)
Theorem C9_duration_from_second_clock_reading :
  (i_status <$> (incidents (Worker.handleStatusChange Samples.ticking_clock
                              Samples.recovery Samples.linked_db) !! 0%nat)
   = Some Resolved
   /\ i_startedAt <$> (incidents (Worker.handleStatusChange Samples.ticking_clock
                                    Samples.recovery Samples.linked_db) !! 0%nat)
      = Some 1000
   /\ i_resolvedAt <$> (incidents (Worker.handleStatusChange Samples.ticking_clock
                                     Samples.recovery Samples.linked_db) !! 0%nat)
      = Some (Some 61000)
   /\ i_duration <$> (incidents (Worker.handleStatusChange Samples.ticking_clock
                                   Samples.recovery Samples.linked_db) !! 0%nat)
      = Some (Some 60001))
  /\ incidents (BullWorker.handleStatusChange Samples.ticking_clock
                  Samples.recovery Samples.linked_db)
     = incidents (Worker.handleStatusChange Samples.ticking_clock
                    Samples.recovery Samples.linked_db)
  /\ 60001 <> 61000 - 1000.
Proof. vm_compute. repeat split; discriminate. Qed.

(** ** The alert dispatcher *)

(** Neither [lastAlertAt] nor [cooldownMinutes] is read by the
    dispatcher: the attempts of [sendToChannel] are the same whatever their
    values. *)
Lemma sendToChannel_ignores_cooldown tr now k (c : Alerts.Channel) cd last :
  snd (fst (Alerts.sendToChannel tr now k
         {| Alerts.ch_id := Alerts.ch_id c; Alerts.ch_teamId := Alerts.ch_teamId c;
            Alerts.ch_type := Alerts.ch_type c;
            Alerts.ch_enabled := Alerts.ch_enabled c;
            Alerts.ch_config := Alerts.ch_config c;
            Alerts.notify_down := Alerts.notify_down c;
            Alerts.notify_up := Alerts.notify_up c;
            Alerts.notify_degraded := Alerts.notify_degraded c;
            Alerts.notify_sslExpiry := Alerts.notify_sslExpiry c;
            Alerts.cooldownMinutes := cd; Alerts.lastAlertAt := last;
            Alerts.alertsSent := Alerts.alertsSent c;
            Alerts.lastError := Alerts.lastError c |}))
  = snd (fst (Alerts.sendToChannel tr now k c)).
Proof.
  unfold Alerts.sendToChannel. cbn [Alerts.ch_id].
  set (a := {| Alerts.att_channel := Alerts.ch_id c; Alerts.att_kind := k;
               Alerts.att_time := now |}).
  match goal with
  | |- context [Alerts.dispatch tr a ?c'] =>
      change (Alerts.dispatch tr a c') with (Alerts.dispatch tr a c)
  end.
  cbn [Alerts.ch_type].
  destruct (Alerts.in_schema (Alerts.ch_type c));
    destruct (Alerts.dispatch tr a c); reflexivity.
Qed.

(** C2, evaluated on two 'down' alerts for one e-mail channel with
    [cooldownMinutes = 5], the second one minute after the first.  The
    first send sets [lastAlertAt = 0]; at 60000 the cooldown has not
    elapsed, yet the second send calls the mailer again and moves
    [lastAlertAt] to 60000: two delivery attempts, where the claim allows
    one. *)
Theorem C2_second_alert_within_cooldown_is_delivered :
  let first := Alerts.sendToChannel Samples.reliable 0 Alerts.KDown
                 Samples.mail_channel in
  let second := Alerts.sendToChannel Samples.reliable 60000 Alerts.KDown
                  (fst (fst first)) in
  Alerts.lastAlertAt (fst (fst first)) = Some 0
  /\ Alerts.cooldown_elapsed 60000 (fst (fst first)) = false
  /\ length (snd (fst first) ++ snd (fst second)) = 2%nat
  /\ Alerts.lastAlertAt (fst (fst second)) = Some 60000
  /\ Alerts.alertsSent (fst (fst second)) = 2.
Proof. vm_compute. repeat split. Qed.

(** The same through [sendAlert] over the team's channels. *)
Example sendAlert_twice_within_cooldown :
  let '(channels1, log1, _) :=
    Alerts.sendAlert Samples.reliable (fun _ => 0) "t1" Alerts.KDown
      [Samples.mail_channel] in
  let '(_, log2, counts) :=
    Alerts.sendAlert Samples.reliable (fun _ => 60000) "t1" Alerts.KDown
      channels1 in
  length (log1 ++ log2) = 2%nat /\ counts = (1%nat, 0%nat).
Proof. vm_compute. split; reflexivity. Qed.

(** ** Certificate expiry alerts of the queue mode *)

Lemma bull_handleStatusChange_ssl_alerts clk p db :
  List.filter StateMachine.is_ssl_alert
    (outbox (BullWorker.handleStatusChange clk p db))
  = List.filter StateMachine.is_ssl_alert (outbox db).
Proof.
  unfold BullWorker.handleStatusChange.
  set (db1 := if BullWorker.down_trigger p then _ else db).
  assert (List.filter StateMachine.is_ssl_alert (outbox db1)
          = List.filter StateMachine.is_ssl_alert (outbox db)) as H1.
  { subst db1. destruct (BullWorker.down_trigger p); [|reflexivity].
    unfold StateMachine.open_incident. simpl.
    rewrite List.filter_app. simpl. apply app_nil_r. }
  destruct (StateMachine.recovered p); [|exact H1].
  destruct (m_currentIncidentId (p_monitor p)) as [iid|]; simpl;
    rewrite List.filter_app; simpl; rewrite app_nil_r;
    rewrite ?resolve_current_outbox; exact H1.
Qed.

Lemma worker_handleStatusChange_ssl_alerts clk p db :
  List.filter StateMachine.is_ssl_alert
    (outbox (Worker.handleStatusChange clk p db))
  = List.filter StateMachine.is_ssl_alert (outbox db).
Proof.
  unfold Worker.handleStatusChange.
  set (db1 := if Worker.down_trigger p then _ else db).
  assert (List.filter StateMachine.is_ssl_alert (outbox db1)
          = List.filter StateMachine.is_ssl_alert (outbox db)) as H1.
  { subst db1. destruct (Worker.down_trigger p); [|reflexivity].
    unfold StateMachine.open_incident. simpl.
    rewrite List.filter_app. simpl. apply app_nil_r. }
  destruct (StateMachine.recovered p); [|exact H1].
  destruct (m_currentIncidentId (p_monitor p)) as [iid|].
  - pose proof (resolve_current_outbox clk p iid db1) as O.
    destruct (StateMachine.resolve_current clk p iid db1) as [db2 dt].
    simpl in *. rewrite List.filter_app, O. simpl. rewrite app_nil_r. exact H1.
  - simpl. rewrite List.filter_app. simpl. rewrite app_nil_r. exact H1.
Qed.

(** The timer mode's check carries no certificate data and requests no
    'sslExpiry' alert. *)
Lemma checkMonitor_no_ssl_alert e o ms clk w :
  List.filter StateMachine.is_ssl_alert
    (outbox (Worker.db (Worker.checkMonitor e o ms clk w)))
  = List.filter StateMachine.is_ssl_alert (outbox (Worker.db w)).
Proof.
  unfold Worker.checkMonitor.
  destruct (WorkerCache.updateAfterCheck _ _ _ _ _) as [cache1 result].
  cbn [Worker.db].
  match goal with
  | |- context [monitors ?d !! ?i] => destruct (monitors d !! i) as [m|]
  end; [destruct result as [r|]|]; try reflexivity.
  rewrite worker_handleStatusChange_ssl_alerts. reflexivity.
Qed.

Lemma resolve_current_teams clk p iid db :
  teams (fst (StateMachine.resolve_current clk p iid db)) = teams db.
Proof.
  unfold StateMachine.resolve_current.
  destruct (incidents db !! iid) as [inc|]; simpl; [|reflexivity].
  destruct (negb (incident_status_eqb (i_status inc) Resolved)); reflexivity.
Qed.

Lemma bull_handleStatusChange_teams clk p db :
  teams (BullWorker.handleStatusChange clk p db) = teams db.
Proof.
  unfold BullWorker.handleStatusChange.
  set (db1 := if BullWorker.down_trigger p then _ else db).
  assert (teams db1 = teams db) as H1.
  { subst db1. destruct (BullWorker.down_trigger p); reflexivity. }
  destruct (StateMachine.recovered p); [|exact H1].
  destruct (m_currentIncidentId (p_monitor p)) as [iid|]; simpl;
    rewrite ?resolve_current_teams; exact H1.
Qed.

Lemma alertDays_includes (x : option Z) :
  BullWorker.includes BullWorker.alertDays x = true
  <-> x = Some 30 \/ x = Some 14 \/ x = Some 7 \/ x = Some 3 \/ x = Some 1.
Proof.
  destruct x as [d|]; simpl.
  - rewrite !orb_true_iff, !Z.eqb_eq. split.
    + intros [H|[H|[H|[H|[H|H]]]]]; subst; auto 6; discriminate.
    + intros [H|[H|[H|[H|H]]]]; injection H as ->; auto 6.
  - split; [discriminate|].
    intros [H|[H|[H|[H|H]]]]; discriminate.
Qed.

(** The 30-day test of [processMonitorCheck] lets every alert day
    through. *)
Lemma within_30_days_of_alert_day (info : BullWorker.SslInfo) :
  BullWorker.includes BullWorker.alertDays (BullWorker.daysRemaining info) = true ->
  BullWorker.within_30_days (Some info) = true.
Proof.
  intros H. apply alertDays_includes in H. unfold BullWorker.within_30_days.
  destruct H as [H|[H|[H|[H|H]]]]; rewrite H; reflexivity.
Qed.

Lemma processMonitorCheck_ssl_alerts id tid r clk db m :
  monitors db !! id = Some m ->
  List.filter StateMachine.is_ssl_alert
    (outbox (BullWorker.processMonitorCheck id tid r clk db))
  = List.filter StateMachine.is_ssl_alert (outbox db)
    ++ match BullWorker.sslInfo r with
       | Some info =>
           if BullWorker.on_alert_day r
           then [ {| al_type := AlertSslExpiry;
                     al_teamId := tid;
                     al_monitorId := Some (m_id m);
                     al_monitorName := m_name m;
                     al_url := m_url m;
                     al_error := None;
                     al_teamName := Store.team_name tid db;
                     al_responseMs := None;
                     al_downtimeDuration := None;
                     al_daysRemaining := BullWorker.daysRemaining info;
                     al_expiryDate := Some (BullWorker.expiresAt info) |} ]
           else []
       | None => []
       end.
Proof.
  intros H. unfold BullWorker.processMonitorCheck, BullWorker.on_alert_day.
  rewrite H.
  set (p := {| p_monitor := m |}).
  set (db2 := Store.add_history _ _).
  assert (List.filter StateMachine.is_ssl_alert
            (outbox (BullWorker.handleStatusChange clk p db2))
          = List.filter StateMachine.is_ssl_alert (outbox db)) as E.
  { rewrite bull_handleStatusChange_ssl_alerts. reflexivity. }
  assert (Store.team_name tid (BullWorker.handleStatusChange clk p db2)
          = Store.team_name tid db) as T.
  { unfold Store.team_name. rewrite bull_handleStatusChange_teams.
    reflexivity. }
  destruct (BullWorker.sslInfo r) as [info|] eqn:Hs.
  - destruct (BullWorker.includes BullWorker.alertDays
                (BullWorker.daysRemaining info)) eqn:Hi.
    + rewrite (within_30_days_of_alert_day info Hi).
      unfold BullWorker.handleSslExpiryAlert. rewrite Hi. simpl.
      rewrite List.filter_app, E, T. reflexivity.
    + destruct (BullWorker.within_30_days (Some info)).
      * unfold BullWorker.handleSslExpiryAlert. rewrite Hi, E.
        symmetry. apply app_nil_r.
      * rewrite E. symmetry. apply app_nil_r.
  - rewrite E. symmetry. apply app_nil_r.
Qed.

Lemma process_all_ssl_alert_count id tid checks :
  forall db m,
    monitors db !! id = Some m ->
    length (List.filter StateMachine.is_ssl_alert
              (outbox (BullWorker.process_all id tid checks db)))
    = (length (List.filter StateMachine.is_ssl_alert (outbox db))
       + length (List.filter (fun c => BullWorker.on_alert_day (fst c)) checks))%nat.
Proof.
  induction checks as [|[r clk] rest IH]; intros db m H.
  - simpl. lia.
  - cbn [BullWorker.process_all].
    destruct (process_all_found id tid [(r, clk)] db m H) as [m' Hm'].
    simpl in Hm'. rewrite (IH _ m' Hm').
    rewrite (processMonitorCheck_ssl_alerts id tid r clk db m H).
    rewrite length_app. cbn [List.filter fst].
    unfold BullWorker.on_alert_day at 2.
    destruct (BullWorker.sslInfo r) as [info|] eqn:Hs.
    + unfold BullWorker.on_alert_day. rewrite Hs.
      destruct (BullWorker.includes _ _); simpl; lia.
    + unfold BullWorker.on_alert_day. rewrite Hs. simpl. lia.
Qed.

(** C6 as the code has it.  Queue mode, monitor found: a check requests
    an 'sslExpiry' alert exactly when its result carries certificate data
    whose [daysRemaining] is one of 30, 14, 7, 3, 1, and then requests one;
    over a sequence of checks the number of alerts requested is the number
    of such checks, one per check and not one per threshold value.  The
    timer mode, whose checks carry no certificate data, requests none. *)
Theorem C6_ssl_alert_per_check_on_alert_day :
  forall (id tid : string) (r : BullWorker.CheckResult) (clk : Clock)
         (db : Db) (m : MonitorDoc),
    monitors db !! id = Some m ->
    let before := List.filter StateMachine.is_ssl_alert (outbox db) in
    let after := List.filter StateMachine.is_ssl_alert
                   (outbox (BullWorker.processMonitorCheck id tid r clk db)) in
    let on_day :=
      exists info d,
        BullWorker.sslInfo r = Some info
        /\ BullWorker.daysRemaining info = Some d
        /\ (d = 30 \/ d = 14 \/ d = 7 \/ d = 3 \/ d = 1) in
    (on_day ->
       exists a, after = before ++ [a]
                 /\ al_monitorId a = Some (m_id m)
                 /\ (exists info, BullWorker.sslInfo r = Some info
                       /\ al_daysRemaining a = BullWorker.daysRemaining info))
    /\ (~ on_day -> after = before)
    /\ (forall checks,
          length (List.filter StateMachine.is_ssl_alert
                    (outbox (BullWorker.process_all id tid checks db)))
          = (length before
             + length (List.filter
                         (fun c => BullWorker.on_alert_day (fst c)) checks))%nat)
    /\ (forall e o ms w,
          List.filter StateMachine.is_ssl_alert
            (outbox (Worker.db (Worker.checkMonitor e o ms clk w)))
          = List.filter StateMachine.is_ssl_alert (outbox (Worker.db w))).
Proof.
  intros id tid r clk db m H before after on_day.
  subst before after.
  rewrite (processMonitorCheck_ssl_alerts id tid r clk db m H).
  split; [|split; [|split]].
  - intros (info & d & Hs & Hd & Hin).
    unfold BullWorker.on_alert_day. rewrite Hs.
    assert (BullWorker.includes BullWorker.alertDays
              (BullWorker.daysRemaining info) = true) as ->.
    { apply alertDays_includes. rewrite Hd.
      destruct Hin as [->|[->|[->|[->| ->]]]]; auto 6. }
    eexists. split; [reflexivity|]. split; [reflexivity|].
    exists info. split; reflexivity.
  - intros Hno. unfold BullWorker.on_alert_day.
    destruct (BullWorker.sslInfo r) as [info|] eqn:Hs; [|apply app_nil_r].
    destruct (BullWorker.includes BullWorker.alertDays
                (BullWorker.daysRemaining info)) eqn:Hi; [|apply app_nil_r].
    exfalso. apply Hno. apply alertDays_includes in Hi.
    destruct (BullWorker.daysRemaining info) as [d|] eqn:Hd.
    + exists info, d. split; [reflexivity|]. split; [exact Hd|].
      destruct Hi as [Hi|[Hi|[Hi|[Hi|Hi]]]]; injection Hi as ->; auto 6.
    + destruct Hi as [Hi|[Hi|[Hi|[Hi|Hi]]]]; discriminate.
  - intros checks. apply (process_all_ssl_alert_count id tid checks db m H).
  - intros e o ms w. apply checkMonitor_no_ssl_alert.
Qed.

(** A check with 7 days left requests one alert. *)
Lemma C6_ssl_alert_per_check_on_alert_day_witness :
  exists a,
    List.filter StateMachine.is_ssl_alert
      (outbox (BullWorker.processMonitorCheck "m1" "t1" (Samples.ssl_result 7)
                 (Samples.clock_at 60000) Samples.empty_db))
    = List.filter StateMachine.is_ssl_alert (outbox Samples.empty_db) ++ [a]
    /\ al_monitorId a = Some "m1".
Proof.
  destruct (proj1 (C6_ssl_alert_per_check_on_alert_day "m1" "t1"
                     (Samples.ssl_result 7) (Samples.clock_at 60000)
                     Samples.empty_db Samples.api_monitor eq_refl))
    as (a & Ha & Hid & _).
  - eexists _, 7. repeat split. auto 6.
  - exists a. split; assumption.
Defined.

(** C6 fails as stated: two checks of one monitor an hour apart, both
    with 30 days left, request two 'sslExpiry' alerts for the threshold
    30, not at most one. *)
Lemma C6_counterexample_two_alerts_for_one_threshold :
  length (BullWorker.ssl_alerts_for "m1" 30
            (BullWorker.process_all "m1" "t1"
               [(Samples.ssl_result 30, Samples.clock_at 0);
                (Samples.ssl_result 30, Samples.clock_at 3600000)]
               Samples.empty_db)) = 2%nat
  /\ ~ (length (BullWorker.ssl_alerts_for "m1" 30
                  (BullWorker.process_all "m1" "t1"
                     [(Samples.ssl_result 30, Samples.clock_at 0);
                      (Samples.ssl_result 30, Samples.clock_at 3600000)]
                     Samples.empty_db)) <= 1)%nat.
Proof. vm_compute. split; [reflexivity | lia]. Qed.

(** ** The keyword check *)

Lemma append_nil_l (s : string) : EmptyString +:+ s = s.
Proof. reflexivity. Qed.

Lemma append_cons (a : ascii) (s t : string) :
  String a s +:+ t = String a (s +:+ t).
Proof. reflexivity. Qed.

Lemma prefix_iff (needle : string) :
  forall hay,
    String.prefix needle hay = true <-> exists post, hay = needle +:+ post.
Proof.
  induction needle as [|a n IH]; intros hay.
  - destruct hay; simpl;
      (split; [intros _; eexists; reflexivity | reflexivity]).
  - destruct hay as [|b h]; simpl.
    + split; [discriminate | intros [post H]; discriminate].
    + destruct (ascii_dec a b) as [->|Hne].
      * rewrite IH. split; intros [post H]; exists post.
        -- rewrite append_cons, H. reflexivity.
        -- rewrite append_cons in H. congruence.
      * split; [discriminate|].
        intros [post H]. rewrite append_cons in H. congruence.
Qed.

(** [includes] is containment as a substring. *)
Lemma includes_iff (needle : string) :
  forall hay,
    Text.includes hay needle = true
    <-> exists pre post, hay = pre +:+ needle +:+ post.
Proof.
  induction hay as [|c rest IH].
  - cbn [Text.includes]. rewrite orb_false_r, prefix_iff. split.
    + intros [post H]. exists EmptyString, post. exact H.
    + intros (pre & post & H). destruct pre as [|a pre].
      * exists post. exact H.
      * rewrite append_cons in H. discriminate.
  - cbn [Text.includes]. rewrite orb_true_iff, prefix_iff, IH. split.
    + intros [[post H]|(pre & post & H)].
      * exists EmptyString, post. exact H.
      * exists (String c pre), post. rewrite append_cons, H. reflexivity.
    + intros (pre & post & H). destruct pre as [|a pre].
      * left. exists post. exact H.
      * right. exists pre, post. rewrite append_cons in H. congruence.
Qed.

(** C5 as the code has it.  [toLowerCase] is the language's function.
    For a keyword monitor with a non-empty keyword and a completed
    request: with a status code from 200 to 399 the check reports the
    keyword found exactly when the lower-cased body contains the
    lower-cased keyword, so that two bodies, or two keywords, with the
    same lower-cased form are never told apart; on texts of ASCII
    characters that is containment after folding the letters A to Z; the
    check succeeds when the keyword is found (type 'contains', also when
    the type is unset) or when it is absent (type 'not_contains'); with
    any other status code the check fails with the error "HTTP <code>",
    whatever the body. *)
Theorem C5_keyword_success_within_2xx_3xx :
  forall (toLowerCase : string -> string) (monitor : Keyword.Monitor)
         (kw : string) (sc : Z) (body : string) (elapsed : Z),
    Keyword.keyword monitor = Some kw ->
    kw <> EmptyString ->
    let r := Keyword.checkKeyword toLowerCase monitor
               (Keyword.Responded sc body) elapsed in
    let mode := JS.str_or (Keyword.keywordType monitor) "contains" in
    (200 <= sc < 400 ->
       (Keyword.keywordFound r = true
        <-> exists pre post,
              toLowerCase body = pre +:+ toLowerCase kw +:+ post)
       /\ (forall body',
             toLowerCase body' = toLowerCase body ->
             Keyword.keywordFound
               (Keyword.checkKeyword toLowerCase monitor
                  (Keyword.Responded sc body') elapsed)
             = Keyword.keywordFound r)
       /\ (Keyword.ascii_faithful toLowerCase ->
           Text.is_ascii body = true ->
           Text.is_ascii kw = true ->
           (Keyword.keywordFound r = true
            <-> exists pre post,
                  Text.fold_ascii body
                  = pre +:+ Text.fold_ascii kw +:+ post))
       /\ (mode = "contains" -> Keyword.success r = Keyword.keywordFound r)
       /\ (mode = "not_contains" ->
           Keyword.success r = negb (Keyword.keywordFound r)))
    /\ (~ (200 <= sc < 400) ->
        Keyword.success r = false
        /\ Keyword.error r = Some ("HTTP " +:+ show_Z sc)).
Proof.
  intros toLowerCase monitor kw sc body elapsed Hkw Hne r mode. subst r.
  unfold Keyword.checkKeyword. rewrite Hkw.
  destruct kw as [|c k]; [contradiction|].
  fold mode.
  split.
  - intros Hsc.
    assert ((sc <? 200) || (sc >=? 400) = false) as ->.
    { apply orb_false_iff. split; [apply Z.ltb_ge; lia|].
      rewrite Z.geb_leb. apply Z.leb_gt. lia. }
    assert (forall b,
              Keyword.keywordFound
                (if String.eqb mode "contains"
                 then {| Keyword.success := Keyword.found toLowerCase b (String c k);
                         Keyword.statusCode := Some sc;
                         Keyword.responseMs := elapsed;
                         Keyword.error :=
                           if Keyword.found toLowerCase b (String c k) then None
                           else Some ("Keyword " +:+ String Keyword.dquote (String c k)
                                      +:+ String Keyword.dquote " not found");
                         Keyword.keywordFound :=
                           Keyword.found toLowerCase b (String c k) |}
                 else if String.eqb mode "not_contains"
                 then {| Keyword.success :=
                           negb (Keyword.found toLowerCase b (String c k));
                         Keyword.statusCode := Some sc;
                         Keyword.responseMs := elapsed;
                         Keyword.error :=
                           if negb (Keyword.found toLowerCase b (String c k))
                           then None
                           else Some ("Keyword " +:+ String Keyword.dquote (String c k)
                                      +:+ String Keyword.dquote
                                            " found (should not be present)");
                         Keyword.keywordFound :=
                           Keyword.found toLowerCase b (String c k) |}
                 else {| Keyword.success := false;
                         Keyword.statusCode := Some sc;
                         Keyword.responseMs := elapsed;
                         Keyword.error := None;
                         Keyword.keywordFound :=
                           Keyword.found toLowerCase b (String c k) |})
              = Keyword.found toLowerCase b (String c k)) as Hfound.
    { intros b. destruct (String.eqb mode "contains");
        [|destruct (String.eqb mode "not_contains")]; reflexivity. }
    cbv zeta. rewrite Hfound.
    split; [|split; [|split; [|split]]].
    + unfold Keyword.found. apply includes_iff.
    + intros body' Hb. rewrite Hfound. unfold Keyword.found.
      rewrite Hb. reflexivity.
    + intros Hlow Hab Hak. unfold Keyword.found.
      rewrite (Hlow body Hab), (Hlow (String c k) Hak). apply includes_iff.
    + intros ->. reflexivity.
    + intros ->. reflexivity.
  - intros Hsc.
    assert ((sc <? 200) || (sc >=? 400) = true) as ->.
    { apply orb_true_iff.
      destruct (Z.ltb_spec sc 200); [left; reflexivity|right].
      rewrite Z.geb_leb. apply Z.leb_le. lia. }
    split; reflexivity.
Qed.

(** A 200 response whose body holds "ok": found, so 'contains' succeeds
    and 'not_contains' fails. *)
Lemma C5_keyword_success_within_2xx_3xx_witness :
  Keyword.success
    (Keyword.checkKeyword Text.fold_ascii (Samples.keyword_monitor "not_contains")
       (Keyword.Responded 200 "status: ok") 15)
  = negb (Keyword.keywordFound
            (Keyword.checkKeyword Text.fold_ascii
               (Samples.keyword_monitor "not_contains")
               (Keyword.Responded 200 "status: ok") 15)).
Proof.
  refine (proj2 (proj2 (proj2 (proj2 (proj1
    (C5_keyword_success_within_2xx_3xx Text.fold_ascii
       (Samples.keyword_monitor "not_contains")
       "OK" 200 "status: ok" 15 eq_refl _) _)))) eq_refl).
  - discriminate.
  - lia.
Defined.

(** C5 fails as stated: a 404 response whose body contains the keyword
    makes a 'contains' check fail, by its status code alone, whatever the
    lower-casing. *)
Lemma C5_counterexample_status_code_fails_check :
  (forall toLowerCase,
      Keyword.ascii_faithful toLowerCase ->
      Keyword.found toLowerCase "all ok here" "OK" = true)
  /\ (forall toLowerCase,
        Keyword.success
          (Keyword.checkKeyword toLowerCase (Samples.keyword_monitor "contains")
             (Keyword.Responded 404 "all ok here") 15) = false
        /\ Keyword.error
             (Keyword.checkKeyword toLowerCase
                (Samples.keyword_monitor "contains")
                (Keyword.Responded 404 "all ok here") 15) = Some "HTTP 404").
Proof.
  split.
  - intros toLowerCase H. unfold Keyword.found.
    rewrite (H "all ok here" eq_refl), (H "OK" eq_refl). reflexivity.
  - intros toLowerCase. split; reflexivity.
Qed.

(** ** Dates *)

Section DateFacts.

Import JSDate.

(** A time value is the date made of its day and its time fields. *)
Lemma time_fields (t : Z) :
  MakeDate (Day t)
    (MakeTime (HourFromTime t) (MinFromTime t) (SecFromTime t) (msFromTime t))
  = t.
Proof.
  unfold MakeDate, MakeTime, Day, HourFromTime, MinFromTime, SecFromTime,
    msFromTime, msPerDay, msPerHour, msPerMinute, msPerSecond.
  Z.div_mod_to_equations. lia.
Qed.

Lemma day_and_time (t : Z) : MakeDate (Day t) (TimeWithinDay t) = t.
Proof.
  unfold MakeDate, Day, TimeWithinDay, msPerDay.
  Z.div_mod_to_equations. lia.
Qed.

Lemma TimeClip_small (t : Z) :
  Z.abs t <= 8640000000000000 -> TimeClip t = Some t.
Proof.
  intros H. unfold TimeClip.
  destruct (Z.leb_spec (Z.abs t) 8640000000000000); [reflexivity | lia].
Qed.

Lemma minutes_replaced (t m : Z) :
  MakeDate (Day t) (MakeTime (HourFromTime t) m (SecFromTime t) (msFromTime t))
  = t + (m - MinFromTime t) * msPerMinute.
Proof.
  pose proof (time_fields t) as E. unfold MakeDate, MakeTime in *. lia.
Qed.

Lemma hours_replaced (t h : Z) :
  MakeDate (Day t) (MakeTime h (MinFromTime t) (SecFromTime t) (msFromTime t))
  = t + (h - HourFromTime t) * msPerHour.
Proof.
  pose proof (time_fields t) as E. unfold MakeDate, MakeTime in *. lia.
Qed.

Lemma seconds_replaced (t s : Z) :
  MakeDate (Day t) (MakeTime (HourFromTime t) (MinFromTime t) s (msFromTime t))
  = t + (s - SecFromTime t) * msPerSecond.
Proof.
  pose proof (time_fields t) as E. unfold MakeDate, MakeTime in *. lia.
Qed.

Lemma millis_replaced (t ms : Z) :
  MakeDate (Day t) (MakeTime (HourFromTime t) (MinFromTime t) (SecFromTime t) ms)
  = t + (ms - msFromTime t).
Proof.
  pose proof (time_fields t) as E. unfold MakeDate, MakeTime in *. lia.
Qed.

Lemma next_day (t : Z) :
  MakeDate (Day t + 1) (TimeWithinDay t) = t + msPerDay.
Proof.
  pose proof (day_and_time t) as E. unfold MakeDate in *. lia.
Qed.

Lemma field_ranges (t : Z) :
  0 <= HourFromTime t <= 23 /\ 0 <= MinFromTime t <= 59
  /\ 0 <= SecFromTime t <= 59 /\ 0 <= msFromTime t <= 999.
Proof.
  unfold HourFromTime, MinFromTime, SecFromTime, msFromTime,
    msPerHour, msPerMinute, msPerSecond.
  Z.div_mod_to_equations. lia.
Qed.

(** Zeroing seconds and milliseconds goes back by less than a minute. *)
Lemma whole_minute (t : Z) :
  let t1 := t + (0 - SecFromTime t) * msPerSecond in
  let t2 := t1 + (0 - msFromTime t1) in
  t - msPerMinute < t2 <= t.
Proof.
  unfold SecFromTime, msFromTime, msPerSecond, msPerMinute. cbv zeta.
  Z.div_mod_to_equations. lia.
Qed.

End DateFacts.

(** ** The cronjob check before the first run *)

Section CronFacts.

Import JSDate.

Variable tz : Z.

Lemma setMinutes_valid u m :
  Z.abs (u + (m - MinFromTime (u + tz)) * msPerMinute) <= 8640000000000000 ->
  setMinutes tz (Some m) (Some u)
  = Some (u + (m - MinFromTime (u + tz)) * msPerMinute).
Proof.
  intros H. unfold setMinutes, LocalTime, UTC. rewrite minutes_replaced.
  rewrite <- (TimeClip_small _ H). f_equal. lia.
Qed.

Lemma setHours_valid u h :
  Z.abs (u + (h - HourFromTime (u + tz)) * msPerHour) <= 8640000000000000 ->
  setHours tz (Some h) (Some u)
  = Some (u + (h - HourFromTime (u + tz)) * msPerHour).
Proof.
  intros H. unfold setHours, LocalTime, UTC. rewrite hours_replaced.
  rewrite <- (TimeClip_small _ H). f_equal. lia.
Qed.

Lemma addHour_valid u :
  Z.abs (u + msPerHour) <= 8640000000000000 ->
  addHour tz (Some u) = Some (u + msPerHour).
Proof.
  intros H. unfold addHour, getHours, LocalTime.
  rewrite setHours_valid;
    replace (u + (HourFromTime (u + tz) + 1 - HourFromTime (u + tz)) * msPerHour)
      with (u + msPerHour) by lia; [reflexivity | exact H].
Qed.

Lemma addDay_valid u :
  Z.abs (u + msPerDay) <= 8640000000000000 ->
  addDay tz (Some u) = Some (u + msPerDay).
Proof.
  intros H. unfold addDay, LocalTime, UTC. rewrite next_day.
  rewrite <- (TimeClip_small _ H). f_equal. lia.
Qed.

Lemma whole_minute_valid u :
  -8000000000000000 <= u <= 8600000000000000 ->
  exists u', setMilliseconds tz 0 (setSeconds tz 0 (Some u)) = Some u'
             /\ u - msPerMinute < u' <= u.
Proof.
  intros H.
  pose proof (whole_minute (u + tz)) as W. cbv zeta in W.
  pose proof (field_ranges (u + tz)) as (_ & _ & Hsec & _).
  unfold msPerMinute, msPerSecond in *.
  unfold setSeconds, LocalTime, UTC. rewrite seconds_replaced.
  unfold msPerSecond.
  set (t1 := u + tz + (0 - SecFromTime (u + tz)) * 1000) in *.
  pose proof (field_ranges t1) as (_ & _ & _ & Hms).
  rewrite TimeClip_small by lia.
  unfold setMilliseconds, LocalTime, UTC.
  replace (t1 - tz + tz) with t1 by lia.
  rewrite millis_replaced.
  rewrite TimeClip_small by lia.
  eexists. split; [reflexivity|]. lia.
Qed.

Lemma plain_field_not_star field v :
  Text.parseInt field = Some v -> String.eqb field "*" = false.
Proof.
  intros H. destruct (String.eqb_spec field "*") as [->|]; [|reflexivity].
  discriminate H.
Qed.

(** After the minute block the date is [now] itself (field ["*"]) or at
    least a whole minute later. *)
Lemma set_minute_field_plain now minute :
  Cronjob.roomy now ->
  Cronjob.plain_field 59 minute ->
  exists j, Cronjob.set_minute_field tz now minute (Some now)
            = Some (now + msPerMinute * j)
            /\ 0 <= j <= 119
            /\ (j = 0 <-> minute = "*").
Proof.
  intros Hn [-> | (m & Hp & Hm)]; unfold Cronjob.set_minute_field.
  - exists 0. simpl. split; [f_equal; lia|]. split; [lia|tauto].
  - rewrite (plain_field_not_star _ _ Hp), Hp. cbn [negb].
    pose proof (field_ranges (now + tz)) as (_ & Hmin & _).
    unfold Cronjob.roomy, msPerMinute, msPerHour in *.
    rewrite setMinutes_valid by (unfold msPerMinute; lia).
    unfold msPerMinute. cbn [le].
    assert (minute <> "*") as Hns.
    { intros ->. discriminate Hp. }
    destruct (Z.leb_spec (now + (m - MinFromTime (now + tz)) * 60000) now).
    + rewrite addHour_valid by (unfold msPerHour; lia).
      exists (m - MinFromTime (now + tz) + 60).
      unfold msPerHour. split; [f_equal; lia|]. split; [lia|].
      split; [lia | contradiction].
    + exists (m - MinFromTime (now + tz)).
      split; [f_equal; lia|]. split; [lia|].
      split; [lia | contradiction].
Qed.

(** After the hour block the date is still [now] (both fields ["*"])
    or at least a whole minute later. *)
Lemma set_hour_field_plain now hour j :
  Cronjob.roomy now ->
  0 <= j <= 119 ->
  Cronjob.plain_field 23 hour ->
  exists u, Cronjob.set_hour_field tz now hour (Some (now + msPerMinute * j))
            = Some u
            /\ (u = now \/ now + msPerMinute <= u)
            /\ u <= now + 3 * msPerDay.
Proof.
  intros Hn Hj [-> | (h & Hp & Hh)]; unfold Cronjob.set_hour_field.
  - exists (now + msPerMinute * j). simpl. unfold msPerMinute, msPerDay.
    split; [reflexivity|]. lia.
  - rewrite (plain_field_not_star _ _ Hp), Hp. cbn [negb].
    pose proof (field_ranges (now + msPerMinute * j + tz)) as (Hhr & _).
    unfold Cronjob.roomy, msPerMinute, msPerHour, msPerDay in *.
    rewrite setHours_valid by (unfold msPerHour; lia).
    unfold msPerHour. cbn [le].
    set (k := h - HourFromTime (now + 60000 * j + tz)) in *.
    destruct (Z.leb_spec (now + 60000 * j + k * 3600000) now).
    + rewrite addDay_valid by (unfold msPerDay; lia).
      eexists. split; [reflexivity|]. unfold msPerDay. lia.
    + eexists. split; [reflexivity|]. lia.
Qed.

(** With plain minute and hour fields the computed next run is less
    than a minute before [now], or later. *)
Lemma getNextCronRun_plain now expr minute hour dom month dow :
  Cronjob.roomy now ->
  Text.split_ws (Text.trim expr) = [minute; hour; dom; month; dow] ->
  Cronjob.plain_field 59 minute ->
  Cronjob.plain_field 23 hour ->
  exists next, Cronjob.getNextCronRun tz now expr = Some (Some next)
               /\ now - msPerMinute < next.
Proof.
  intros Hn Hs Hmi Hh. unfold Cronjob.getNextCronRun. rewrite Hs.
  destruct (set_minute_field_plain now minute Hn Hmi) as (j & -> & Hj & _).
  destruct (set_hour_field_plain now hour j Hn Hj Hh) as (u & -> & Hu & Hub).
  cbv zeta.
  destruct (whole_minute_valid u) as (u' & -> & Hu').
  { unfold Cronjob.roomy, msPerMinute, msPerDay in *. lia. }
  exists u'. split; [reflexivity|].
  unfold msPerMinute in *. lia.
Qed.

End CronFacts.

Lemma checkCronjob_first_run tz now inner monitor expr :
  Cronjob.lastCronRun monitor = None ->
  Cronjob.cronExpression monitor = Some expr ->
  expr <> EmptyString ->
  Cronjob.checkCronjob tz now inner monitor
  = match Cronjob.first_run_deadline tz inner monitor with
    | Some d =>
        if now >? d
        then {| Cronjob.success := false;
                Cronjob.error := Some "Cron job never reported";
                Cronjob.responseMs := 0; Cronjob.r_lastCronRun := None |}
        else {| Cronjob.success := true; Cronjob.error := None;
                Cronjob.responseMs := 0; Cronjob.r_lastCronRun := None |}
    | None => {| Cronjob.success := true; Cronjob.error := None;
                 Cronjob.responseMs := 0; Cronjob.r_lastCronRun := None |}
    end.
Proof.
  intros Hl He Hne.
  unfold Cronjob.checkCronjob, Cronjob.first_run_deadline.
  rewrite He, Hl. destruct expr as [|c s]; [contradiction|].
  destruct (Cronjob.getNextCronRun tz inner (String c s)) as [[next|]|];
    try reflexivity.
  unfold Cronjob.plus_ms.
  destruct (JSDate.TimeClip _); reflexivity.
Qed.




(** An every-minute job with a grace period of 30 seconds is reported
    down 45 seconds into any minute: the next run is computed from the
    clock, and for ["* * * * *"] it is the start of the current minute. *)
Example every_minute_short_grace :
  Cronjob.checkCronjob 0 1793534445000 1793534445000
    {| Cronjob.lastCronRun := None; Cronjob.cronGracePeriod := Some 30;
       Cronjob.cronExpression := Some "* * * * *";
       Cronjob.expectedCronRun := None |}
  = {| Cronjob.success := false;
       Cronjob.error := Some "Cron job never reported";
       Cronjob.responseMs := 0; Cronjob.r_lastCronRun := None |}.
Proof. vm_compute. reflexivity. Qed.

(** The same job with a no-break space between its first two fields: the
    expression still has five fields, white space being the language's,
    and the job is reported down all the same. *)
Example every_minute_no_break_space :
  Text.split_ws (Text.trim ("*" +:+ Fixtures.nbsp +:+ "* * * *"))
  = ["*"; "*"; "*"; "*"; "*"]
  /\ Cronjob.checkCronjob 0 1793534445000 1793534445000
       {| Cronjob.lastCronRun := None; Cronjob.cronGracePeriod := Some 30;
          Cronjob.cronExpression := Some ("*" +:+ Fixtures.nbsp +:+ "* * * *");
          Cronjob.expectedCronRun := None |}
     = {| Cronjob.success := false;
          Cronjob.error := Some "Cron job never reported";
          Cronjob.responseMs := 0; Cronjob.r_lastCronRun := None |}.
Proof. split; vm_compute; reflexivity. Qed.

(** * Further properties *)

(** ** The scheduling cache *)

Lemma in_cache_values (cache : gmap string WorkerCache.Entry) e :
  In e (snd <$> map_to_list cache) <-> exists k, cache !! k = Some e.
Proof.
  rewrite <- list_elem_of_In, list_elem_of_fmap. split.
  - intros ([k x] & -> & H). exists k. apply elem_of_map_to_list in H. exact H.
  - intros (k & H). exists (k, e). split; [reflexivity|].
    apply elem_of_map_to_list. exact H.
Qed.

Lemma getMonitorsToRun_iff (now : Z) (cache : gmap string WorkerCache.Entry) e :
  In e (WorkerCache.getMonitorsToRun now cache)
  <-> (exists k, cache !! k = Some e)
      /\ WorkerCache.active e = true
      /\ WorkerCache.nextRunAt e <= now.
Proof.
  unfold WorkerCache.getMonitorsToRun.
  rewrite List.filter_In, in_cache_values, andb_true_iff, Z.leb_le.
  tauto.
Qed.

(** X1.  An active monitor added at time [now] is handed out by
    [getMonitorsToRun] at [now] and at every later time, with
    [nextRunAt = now] and the status and failure count of the document
    (['pending'] and 0 when the document has none); adding an inactive
    monitor changes nothing. *)
Theorem addMonitor_due_at_once :
  forall (now t : Z) (m : MonitorDoc) (cache : gmap string WorkerCache.Entry),
    (m_active m = true ->
     now <= t ->
     exists e,
       In e (WorkerCache.getMonitorsToRun t (WorkerCache.addMonitor now m cache))
       /\ WorkerCache.addMonitor now m cache !! m_id m = Some e
       /\ WorkerCache.nextRunAt e = now
       /\ WorkerCache.lastStatus e
          = match m_lastStatus m with Some s => s | None => Pending end
       /\ WorkerCache.consecutiveFailures e
          = JS.num_or (m_consecutiveFailures m) 0)
    /\ (m_active m = false -> WorkerCache.addMonitor now m cache = cache).
Proof.
  intros now t m cache. split.
  - intros Ha Hle. unfold WorkerCache.addMonitor. rewrite Ha. cbn [negb].
    eexists. split; [|split; [apply lookup_insert_eq | repeat split]].
    apply getMonitorsToRun_iff. split; [|split].
    + eexists. apply lookup_insert_eq.
    + reflexivity.
    + exact Hle.
  - intros Hi. unfold WorkerCache.addMonitor. rewrite Hi. reflexivity.
Qed.

(** The monitor of the examples is due at once after [addMonitor]. *)
Lemma addMonitor_due_at_once_witness :
  exists e,
    In e (WorkerCache.getMonitorsToRun 1500
            (WorkerCache.addMonitor 1000 Samples.api_monitor ∅))
    /\ WorkerCache.nextRunAt e = 1000
    /\ WorkerCache.lastStatus e = Pending.
Proof.
  destruct (proj1 (addMonitor_due_at_once 1000 1500 Samples.api_monitor ∅)
              eq_refl ltac:(lia))
    as (e & H1 & _ & H3 & H4 & _).
  exists e. repeat split; assumption.
Defined.

(** X2.  [pauseMonitor] keeps the entry, with its schedule, status and
    failure count, and marks it inactive.  From then on [getMonitorsToRun]
    hands out, at any time, exactly the active entries of the other ids
    whose [nextRunAt] has come: never the paused entry.  Every other entry
    is as before.  Pausing an id that is not in the cache changes
    nothing. *)
Theorem pauseMonitor_excludes_from_sweep :
  forall (id : string) (cache : gmap string WorkerCache.Entry),
    (forall e,
        cache !! id = Some e ->
        WorkerCache.pauseMonitor id cache !! id
        = Some (WorkerCache.set_active false e)
        /\ WorkerCache.active (WorkerCache.set_active false e) = false
        /\ WorkerCache.nextRunAt (WorkerCache.set_active false e)
           = WorkerCache.nextRunAt e
        /\ WorkerCache.lastStatus (WorkerCache.set_active false e)
           = WorkerCache.lastStatus e
        /\ WorkerCache.consecutiveFailures (WorkerCache.set_active false e)
           = WorkerCache.consecutiveFailures e
        /\ (forall t,
              ~ In (WorkerCache.set_active false e)
                  (WorkerCache.getMonitorsToRun t
                     (WorkerCache.pauseMonitor id cache))))
    /\ (forall t y,
          In y (WorkerCache.getMonitorsToRun t
                  (WorkerCache.pauseMonitor id cache))
          <-> (exists k, k <> id /\ cache !! k = Some y)
              /\ WorkerCache.active y = true
              /\ WorkerCache.nextRunAt y <= t)
    /\ (forall k, k <> id ->
          WorkerCache.pauseMonitor id cache !! k = cache !! k)
    /\ (cache !! id = None -> WorkerCache.pauseMonitor id cache = cache).
Proof.
  intros id cache.
  assert (forall k, k <> id ->
            WorkerCache.pauseMonitor id cache !! k = cache !! k) as Hframe.
  { intros k Hk. unfold WorkerCache.pauseMonitor.
    destruct (cache !! id); [|reflexivity].
    apply lookup_insert_ne. congruence. }
  split; [|split; [|split; [exact Hframe|]]].
  - intros e He. unfold WorkerCache.pauseMonitor at 1. rewrite He.
    rewrite lookup_insert_eq. repeat split.
    intros t Hin. apply getMonitorsToRun_iff in Hin as (_ & Ha & _).
    discriminate Ha.
  - intros t y. rewrite getMonitorsToRun_iff. split.
    + intros ((k & Hk) & Ha & Hn). split; [|split; assumption].
      destruct (decide (k = id)) as [-> | Hne].
      * exfalso. unfold WorkerCache.pauseMonitor in Hk.
        destruct (cache !! id) as [e|] eqn:He.
        -- rewrite lookup_insert_eq in Hk. injection Hk as <-.
           discriminate Ha.
        -- congruence.
      * exists k. split; [exact Hne|]. rewrite <- (Hframe k Hne). exact Hk.
    + intros ((k & Hne & Hk) & Ha & Hn). split; [|split; assumption].
      exists k. rewrite (Hframe k Hne). exact Hk.
  - intros Hn. unfold WorkerCache.pauseMonitor. rewrite Hn. reflexivity.
Qed.

(** The paused monitor of the examples is not handed out, long after its
    [nextRunAt]. *)
Lemma pauseMonitor_excludes_from_sweep_witness :
  ~ In (WorkerCache.set_active false Samples.down_entry)
      (WorkerCache.getMonitorsToRun 500000
         (WorkerCache.pauseMonitor "m1" Samples.down_cache)).
Proof.
  exact (proj2 (proj2 (proj2 (proj2 (proj2
    (proj1 (pauseMonitor_excludes_from_sweep "m1" Samples.down_cache)
       Samples.down_entry eq_refl))))) 500000).
Defined.

(** X3.  [updateMonitor] with an active monitor document on a paused
    entry makes the entry active again, with the schedule and the failure
    count it had: the monitor is due again as soon as its old [nextRunAt]
    is reached. *)
Theorem updateMonitor_unpauses :
  forall (now : Z) (m : MonitorDoc) (cache : gmap string WorkerCache.Entry)
         (e : WorkerCache.Entry),
    m_active m = true ->
    cache !! m_id m = Some e ->
    exists e',
      WorkerCache.updateMonitor now m
        (WorkerCache.pauseMonitor (m_id m) cache) !! m_id m = Some e'
      /\ WorkerCache.active e' = true
      /\ WorkerCache.nextRunAt e' = WorkerCache.nextRunAt e
      /\ WorkerCache.lastStatus e' = WorkerCache.lastStatus e
      /\ WorkerCache.consecutiveFailures e' = WorkerCache.consecutiveFailures e
      /\ (forall t, WorkerCache.nextRunAt e <= t ->
                    WorkerCacheStats.due t e' = true).
Proof.
  intros now m cache e Ha He.
  unfold WorkerCache.updateMonitor, WorkerCache.pauseMonitor.
  rewrite He, Ha, lookup_insert_eq. cbn [negb].
  eexists. split; [apply lookup_insert_eq|].
  repeat split.
  intros t Ht. unfold WorkerCacheStats.due. simpl. apply Z.leb_le, Ht.
Qed.

Lemma updateMonitor_unpauses_witness :
  exists e',
    WorkerCache.updateMonitor 123456 Samples.edited_monitor
      (WorkerCache.pauseMonitor "m1" Samples.down_cache) !! "m1" = Some e'
    /\ WorkerCache.active e' = true
    /\ WorkerCache.nextRunAt e' = 90000.
Proof.
  destruct (updateMonitor_unpauses 123456 Samples.edited_monitor
              Samples.down_cache Samples.down_entry eq_refl eq_refl)
    as (e' & H1 & H2 & H3 & _).
  exists e'. repeat split; assumption.
Defined.

(** After [updateAfterCheck] the monitor is not due before the
    [nextRunAt] passed in and, when it is active, due from then on; the
    other entries are untouched.  For an id that is not in the cache the
    call returns [null] and leaves the cache as it is. *)
Lemma updateAfterCheck_reschedules :
  forall (id : string) (success : bool) (ms next : Z)
         (cache : gmap string WorkerCache.Entry),
    (forall e,
        cache !! id = Some e ->
        exists e',
          fst (WorkerCache.updateAfterCheck id success ms next cache) !! id
          = Some e'
          /\ WorkerCache.active e' = WorkerCache.active e
          /\ (forall t, t < next -> WorkerCacheStats.due t e' = false)
          /\ (forall t, next <= t ->
                WorkerCacheStats.due t e' = WorkerCache.active e))
    /\ (forall k, k <> id ->
          fst (WorkerCache.updateAfterCheck id success ms next cache) !! k
          = cache !! k)
    /\ (cache !! id = None ->
        WorkerCache.updateAfterCheck id success ms next cache = (cache, None)).
Proof.
  intros id success ms next cache. split; [|split].
  - intros e He. rewrite (updateAfterCheck_hit _ _ _ _ _ _ He). simpl.
    eexists. split; [apply lookup_insert_eq|]. split; [reflexivity|].
    unfold WorkerCacheStats.due. simpl. split; intros t Ht.
    + replace (next <=? t) with false by (symmetry; apply Z.leb_gt; lia).
      apply andb_false_r.
    + replace (next <=? t) with true by (symmetry; apply Z.leb_le; lia).
      apply andb_true_r.
  - intros k Hk. unfold WorkerCache.updateAfterCheck.
    destruct (cache !! id); [|reflexivity].
    simpl. apply lookup_insert_ne. congruence.
  - apply updateAfterCheck_miss.
Qed.

(** X4.  A check by the timer-driven runner moves the monitor's next run
    to the clock reading plus [intervalSec] seconds and records the status
    and response time of the check.  With a positive interval
    [getMonitorsToRun] does not hand the monitor out at that clock
    reading, nor at any time before the new [nextRunAt]: what it hands out
    then are entries of other monitors, as they were; from the new
    [nextRunAt] on it hands the monitor out when it is active.  The
    entries of the other monitors are untouched. *)
Theorem checkMonitor_reschedules :
  forall (e x : WorkerCache.Entry) (o : Worker.HttpOutcome) (ms : Z)
         (clk : Clock) (w : Worker.World),
    Worker.cache w !! WorkerCache.monitorId e = Some x ->
    0 < WorkerCache.intervalSec e ->
    let cache' := Worker.cache (Worker.checkMonitor e o ms clk w) in
    let next := at_next clk + WorkerCache.intervalSec e * 1000 in
    (exists x',
        cache' !! WorkerCache.monitorId e = Some x'
        /\ WorkerCache.nextRunAt x' = next
        /\ WorkerCache.lastStatus x'
           = status_of_success
               (Worker.outcome_success (WorkerCache.expectedCode e) o)
        /\ WorkerCache.lastResponseMs x' = ms
        /\ WorkerCache.active x' = WorkerCache.active x
        /\ (forall t, t < next ->
              ~ In x' (WorkerCache.getMonitorsToRun t cache'))
        /\ ~ In x' (WorkerCache.getMonitorsToRun (at_next clk) cache')
        /\ (forall t, next <= t -> WorkerCache.active x = true ->
              In x' (WorkerCache.getMonitorsToRun t cache')))
    /\ (forall t y,
          t < next ->
          In y (WorkerCache.getMonitorsToRun t cache') ->
          exists k, k <> WorkerCache.monitorId e
                    /\ Worker.cache w !! k = Some y)
    /\ (forall k, k <> WorkerCache.monitorId e ->
          cache' !! k = Worker.cache w !! k).
Proof.
  intros e x o ms clk w Hx Hint cache' next.
  set (s := Worker.outcome_success (WorkerCache.expectedCode e) o).
  assert (cache'
          = fst (WorkerCache.updateAfterCheck (WorkerCache.monitorId e)
                   s ms next (Worker.cache w))) as Hc.
  { subst cache'. unfold Worker.checkMonitor. fold s next.
    destruct (WorkerCache.updateAfterCheck _ _ _ _ _). reflexivity. }
  destruct (updateAfterCheck_reschedules (WorkerCache.monitorId e) s ms next
              (Worker.cache w)) as (H1 & H2 & _).
  rewrite <- Hc in H1, H2.
  destruct (H1 x Hx) as (x' & Hx' & Hact & _ & _).
  assert (x' = WorkerCache.record_check s ms next x) as Ex.
  { rewrite Hc, (updateAfterCheck_hit _ _ _ _ _ _ Hx) in Hx'. simpl in Hx'.
    rewrite lookup_insert_eq in Hx'. injection Hx' as <-. reflexivity. }
  assert (WorkerCache.nextRunAt x' = next) as Hnext by (rewrite Ex; reflexivity).
  assert (forall t, t < next ->
            ~ In x' (WorkerCache.getMonitorsToRun t cache')) as Hbefore.
  { intros t Ht Hin. apply getMonitorsToRun_iff in Hin as (_ & _ & Hle). lia. }
  split; [|split; [|exact H2]].
  - exists x'. split; [exact Hx'|]. split; [exact Hnext|].
    split; [rewrite Ex; reflexivity|]. split; [rewrite Ex; reflexivity|].
    split; [exact Hact|]. split; [exact Hbefore|]. split.
    + apply Hbefore. subst next. lia.
    + intros t Ht Ha. apply getMonitorsToRun_iff. split; [|split].
      * eexists. exact Hx'.
      * rewrite Hact. exact Ha.
      * lia.
  - intros t y Ht Hin. apply getMonitorsToRun_iff in Hin as ((k & Hk) & _ & Hle).
    destruct (decide (k = WorkerCache.monitorId e)) as [-> | Hne].
    + rewrite Hx' in Hk. injection Hk as <-. lia.
    + exists k. split; [exact Hne|]. rewrite <- (H2 k Hne). exact Hk.
Qed.

Lemma checkMonitor_reschedules_witness :
  exists x',
    Worker.cache (Worker.checkMonitor Samples.fresh_entry
                    (Worker.Responded 200) 120 (Samples.clock_at 5000)
                    Samples.fresh_world) !! "m1" = Some x'
    /\ WorkerCache.nextRunAt x' = 65000
    /\ WorkerCache.lastStatus x' = Up
    /\ ~ In x' (WorkerCache.getMonitorsToRun 64999
                  (Worker.cache (Worker.checkMonitor Samples.fresh_entry
                     (Worker.Responded 200) 120 (Samples.clock_at 5000)
                     Samples.fresh_world))).
Proof.
  destruct (proj1 (checkMonitor_reschedules Samples.fresh_entry
                     Samples.fresh_entry (Worker.Responded 200) 120
                     (Samples.clock_at 5000) Samples.fresh_world
                     eq_refl ltac:(reflexivity)))
    as (x' & H1 & H2 & H3 & _ & _ & H6 & _).
  exists x'. split; [exact H1|]. split; [exact H2|]. split; [exact H3|].
  apply H6. reflexivity.
Defined.

(** *** Statistics *)

Lemma count_entry_fold (es : list WorkerCache.Entry) :
  forall a u d,
    fold_left WorkerCacheStats.count_entry es (a, u, d)
    = ((a + length (List.filter WorkerCache.active es))%nat,
       (u + length (List.filter
                      (fun e => WorkerCache.active e
                                && status_eqb (WorkerCache.lastStatus e) Up)
                      es))%nat,
       (d + length (List.filter
                      (fun e => WorkerCache.active e
                                && status_eqb (WorkerCache.lastStatus e) Down)
                      es))%nat).
Proof.
  induction es as [|e es IH]; intros a u d; simpl.
  - repeat f_equal; lia.
  - destruct (WorkerCache.active e); simpl.
    + rewrite IH.
      destruct (status_eqb (WorkerCache.lastStatus e) Up),
        (status_eqb (WorkerCache.lastStatus e) Down); simpl;
        repeat f_equal; lia.
    + apply IH.
Qed.

Lemma filter_length_le {A} (f g : A -> bool) (l : list A) :
  (forall x, f x = true -> g x = true) ->
  (length (List.filter f l) <= length (List.filter g l))%nat.
Proof.
  intros H. induction l as [|x l IH]; simpl; [lia|].
  destruct (f x) eqn:Ef.
  - rewrite (H x Ef). simpl. lia.
  - destruct (g x); simpl; lia.
Qed.

Lemma filter_disjoint_length {A} (f g h : A -> bool) (l : list A) :
  (forall x, f x = true -> h x = true) ->
  (forall x, g x = true -> h x = true) ->
  (forall x, f x = true -> g x = false) ->
  (length (List.filter f l) + length (List.filter g l)
   <= length (List.filter h l))%nat.
Proof.
  intros Hf Hg Hd. induction l as [|x l IH]; simpl; [lia|].
  destruct (f x) eqn:Ef.
  - rewrite (Hd x Ef), (Hf x Ef). simpl. lia.
  - destruct (g x) eqn:Eg.
    + rewrite (Hg x Eg). simpl. lia.
    + destruct (h x); simpl; lia.
Qed.

(** X5.  The counters of [getStats]: [total] is the number of entries,
    [active] the number of active ones, [up] and [down] the active ones
    with that status; so [up + down <= active <= total], and the batch
    [getMonitorsToRun] hands out is never larger than [active]. *)
Theorem getStats_counts :
  forall (now : Z) (cache : gmap string WorkerCache.Entry),
    let st := WorkerCacheStats.getStats cache in
    WorkerCacheStats.total st = size cache
    /\ WorkerCacheStats.active st
       = length (List.filter WorkerCache.active (WorkerCacheStats.getAll cache))
    /\ WorkerCacheStats.up st
       = length (List.filter
                   (fun e => WorkerCache.active e
                             && status_eqb (WorkerCache.lastStatus e) Up)
                   (WorkerCacheStats.getAll cache))
    /\ WorkerCacheStats.down st
       = length (List.filter
                   (fun e => WorkerCache.active e
                             && status_eqb (WorkerCache.lastStatus e) Down)
                   (WorkerCacheStats.getAll cache))
    /\ (WorkerCacheStats.up st + WorkerCacheStats.down st
        <= WorkerCacheStats.active st)%nat
    /\ (WorkerCacheStats.active st <= WorkerCacheStats.total st)%nat
    /\ (length (WorkerCache.getMonitorsToRun now cache)
        <= WorkerCacheStats.active st)%nat.
Proof.
  intros now cache st. subst st.
  unfold WorkerCacheStats.getStats, WorkerCacheStats.getAll.
  rewrite count_entry_fold. cbn [WorkerCacheStats.total
    WorkerCacheStats.active WorkerCacheStats.up WorkerCacheStats.down].
  rewrite !Nat.add_0_l.
  split; [reflexivity|]. split; [reflexivity|]. split; [reflexivity|].
  split; [reflexivity|]. split; [|split].
  - apply filter_disjoint_length.
    + intros x H. apply andb_prop in H. tauto.
    + intros x H. apply andb_prop in H. tauto.
    + intros x H. apply andb_prop in H as [-> H]. simpl.
      destruct (WorkerCache.lastStatus x); simpl in *; congruence.
  - rewrite <- length_map_to_list, <- (length_fmap snd (map_to_list cache)).
    apply List.filter_length_le.
  - unfold WorkerCache.getMonitorsToRun. apply filter_length_le.
    intros x H. apply andb_prop in H. tauto.
Qed.

(** X6.  Adding a monitor whose id is not in the cache and removing it
    again gives the cache back; removing an id that is not in the cache
    changes nothing; after [removeMonitor] the id has no entry and the
    other entries are as before. *)
Theorem removeMonitor_undoes_addMonitor :
  forall (now : Z) (m : MonitorDoc) (id : string)
         (cache : gmap string WorkerCache.Entry),
    (cache !! m_id m = None ->
     WorkerCache.removeMonitor (m_id m) (WorkerCache.addMonitor now m cache)
     = cache)
    /\ (cache !! id = None -> WorkerCache.removeMonitor id cache = cache)
    /\ WorkerCache.removeMonitor id cache !! id = None
    /\ (forall k, k <> id ->
          WorkerCache.removeMonitor id cache !! k = cache !! k).
Proof.
  intros now m id cache. unfold WorkerCache.removeMonitor. repeat split.
  - intros Hn. unfold WorkerCache.addMonitor.
    destruct (negb (m_active m)).
    + apply delete_id, Hn.
    + apply delete_insert_id, Hn.
  - apply delete_id.
  - apply lookup_delete_eq.
  - intros k Hk. apply lookup_delete_ne. congruence.
Qed.

Lemma removeMonitor_undoes_addMonitor_witness :
  WorkerCache.removeMonitor "m1"
    (WorkerCache.addMonitor 1000 Samples.api_monitor ∅) = ∅.
Proof.
  exact (proj1 (removeMonitor_undoes_addMonitor 1000 Samples.api_monitor "m1" ∅)
           eq_refl).
Defined.

(** ** The sweep of the timer-driven runner *)

Lemma batches_from_concat {A} (l : list A) :
  forall fuel i,
    (length l <= i + fuel * Sweep.CONCURRENCY_LIMIT)%nat ->
    concat (Sweep.batches_from fuel i l) = drop i l.
Proof.
  unfold Sweep.CONCURRENCY_LIMIT.
  induction fuel as [|fuel IH]; intros i H; simpl.
  - symmetry. apply drop_ge. lia.
  - destruct (Nat.ltb_spec i (length l)).
    + simpl. rewrite IH by (unfold Sweep.CONCURRENCY_LIMIT; lia).
      unfold Sweep.slice, Sweep.CONCURRENCY_LIMIT.
      replace (i + 10 - i)%nat with 10%nat by lia.
      rewrite <- (drop_drop l 10 i). apply take_drop.
    + symmetry. apply drop_ge. lia.
Qed.

Lemma batches_from_sizes {A} (l : list A) :
  forall fuel i,
    Forall (fun b => (1 <= length b <= Sweep.CONCURRENCY_LIMIT)%nat)
      (Sweep.batches_from fuel i l).
Proof.
  unfold Sweep.CONCURRENCY_LIMIT.
  induction fuel as [|fuel IH]; intros i; simpl; [constructor|].
  destruct (Nat.ltb_spec i (length l)); [|constructor].
  constructor; [|apply IH].
  unfold Sweep.slice, Sweep.CONCURRENCY_LIMIT.
  rewrite length_take, length_drop. lia.
Qed.

(** Every batch but the last is full. *)
Lemma batches_from_full {A} (l : list A) :
  forall fuel i j b,
    Sweep.batches_from fuel i l !! j = Some b ->
    (S j < length (Sweep.batches_from fuel i l))%nat ->
    length b = Sweep.CONCURRENCY_LIMIT.
Proof.
  unfold Sweep.CONCURRENCY_LIMIT.
  induction fuel as [|fuel IH]; intros i j b Hb Hj; simpl in *.
  - discriminate.
  - destruct (Nat.ltb_spec i (length l)); [|discriminate].
    destruct j as [|j]; simpl in *.
    + injection Hb as <-.
      destruct fuel as [|fuel']; simpl in Hj; [lia|].
      unfold Sweep.CONCURRENCY_LIMIT in Hj.
      destruct (Nat.ltb_spec (i + 10) (length l)); [|simpl in Hj; lia].
      unfold Sweep.slice, Sweep.CONCURRENCY_LIMIT.
      rewrite length_take, length_drop. lia.
    + apply (IH (i + 10)%nat j b Hb).
      unfold Sweep.CONCURRENCY_LIMIT in Hj. lia.
Qed.

(** X7.  [runChecks] cuts the list of due monitors into consecutive
    batches: put end to end the batches are the list itself, so every due
    monitor is checked once and in order; no batch is empty, none holds
    more than 10 monitors, and every batch but the last holds exactly
    10. *)
Theorem runChecks_batches :
  forall (A : Type) (l : list A),
    concat (Sweep.batches l) = l
    /\ Forall (fun b => (1 <= length b <= 10)%nat) (Sweep.batches l)
    /\ (forall j b,
          Sweep.batches l !! j = Some b ->
          (S j < length (Sweep.batches l))%nat ->
          length b = 10%nat)
    /\ (l = [] -> Sweep.batches l = []).
Proof.
  intros A l. unfold Sweep.batches. split; [|split; [|split]].
  - rewrite batches_from_concat; [reflexivity|].
    unfold Sweep.CONCURRENCY_LIMIT. lia.
  - apply batches_from_sizes.
  - apply batches_from_full.
  - intros ->. reflexivity.
Qed.

(** Twenty-three due monitors are checked in batches of 10, 10 and 3. *)
Example batches_of_23 :
  List.map (@length nat) (Sweep.batches (seq 0 23)) = [10; 10; 3]%nat.
Proof. reflexivity. Qed.

Lemma runChecks_batches_witness :
  length (seq 10 10) = 10%nat.
Proof.
  apply (proj1 (proj2 (proj2 (runChecks_batches nat (seq 0 23))))
           1%nat (seq 10 10) eq_refl).
  vm_compute. lia.
Defined.

(** ** The state machines on recovery *)

Lemma worker_up_only (clk : Clock) (p : Params) (db : Db) :
  p_newStatus p = Up ->
  Worker.handleStatusChange clk p db
  = if StateMachine.recovered p then
      let '(db2, downtimeDuration) :=
        match m_currentIncidentId (p_monitor p) with
        | Some iid => StateMachine.resolve_current clk p iid db
        | None => (db, None)
        end in
      Store.request_alert
        (StateMachine.up_alert false p (Store.team_name (p_teamId p) db)
           downtimeDuration) db2
    else db.
Proof.
  intros H. unfold Worker.handleStatusChange.
  rewrite (worker_no_trigger_when_up p H). reflexivity.
Qed.

Lemma resolve_current_history clk p iid db :
  history (fst (StateMachine.resolve_current clk p iid db)) = history db.
Proof.
  unfold StateMachine.resolve_current.
  destruct (incidents db !! iid) as [inc|]; simpl; [|reflexivity].
  destruct (negb (incident_status_eqb (i_status inc) Resolved)); reflexivity.
Qed.

Lemma resolve_current_monitors clk p iid db :
  monitors (fst (StateMachine.resolve_current clk p iid db))
  = alter (Store.set_currentIncidentId None) (m_id (p_monitor p)) (monitors db).
Proof.
  unfold StateMachine.resolve_current.
  destruct (incidents db !! iid) as [inc|]; simpl; [|reflexivity].
  destruct (negb (incident_status_eqb (i_status inc) Resolved)); reflexivity.
Qed.

Lemma resolve_current_duration clk p iid db :
  snd (StateMachine.resolve_current clk p iid db)
  = match incidents db !! iid with
    | Some inc =>
        if incident_status_eqb (i_status inc) Resolved then None
        else Some (at_duration clk - i_startedAt inc)
    | None => None
    end.
Proof.
  unfold StateMachine.resolve_current.
  destruct (incidents db !! iid) as [inc|]; simpl; [|reflexivity].
  destruct (incident_status_eqb (i_status inc) Resolved); reflexivity.
Qed.

Lemma resolve_current_other_incidents clk p iid db j :
  j <> iid ->
  incidents (fst (StateMachine.resolve_current clk p iid db)) !! j
  = incidents db !! j.
Proof.
  intros Hj. unfold StateMachine.resolve_current.
  destruct (incidents db !! iid) as [inc|]; simpl; [|reflexivity].
  destruct (negb (incident_status_eqb (i_status inc) Resolved)); simpl;
    [|reflexivity].
  apply list_lookup_insert_ne. congruence.
Qed.

(** X8.  Timer mode, a successful check of a monitor that is in the cache
    and in the store: one 'up' alert is requested exactly when the status
    held by the cache before the check was 'down'; from any other status,
    the ['pending'] of a fresh monitor included, nothing is requested.
    A successful check never opens an incident or requests a 'down'
    alert. *)
Theorem checkMonitor_recovery_alert :
  forall (e x : WorkerCache.Entry) (m : MonitorDoc) (o : Worker.HttpOutcome)
         (ms : Z) (clk : Clock) (w : Worker.World),
    Worker.cache w !! WorkerCache.monitorId e = Some x ->
    monitors (Worker.db w) !! WorkerCache.monitorId e = Some m ->
    Worker.outcome_success (WorkerCache.expectedCode e) o = true ->
    let db' := Worker.db (Worker.checkMonitor e o ms clk w) in
    (WorkerCache.lastStatus x = Down ->
       exists a, outbox db' = outbox (Worker.db w) ++ [a]
                 /\ al_type a = AlertUp
                 /\ al_responseMs a = Some ms)
    /\ (WorkerCache.lastStatus x <> Down -> outbox db' = outbox (Worker.db w))
    /\ length (incidents db') = length (incidents (Worker.db w)).
Proof.
  intros e x m o ms clk w Hx Hm Hs db'. subst db'.
  unfold Worker.checkMonitor. rewrite Hs.
  rewrite (updateAfterCheck_hit _ _ _ _ _ _ Hx). cbn zeta iota beta.
  cbn [WorkerCache.u_consecutiveFailures WorkerCache.previousStatus
       WorkerCache.newStatus WorkerCache.statusChanged status_of_success
       Worker.db].
  cbn [Store.add_history Store.with_monitors monitors].
  rewrite lookup_alter_eq, Hm. cbn [fmap option_fmap option_map].
  rewrite worker_up_only by reflexivity.
  unfold StateMachine.recovered.
  cbn [p_statusChanged p_newStatus p_previousStatus p_monitor status_eqb].
  destruct (WorkerCache.lastStatus x) eqn:Hst; cbn [status_eqb negb andb].
  - split; [discriminate|]. split; reflexivity.
  - split; [discriminate|]. split; reflexivity.
  - set (m1 := MonitorFields.set_check_fields _ _ _ _ _ m).
    change (m_currentIncidentId m1) with (m_currentIncidentId m).
    destruct (m_currentIncidentId m) as [iid|].
    + match goal with
      | |- context [StateMachine.resolve_current clk ?p iid ?d] =>
          pose proof (resolve_current_outbox clk p iid d) as O;
          pose proof (resolve_current_incidents_length clk p iid d) as L;
          destruct (StateMachine.resolve_current clk p iid d) as [db2 dt]
      end.
      simpl in O, L. cbn [Store.request_alert outbox incidents].
      split; [|split; [intros H; congruence | exact L]].
      intros _. eexists. rewrite O. split; [reflexivity|]. split; reflexivity.
    + cbn [Store.request_alert outbox incidents].
      split; [|split; [intros H; congruence | reflexivity]].
      intros _. eexists. split; [reflexivity|]. split; reflexivity.
  - split; [discriminate|]. split; reflexivity.
Qed.

(** The first successful check of a fresh monitor requests nothing. *)
Lemma checkMonitor_recovery_alert_witness :
  outbox (Worker.db (Worker.checkMonitor Samples.fresh_entry
                       (Worker.Responded 200) 120 (Samples.clock_at 5000)
                       Samples.fresh_world))
  = outbox (Worker.db Samples.fresh_world).
Proof.
  refine (proj1 (proj2 (checkMonitor_recovery_alert Samples.fresh_entry
                          Samples.fresh_entry Samples.api_monitor
                          (Worker.Responded 200) 120 (Samples.clock_at 5000)
                          Samples.fresh_world eq_refl eq_refl eq_refl)) _).
  discriminate.
Defined.

(** X9.  Timer mode, recovery of a monitor with a linked incident: the
    link is cleared whatever the state of the incident, and one 'up' alert
    is requested.  A linked incident that was not resolved becomes
    resolved: its status is 'resolved', its [resolvedAt] the clock reading
    of the assignment, its [duration] the second clock reading minus its
    [startedAt], its timeline one entry longer; the alert carries the
    duration stored on it.  When the incident is resolved already or no
    longer exists, nothing is resolved and the alert carries no downtime.
    No other incident is touched. *)
Theorem worker_recovery_clears_link :
  forall (clk : Clock) (p : Params) (db : Db) (iid : nat) (m : MonitorDoc),
    StateMachine.recovered p = true ->
    m_currentIncidentId (p_monitor p) = Some iid ->
    monitors db !! m_id (p_monitor p) = Some m ->
    let db' := Worker.handleStatusChange clk p db in
    monitors db' !! m_id (p_monitor p)
    = Some (Store.set_currentIncidentId None m)
    /\ (exists m', monitors db' !! m_id (p_monitor p) = Some m'
                   /\ m_currentIncidentId m' = None)
    /\ (exists a,
          outbox db' = outbox db ++ [a]
          /\ al_type a = AlertUp
          /\ (forall inc,
                incidents db !! iid = Some inc ->
                i_status inc <> Resolved ->
                exists inc',
                  incidents db' !! iid = Some inc'
                  /\ i_status inc' = Resolved
                  /\ i_resolvedAt inc' = Some (at_resolved clk)
                  /\ i_duration inc'
                     = Some (at_duration clk - i_startedAt inc)
                  /\ i_startedAt inc' = i_startedAt inc
                  /\ length (i_timeline inc') = S (length (i_timeline inc))
                  /\ length (incidents db') = length (incidents db)
                  /\ al_downtimeDuration a = i_duration inc')
          /\ (forall inc,
                incidents db !! iid = Some inc ->
                i_status inc = Resolved ->
                al_downtimeDuration a = None)
          /\ (incidents db !! iid = None -> al_downtimeDuration a = None))
    /\ (forall inc, incidents db !! iid = Some inc ->
                    i_status inc = Resolved ->
                    incidents db' = incidents db)
    /\ (incidents db !! iid = None -> incidents db' = incidents db)
    /\ (forall j, j <> iid -> incidents db' !! j = incidents db !! j).
Proof.
  intros clk p db iid m Hrec Hcur Hm db'. subst db'.
  rewrite (worker_up_only clk p db (recovered_needs_up p Hrec)).
  rewrite Hrec, Hcur.
  pose proof (resolve_current_monitors clk p iid db) as M.
  pose proof (resolve_current_outbox clk p iid db) as O.
  pose proof (resolve_current_duration clk p iid db) as D.
  pose proof (resolve_current_other_incidents clk p iid db) as I.
  pose proof (resolve_current_incidents_length clk p iid db) as L.
  pose proof (fun inc => resolve_current_incident clk p iid db inc) as S.
  assert (forall inc,
            incidents db !! iid = Some inc ->
            i_status inc <> Resolved ->
            forall inc',
              incidents (fst (StateMachine.resolve_current clk p iid db)) !! iid
              = Some inc' ->
              length (i_timeline inc') = Datatypes.S (length (i_timeline inc)))
    as T.
  { intros inc Hin Hst inc'. unfold StateMachine.resolve_current.
    rewrite Hin.
    assert (incident_status_eqb (i_status inc) Resolved = false) as ->.
    { destruct (incident_status_eqb (i_status inc) Resolved) eqn:E;
        [apply incident_status_eqb_eq in E; contradiction | reflexivity]. }
    simpl. rewrite list_lookup_insert_eq by (apply lookup_lt_Some in Hin; exact Hin).
    intros [= <-]. simpl. rewrite length_app. simpl. lia. }
  assert (forall inc, incidents db !! iid = Some inc ->
                      i_status inc = Resolved ->
                      incidents (fst (StateMachine.resolve_current clk p iid db))
                      = incidents db) as R.
  { intros inc Hin Hst. unfold StateMachine.resolve_current.
    rewrite Hin, Hst. reflexivity. }
  assert (incidents db !! iid = None ->
          incidents (fst (StateMachine.resolve_current clk p iid db))
          = incidents db) as N.
  { intros Hin. unfold StateMachine.resolve_current. rewrite Hin.
    reflexivity. }
  destruct (StateMachine.resolve_current clk p iid db) as [db2 dt].
  simpl in *. split; [|split; [|split; [|split; [|split]]]].
  - rewrite M, lookup_alter_eq, Hm. reflexivity.
  - eexists. split; [rewrite M, lookup_alter_eq, Hm; reflexivity|].
    reflexivity.
  - eexists. rewrite O. split; [reflexivity|]. split; [reflexivity|].
    simpl. split; [|split].
    + intros inc Hin Hst.
      destruct (S inc Hin Hst) as (inc' & H1 & H2 & H3 & H4 & H5).
      exists inc'. split; [exact H1|]. split; [exact H2|].
      split; [exact H3|]. split; [exact H4|]. split; [exact H5|].
      split; [exact (T inc Hin Hst inc' H1)|]. split; [exact L|].
      rewrite D, Hin, H4.
      destruct (incident_status_eqb (i_status inc) Resolved) eqn:E;
        [apply incident_status_eqb_eq in E; contradiction | reflexivity].
    + intros inc Hin Hst. rewrite D, Hin, Hst. reflexivity.
    + intros Hin. rewrite D, Hin. reflexivity.
  - exact R.
  - exact N.
  - exact I.
Qed.

(** The recovery of the examples: the open incident 0, started at 60000,
    is resolved at the clock's readings and the alert carries the stored
    duration. *)
Lemma worker_recovery_clears_link_witness :
  let db' := Worker.handleStatusChange Samples.ticking_clock Samples.recovery
               Samples.linked_db in
  monitors db' !! "m1"
  = Some (Store.set_currentIncidentId None Samples.linked_down_monitor)
  /\ exists a inc',
       outbox db' = outbox Samples.linked_db ++ [a]
       /\ al_type a = AlertUp
       /\ incidents db' !! 0%nat = Some inc'
       /\ i_status inc' = Resolved
       /\ al_downtimeDuration a = i_duration inc'.
Proof.
  cbv zeta.
  destruct (worker_recovery_clears_link Samples.ticking_clock
              Samples.recovery Samples.linked_db 0%nat
              Samples.linked_down_monitor eq_refl eq_refl eq_refl)
    as (H1 & _ & (a & Ha & Hty & Hres & _) & _).
  split; [exact H1|].
  destruct (Hres Samples.open_incident_0 eq_refl ltac:(discriminate))
    as (inc' & G1 & G2 & _ & _ & _ & _ & _ & G3).
  exists a, inc'. repeat split; assumption.
Defined.

(** X10.  Queue mode, recovery of a monitor with a linked incident: the
    link is cleared, and the 'up' alert carries the time from the
    incident's [startedAt] to the clock reading made for the alert,
    also when the incident was resolved before; it carries no downtime
    only when the incident no longer exists. *)
Theorem queue_recovery_downtime :
  forall (clk : Clock) (p : Params) (db : Db) (iid : nat) (m : MonitorDoc),
    StateMachine.recovered p = true ->
    m_currentIncidentId (p_monitor p) = Some iid ->
    monitors db !! m_id (p_monitor p) = Some m ->
    let db' := BullWorker.handleStatusChange clk p db in
    monitors db' !! m_id (p_monitor p)
    = Some (Store.set_currentIncidentId None m)
    /\ exists a,
         outbox db' = outbox db ++ [a]
         /\ al_type a = AlertUp
         /\ al_downtimeDuration a
            = match incidents db !! iid with
              | Some inc => Some (at_downtime clk - i_startedAt inc)
              | None => None
              end.
Proof.
  intros clk p db iid m Hrec Hcur Hm db'. subst db'.
  unfold BullWorker.handleStatusChange.
  assert (BullWorker.down_trigger p = false) as ->.
  { unfold BullWorker.down_trigger.
    rewrite (recovered_needs_up p Hrec). reflexivity. }
  rewrite Hrec, Hcur.
  cbn [Store.request_alert monitors outbox].
  rewrite resolve_current_monitors, resolve_current_outbox.
  split.
  - rewrite lookup_alter_eq, Hm. reflexivity.
  - eexists. split; [reflexivity|]. split; [reflexivity|].
    cbn [StateMachine.up_alert al_downtimeDuration].
    unfold StateMachine.resolve_current.
    destruct (incidents db !! iid) as [inc|] eqn:Hin; simpl.
    + destruct (negb (incident_status_eqb (i_status inc) Resolved)); simpl.
      * rewrite list_lookup_insert_eq by (apply lookup_lt_Some in Hin; exact Hin).
        simpl.
        unfold IncidentModel.pre_save, IncidentModel.mark_resolved. simpl.
        reflexivity.
      * rewrite Hin. reflexivity.
    + rewrite Hin. reflexivity.
Qed.

Lemma queue_recovery_downtime_witness :
  exists a,
    outbox (BullWorker.handleStatusChange Samples.ticking_clock
              Samples.recovery Samples.linked_db)
    = outbox Samples.linked_db ++ [a]
    /\ al_downtimeDuration a = Some (61002 - 1000).
Proof.
  destruct (proj2 (queue_recovery_downtime Samples.ticking_clock
                     Samples.recovery Samples.linked_db 0%nat
                     Samples.linked_down_monitor eq_refl eq_refl eq_refl))
    as (a & H1 & _ & H3).
  exists a. split; [exact H1 | exact H3].
Defined.

(** *** The shape of stored incidents *)

Lemma auto_incident_shape clk p now :
  IncidentShape.resolved_iff
    (IncidentModel.pre_save now (StateMachine.auto_incident clk p)).
Proof. split; discriminate. Qed.

Lemma mark_resolved_shape t1 t2 t3 now inc :
  IncidentShape.resolved_iff
    (IncidentModel.pre_save now (IncidentModel.mark_resolved t1 t2 t3 inc)).
Proof. split; reflexivity. Qed.

Lemma open_incident_shape b clk p name db :
  Forall IncidentShape.resolved_iff (incidents db) ->
  Forall IncidentShape.resolved_iff
    (incidents (StateMachine.open_incident b clk p name db)).
Proof.
  intros H. unfold StateMachine.open_incident. simpl.
  apply Forall_app. split; [exact H|].
  constructor; [apply auto_incident_shape | constructor].
Qed.

Lemma resolve_current_shape clk p iid db :
  Forall IncidentShape.resolved_iff (incidents db) ->
  Forall IncidentShape.resolved_iff
    (incidents (fst (StateMachine.resolve_current clk p iid db))).
Proof.
  intros H. unfold StateMachine.resolve_current.
  destruct (incidents db !! iid) as [inc|]; simpl; [|exact H].
  destruct (negb (incident_status_eqb (i_status inc) Resolved)); simpl;
    [|exact H].
  apply Forall_insert; [exact H | apply mark_resolved_shape].
Qed.

(** X11.  Both state machines keep the shape of the stored incidents: if
    [resolvedAt] is set exactly on the resolved incidents before a check
    result is handled, it is so afterwards. *)
Theorem state_machines_keep_resolvedAt_shape :
  forall (clk : Clock) (p : Params) (db : Db),
    Forall IncidentShape.resolved_iff (incidents db) ->
    Forall IncidentShape.resolved_iff
      (incidents (Worker.handleStatusChange clk p db))
    /\ Forall IncidentShape.resolved_iff
         (incidents (BullWorker.handleStatusChange clk p db)).
Proof.
  intros clk p db H. split.
  - unfold Worker.handleStatusChange.
    set (db1 := if Worker.down_trigger p then _ else db).
    assert (Forall IncidentShape.resolved_iff (incidents db1)) as H1.
    { subst db1. destruct (Worker.down_trigger p);
        [apply open_incident_shape, H | exact H]. }
    destruct (StateMachine.recovered p); [|exact H1].
    destruct (m_currentIncidentId (p_monitor p)) as [iid|]; [|exact H1].
    pose proof (resolve_current_shape clk p iid db1 H1) as H2.
    destruct (StateMachine.resolve_current clk p iid db1). exact H2.
  - unfold BullWorker.handleStatusChange.
    set (db1 := if BullWorker.down_trigger p then _ else db).
    assert (Forall IncidentShape.resolved_iff (incidents db1)) as H1.
    { subst db1. destruct (BullWorker.down_trigger p);
        [apply open_incident_shape, H | exact H]. }
    destruct (StateMachine.recovered p); [|exact H1].
    destruct (m_currentIncidentId (p_monitor p)) as [iid|]; simpl;
      [apply resolve_current_shape, H1 | exact H1].
Qed.

Lemma state_machines_keep_resolvedAt_shape_witness :
  Forall IncidentShape.resolved_iff
    (incidents (Worker.handleStatusChange Samples.ticking_clock
                  Samples.recovery Samples.linked_db)).
Proof.
  refine (proj1 (state_machines_keep_resolvedAt_shape Samples.ticking_clock
                   Samples.recovery Samples.linked_db _)).
  repeat constructor; discriminate.
Defined.

(** *** Checks that outlive their monitor *)

Lemma worker_handleStatusChange_history clk p db :
  history (Worker.handleStatusChange clk p db) = history db.
Proof.
  unfold Worker.handleStatusChange.
  set (db1 := if Worker.down_trigger p then _ else db).
  assert (history db1 = history db) as H1.
  { subst db1. destruct (Worker.down_trigger p); reflexivity. }
  destruct (StateMachine.recovered p); [|exact H1].
  destruct (m_currentIncidentId (p_monitor p)) as [iid|]; [|exact H1].
  pose proof (resolve_current_history clk p iid db1) as H2.
  destruct (StateMachine.resolve_current clk p iid db1). simpl in *.
  congruence.
Qed.

Lemma bull_handleStatusChange_history clk p db :
  history (BullWorker.handleStatusChange clk p db) = history db.
Proof.
  unfold BullWorker.handleStatusChange.
  set (db1 := if BullWorker.down_trigger p then _ else db).
  assert (history db1 = history db) as H1.
  { subst db1. destruct (BullWorker.down_trigger p); reflexivity. }
  destruct (StateMachine.recovered p); [|exact H1].
  destruct (m_currentIncidentId (p_monitor p)) as [iid|]; simpl;
    rewrite ?resolve_current_history; exact H1.
Qed.

(** X12.  Timer mode, a check that completes after its monitor left the
    cache (removed while the request was in flight): the cache stays as
    it is, the stored monitor, if there is one, gets the status of the
    check with a failure count of 0, one history row is written, and no
    incident is created and no alert requested, however often the
    monitor failed.  The same holds for incidents and alerts when the
    monitor is in the cache but no longer in the store. *)
Theorem checkMonitor_of_removed_monitor :
  forall (e : WorkerCache.Entry) (o : Worker.HttpOutcome) (ms : Z)
         (clk : Clock) (w : Worker.World),
    let w' := Worker.checkMonitor e o ms clk w in
    let id := WorkerCache.monitorId e in
    (Worker.cache w !! id = None ->
       Worker.cache w' = Worker.cache w
       /\ incidents (Worker.db w') = incidents (Worker.db w)
       /\ outbox (Worker.db w') = outbox (Worker.db w)
       /\ length (history (Worker.db w')) = S (length (history (Worker.db w)))
       /\ (forall m, monitors (Worker.db w) !! id = Some m ->
             exists m', monitors (Worker.db w') !! id = Some m'
                        /\ m_consecutiveFailures m' = Some 0
                        /\ m_lastStatus m'
                           = Some (status_of_success
                                     (Worker.outcome_success
                                        (WorkerCache.expectedCode e) o))))
    /\ (monitors (Worker.db w) !! id = None ->
        incidents (Worker.db w') = incidents (Worker.db w)
        /\ outbox (Worker.db w') = outbox (Worker.db w)
        /\ monitors (Worker.db w') !! id = None
        /\ length (history (Worker.db w')) = S (length (history (Worker.db w)))).
Proof.
  intros e o ms clk w w' id. subst w' id. split.
  - intros Hn. unfold Worker.checkMonitor.
    rewrite (updateAfterCheck_miss _ _ _ _ _ Hn). cbn zeta iota beta.
    cbn [Worker.cache Worker.db].
    match goal with
    | |- context [match ?a !! ?b with _ => _ end] =>
        destruct (a !! b) as [m0|]
    end; cbn [Store.add_history Store.with_monitors incidents outbox
              history monitors];
      (split; [reflexivity|]); (split; [reflexivity|]);
      (split; [reflexivity|]);
      (split; [rewrite length_app; simpl; lia|]);
      intros m Hm; rewrite lookup_alter_eq, Hm; simpl;
      eexists; (split; [reflexivity|]); split; reflexivity.
  - intros Hn. unfold Worker.checkMonitor.
    destruct (WorkerCache.updateAfterCheck _ _ _ _ _) as [cache1 result].
    cbn zeta iota beta. cbn [Worker.db].
    cbn [Store.add_history Store.with_monitors monitors].
    rewrite lookup_alter_eq, Hn. simpl.
    repeat split; try reflexivity.
    + rewrite lookup_alter_eq, Hn. reflexivity.
    + rewrite length_app. simpl. lia.
Qed.

Lemma checkMonitor_of_removed_monitor_witness :
  incidents (Worker.db (Worker.checkMonitor Samples.down_entry
                          (Worker.Threw (Some "ETIMEDOUT") None) 30000
                          (Samples.clock_at 5000)
                          {| Worker.cache := ∅; Worker.db := Samples.empty_db |}))
  = incidents Samples.empty_db.
Proof.
  exact (proj1 (proj2 (proj1
    (checkMonitor_of_removed_monitor Samples.down_entry
       (Worker.Threw (Some "ETIMEDOUT") None) 30000 (Samples.clock_at 5000)
       {| Worker.cache := ∅; Worker.db := Samples.empty_db |}) eq_refl))).
Defined.

(** *** What every check records *)

Lemma processMonitorCheck_history id tid r clk db m :
  monitors db !! id = Some m ->
  history (BullWorker.processMonitorCheck id tid r clk db)
  = history db
    ++ [ {| h_monitorId := id; h_success := BullWorker.success r;
            h_statusCode := BullWorker.statusCode r;
            h_responseMs := BullWorker.responseMs r;
            h_error := BullWorker.error r;
            h_checkedAt := at_checkedAt clk |} ].
Proof.
  intros H. unfold BullWorker.processMonitorCheck. rewrite H.
  assert (forall db',
    history (match BullWorker.sslInfo r with
             | Some info =>
                 if BullWorker.within_30_days (BullWorker.sslInfo r)
                 then BullWorker.handleSslExpiryAlert m info tid db'
                 else db'
             | None => db'
             end) = history db') as Hssl.
  { intros db'. destruct (BullWorker.sslInfo r) as [info|]; [|reflexivity].
    destruct (BullWorker.within_30_days _); [|reflexivity].
    unfold BullWorker.handleSslExpiryAlert.
    destruct (BullWorker.includes _ _); reflexivity. }
  rewrite Hssl, bull_handleStatusChange_history. reflexivity.
Qed.

Lemma processMonitorCheck_totalChecks id tid r clk db m :
  monitors db !! id = Some m ->
  m_totalChecks <$>
    (monitors (BullWorker.processMonitorCheck id tid r clk db) !! id)
  = Some (Some (JS.num_or (m_totalChecks m) 0 + 1)).
Proof.
  intros H. unfold BullWorker.processMonitorCheck. rewrite H.
  assert (forall db',
    m_totalChecks <$>
      (monitors (match BullWorker.sslInfo r with
                 | Some info =>
                     if BullWorker.within_30_days (BullWorker.sslInfo r)
                     then BullWorker.handleSslExpiryAlert m info tid db'
                     else db'
                 | None => db'
                 end) !! id)
    = m_totalChecks <$> (monitors db' !! id)) as Hssl.
  { intros db'. destruct (BullWorker.sslInfo r) as [info|]; [|reflexivity].
    destruct (BullWorker.within_30_days _); [|reflexivity].
    apply field_handleSslExpiryAlert. }
  rewrite Hssl.
  rewrite field_bull_handleStatusChange by reflexivity.
  simpl. rewrite lookup_alter_eq, H. simpl.
  destruct (BullWorker.sslInfo r); reflexivity.
Qed.

(** X13.  Queue mode: every processed check of a stored monitor appends
    one history row with the outcome of the check and adds one to
    [totalChecks]; after [n] checks of a monitor whose counter was
    non-negative the counter is [n] higher and the history [n] rows
    longer.  A check whose monitor is not in the store writes nothing. *)
Theorem queue_checks_are_recorded :
  forall (id tid : string) (db : Db),
    (forall m checks,
        monitors db !! id = Some m ->
        0 <= JS.num_or (m_totalChecks m) 0 ->
        length (history (BullWorker.process_all id tid checks db))
        = (length (history db) + length checks)%nat
        /\ exists m',
             monitors (BullWorker.process_all id tid checks db) !! id = Some m'
             /\ JS.num_or (m_totalChecks m') 0
                = JS.num_or (m_totalChecks m) 0 + Z.of_nat (length checks))
    /\ (forall m r clk,
          monitors db !! id = Some m ->
          exists row,
            history (BullWorker.processMonitorCheck id tid r clk db)
            = history db ++ [row]
            /\ h_monitorId row = id
            /\ h_success row = BullWorker.success r
            /\ h_error row = BullWorker.error r)
    /\ (forall r clk,
          monitors db !! id = None ->
          BullWorker.processMonitorCheck id tid r clk db = db).
Proof.
  intros id tid db. split; [|split].
  - intros m checks. revert db m.
    induction checks as [|[r clk] rest IH]; intros db m Hm Hn.
    + simpl. split; [lia|]. exists m. split; [exact Hm | lia].
    + cbn [BullWorker.process_all length].
      pose proof (processMonitorCheck_totalChecks id tid r clk db m Hm) as T.
      pose proof (processMonitorCheck_history id tid r clk db m Hm) as Hh.
      destruct (monitors (BullWorker.processMonitorCheck id tid r clk db) !! id)
        as [m1|] eqn:E; simpl in T; [|discriminate].
      injection T as T.
      assert (JS.num_or (m_totalChecks m1) 0 = JS.num_or (m_totalChecks m) 0 + 1)
        as T1.
      { rewrite T. simpl.
        destruct (Z.eqb_spec (JS.num_or (m_totalChecks m) 0 + 1) 0); lia. }
      destruct (IH _ m1 E) as (L & m' & Hm' & Hc); [lia|].
      split.
      * rewrite L, Hh, length_app. simpl. lia.
      * exists m'. split; [exact Hm'|]. lia.
  - intros m r clk Hm. eexists.
    split; [apply (processMonitorCheck_history id tid r clk db m Hm)|].
    repeat split.
  - intros r clk Hn. unfold BullWorker.processMonitorCheck. rewrite Hn.
    reflexivity.
Qed.

Lemma queue_checks_are_recorded_witness :
  length (history (BullWorker.process_all "m1" "t1"
                     [(Samples.ok_result, Samples.clock_at 0);
                      (Samples.failed_result, Samples.clock_at 60000)]
                     Samples.empty_db))
  = (length (history Samples.empty_db) + 2)%nat.
Proof.
  refine (proj1 (proj1 (queue_checks_are_recorded "m1" "t1" Samples.empty_db)
                   Samples.api_monitor
                   [(Samples.ok_result, Samples.clock_at 0);
                    (Samples.failed_result, Samples.clock_at 60000)]
                   eq_refl _)).
  vm_compute. discriminate.
Defined.

(** ** A failure streak and its recovery, end to end *)

(** The failed check that crosses the threshold, in detail. *)
Lemma crossing_check_opens id w e m o ms clk :
  Worker.cache w !! id = Some e ->
  WorkerCache.monitorId e = id ->
  monitors (Worker.db w) !! id = Some m ->
  m_id m = id ->
  WorkerCache.consecutiveFailures e + 1 = Worker.alertThreshold m ->
  Worker.outcome_success (WorkerCache.expectedCode e) o = false ->
  let w' := Worker.check_by_id id o ms clk w in
  (exists inc,
      incidents (Worker.db w') = incidents (Worker.db w) ++ [inc]
      /\ i_status inc = Investigating
      /\ i_severity inc = Major
      /\ i_startedAt inc = at_started clk)
  /\ (exists m',
        monitors (Worker.db w') !! id = Some m'
        /\ m_id m' = id
        /\ m_currentIncidentId m' = Some (length (incidents (Worker.db w))))
  /\ (exists e',
        Worker.cache w' !! id = Some e'
        /\ WorkerCache.monitorId e' = id
        /\ WorkerCache.expectedCode e' = WorkerCache.expectedCode e
        /\ WorkerCache.lastStatus e' = Down)
  /\ (exists a, outbox (Worker.db w') = outbox (Worker.db w) ++ [a]
                /\ al_type a = AlertDown).
Proof.
  intros He Hid Hm Hmid Hthr Hfail w'. subst w'.
  unfold Worker.check_by_id. rewrite He.
  unfold Worker.checkMonitor. rewrite Hfail, Hid.
  rewrite (updateAfterCheck_hit _ _ _ _ _ _ He). cbn zeta iota beta.
  cbn [WorkerCache.u_consecutiveFailures WorkerCache.previousStatus
       WorkerCache.newStatus WorkerCache.statusChanged status_of_success].
  cbn [Store.add_history Store.with_monitors monitors].
  rewrite lookup_alter_eq, Hm. cbn [fmap option_fmap option_map].
  rewrite worker_down_only by reflexivity.
  set (m1 := MonitorFields.set_check_fields _ _ _ _ _ m).
  match goal with
  | |- context [Worker.down_trigger ?p] =>
      assert (Worker.down_trigger p = true) as ->
  end.
  { unfold Worker.down_trigger, Worker.isThresholdReached. simpl.
    change (Worker.alertThreshold m1) with (Worker.alertThreshold m).
    rewrite Hthr, Z.eqb_refl. reflexivity. }
  unfold StateMachine.open_incident. simpl.
  split; [|split; [|split]].
  - eexists. split; [reflexivity|]. repeat split.
  - rewrite Hmid, lookup_alter_eq, lookup_alter_eq, Hm. simpl.
    eexists. split; [reflexivity|]. split; [exact Hmid | reflexivity].
  - rewrite lookup_insert_eq. eexists. split; [reflexivity|].
    simpl. repeat split. exact Hid.
  - eexists. split; reflexivity.
Qed.

(** The successful check that follows, in detail. *)
Lemma recovery_check_resolves id w e m n inc o ms clk :
  Worker.cache w !! id = Some e ->
  WorkerCache.monitorId e = id ->
  WorkerCache.lastStatus e = Down ->
  monitors (Worker.db w) !! id = Some m ->
  m_id m = id ->
  m_currentIncidentId m = Some n ->
  incidents (Worker.db w) !! n = Some inc ->
  i_status inc <> Resolved ->
  Worker.outcome_success (WorkerCache.expectedCode e) o = true ->
  let w' := Worker.check_by_id id o ms clk w in
  incidents (Worker.db w')
  = <[n := IncidentModel.mark_resolved (at_resolved clk) (at_duration clk)
             (at_entry clk) inc]> (incidents (Worker.db w))
  /\ (exists m',
        monitors (Worker.db w') !! id = Some m'
        /\ m_currentIncidentId m' = None
        /\ m_consecutiveFailures m' = Some 0
        /\ m_lastStatus m' = Some Up)
  /\ (exists e',
        Worker.cache w' !! id = Some e'
        /\ WorkerCache.consecutiveFailures e' = 0
        /\ WorkerCache.lastStatus e' = Up)
  /\ (exists a, outbox (Worker.db w') = outbox (Worker.db w) ++ [a]
                /\ al_type a = AlertUp
                /\ al_downtimeDuration a
                   = Some (at_duration clk - i_startedAt inc)).
Proof.
  intros He Hid Hst Hm Hmid Hcur Hinc Hopen Hok w'. subst w'.
  unfold Worker.check_by_id. rewrite He.
  unfold Worker.checkMonitor. rewrite Hok, Hid.
  rewrite (updateAfterCheck_hit _ _ _ _ _ _ He). cbn zeta iota beta.
  cbn [WorkerCache.u_consecutiveFailures WorkerCache.previousStatus
       WorkerCache.newStatus WorkerCache.statusChanged status_of_success].
  cbn [Store.add_history Store.with_monitors monitors].
  rewrite lookup_alter_eq, Hm. cbn [fmap option_fmap option_map].
  rewrite worker_up_only by reflexivity.
  unfold StateMachine.recovered.
  cbn [p_statusChanged p_newStatus p_previousStatus p_monitor].
  rewrite Hst. cbn [status_eqb negb andb].
  set (m1 := MonitorFields.set_check_fields _ _ _ _ _ m).
  change (m_currentIncidentId m1) with (m_currentIncidentId m).
  rewrite Hcur.
  unfold StateMachine.resolve_current.
  cbn [incidents Store.add_history Store.with_monitors]. rewrite Hinc.
  assert (incident_status_eqb (i_status inc) Resolved = false) as ->.
  { destruct (incident_status_eqb (i_status inc) Resolved) eqn:E;
      [apply incident_status_eqb_eq in E; contradiction | reflexivity]. }
  simpl. split; [|split; [|split]].
  - reflexivity.
  - rewrite Hmid, lookup_alter_eq, lookup_alter_eq, Hm. simpl.
    eexists. split; [reflexivity|]. repeat split.
  - rewrite lookup_insert_eq. eexists. split; [reflexivity|].
    split; reflexivity.
  - eexists. split; [reflexivity|]. split; reflexivity.
Qed.

(** X14.  Timer mode, the failed check that brings the failure count of a
    monitor to its threshold followed by a successful check: together
    they leave exactly one more incident, created 'major' by the first and
    resolved by the second, with [startedAt] from the first check,
    [resolvedAt] from the second; the monitor ends with no linked
    incident, a failure count of 0 and status 'up', in the store and in
    the cache; a 'down' alert then an 'up' alert are requested, the latter
    with the duration stored on the incident. *)
Theorem threshold_failure_then_recovery :
  forall (id : string) (w : Worker.World) (e : WorkerCache.Entry)
         (m : MonitorDoc) (o1 o2 : Worker.HttpOutcome) (ms1 ms2 : Z)
         (clk1 clk2 : Clock),
    Worker.cache w !! id = Some e ->
    WorkerCache.monitorId e = id ->
    monitors (Worker.db w) !! id = Some m ->
    m_id m = id ->
    WorkerCache.consecutiveFailures e + 1 = Worker.alertThreshold m ->
    Worker.outcome_success (WorkerCache.expectedCode e) o1 = false ->
    Worker.outcome_success (WorkerCache.expectedCode e) o2 = true ->
    let w2 := Worker.check_all id [(o1, ms1, clk1); (o2, ms2, clk2)] w in
    (exists inc,
        incidents (Worker.db w2) = incidents (Worker.db w) ++ [inc]
        /\ i_status inc = Resolved
        /\ i_severity inc = Major
        /\ i_startedAt inc = at_started clk1
        /\ i_resolvedAt inc = Some (at_resolved clk2)
        /\ i_duration inc = Some (at_duration clk2 - at_started clk1))
    /\ (exists m',
          monitors (Worker.db w2) !! id = Some m'
          /\ m_currentIncidentId m' = None
          /\ m_consecutiveFailures m' = Some 0
          /\ m_lastStatus m' = Some Up)
    /\ (exists e',
          Worker.cache w2 !! id = Some e'
          /\ WorkerCache.consecutiveFailures e' = 0
          /\ WorkerCache.lastStatus e' = Up)
    /\ (exists a1 a2,
          outbox (Worker.db w2) = outbox (Worker.db w) ++ [a1; a2]
          /\ al_type a1 = AlertDown
          /\ al_type a2 = AlertUp
          /\ al_downtimeDuration a2
             = Some (at_duration clk2 - at_started clk1)).
Proof.
  intros id w e m o1 o2 ms1 ms2 clk1 clk2 He Hid Hm Hmid Hthr Hf Hs w2.
  subst w2. cbn [Worker.check_all].
  destruct (crossing_check_opens id w e m o1 ms1 clk1 He Hid Hm Hmid Hthr Hf)
    as ((inc & Hinc & Hst & Hsev & Hstart)
        & (m1 & Hm1 & Hm1id & Hm1cur)
        & (e1 & He1 & He1id & He1code & He1st)
        & (a1 & Ha1 & Ha1t)).
  set (w1 := Worker.check_by_id id o1 ms1 clk1 w) in *.
  assert (incidents (Worker.db w1) !! length (incidents (Worker.db w))
          = Some inc) as Hlook.
  { rewrite Hinc. apply list_lookup_middle. reflexivity. }
  rewrite <- He1code in Hs.
  destruct (recovery_check_resolves id w1 e1 m1 _ inc o2 ms2 clk2
              He1 He1id He1st Hm1 Hm1id Hm1cur Hlook)
    as (Hinc2 & Hm2 & He2 & (a2 & Ha2 & Ha2t & Ha2d)); [congruence | exact Hs |].
  split; [|split; [exact Hm2 | split; [exact He2|]]].
  - exists (IncidentModel.mark_resolved (at_resolved clk2) (at_duration clk2)
              (at_entry clk2) inc).
    split.
    + rewrite Hinc2, Hinc.
      rewrite insert_app_r_alt by lia.
      rewrite Nat.sub_diag. reflexivity.
    + simpl. rewrite Hstart. repeat split. exact Hsev.
  - exists a1, a2. rewrite Ha2, Ha1, <- app_assoc. simpl.
    rewrite Ha2d, Hstart. repeat split; assumption.
Qed.

(** The monitor of the examples (threshold 1) fails once and recovers. *)
Lemma threshold_failure_then_recovery_witness :
  exists m',
    monitors (Worker.db
      (Worker.check_all "m1"
         [(Worker.Threw (Some "ETIMEDOUT") None, 30000, Samples.clock_at 1000);
          (Worker.Responded 200, 120, Samples.clock_at 61000)]
         Samples.fresh_world)) !! "m1" = Some m'
    /\ m_currentIncidentId m' = None
    /\ m_consecutiveFailures m' = Some 0
    /\ m_lastStatus m' = Some Up.
Proof.
  exact (proj1 (proj2
    (threshold_failure_then_recovery "m1" Samples.fresh_world
       Samples.fresh_entry Samples.api_monitor
       (Worker.Threw (Some "ETIMEDOUT") None) (Worker.Responded 200)
       30000 120 (Samples.clock_at 1000) (Samples.clock_at 61000)
       eq_refl eq_refl eq_refl eq_refl eq_refl eq_refl eq_refl))).
Defined.

(** ** The alert dispatcher: bookkeeping and fan-out *)

Lemma sendToChannel_keeps_settings tr now k c :
  let c' := fst (fst (Alerts.sendToChannel tr now k c)) in
  Alerts.ch_id c' = Alerts.ch_id c
  /\ Alerts.ch_teamId c' = Alerts.ch_teamId c
  /\ Alerts.ch_type c' = Alerts.ch_type c
  /\ Alerts.ch_enabled c' = Alerts.ch_enabled c
  /\ Alerts.ch_config c' = Alerts.ch_config c
  /\ Alerts.cooldownMinutes c' = Alerts.cooldownMinutes c.
Proof.
  unfold Alerts.sendToChannel.
  destruct (Alerts.in_schema (Alerts.ch_type c));
    destruct (Alerts.dispatch tr _ c); simpl; repeat split.
Qed.

Lemma sendToChannel_at_most_one_attempt tr now k c :
  (length (snd (fst (Alerts.sendToChannel tr now k c))) <= 1)%nat.
Proof.
  unfold Alerts.sendToChannel.
  destruct (Alerts.in_schema (Alerts.ch_type c));
    destruct (Alerts.dispatch tr _ c); simpl; lia.
Qed.

(** X15.  [sendToChannel] and the books of the channel.  For a channel
    of a type the schema lists (e-mail, Telegram, webhook): when the
    promise is fulfilled [alertsSent] grows by one, [lastAlertAt] becomes
    the time of the send and [lastError] is cleared; when it is rejected
    [alertsSent] and [lastAlertAt] stay and [lastError] holds the message.
    For a channel of any other type (Slack, Discord, unknown) the save is
    refused: the stored channel stays as it was and the promise is
    rejected, also when the delivery service was called and returned.
    For every channel a delivery service is called at most once, and not
    at all when the channel lacks its address (no e-mail address, no
    Telegram token or chat id, no webhook URL), which is always a
    rejection. *)
Theorem sendToChannel_bookkeeping :
  forall (tr : Alerts.Transport) (now : Z) (k : Alerts.kind)
         (c : Alerts.Channel),
    let c' := fst (fst (Alerts.sendToChannel tr now k c)) in
    let log := snd (fst (Alerts.sendToChannel tr now k c)) in
    let ok := snd (Alerts.sendToChannel tr now k c) in
    (Alerts.ch_type c = Alerts.Email
     \/ Alerts.ch_type c = Alerts.Telegram
     \/ Alerts.ch_type c = Alerts.Webhook ->
     (ok = true ->
        Alerts.alertsSent c' = Alerts.alertsSent c + 1
        /\ Alerts.lastAlertAt c' = Some now
        /\ Alerts.lastError c' = None)
     /\ (ok = false ->
         Alerts.alertsSent c' = Alerts.alertsSent c
         /\ Alerts.lastAlertAt c' = Alerts.lastAlertAt c
         /\ exists msg, Alerts.lastError c' = Some msg))
    /\ (Alerts.ch_type c <> Alerts.Email ->
        Alerts.ch_type c <> Alerts.Telegram ->
        Alerts.ch_type c <> Alerts.Webhook ->
        c' = c /\ ok = false
        /\ (JS.str_truthy (Alerts.webhookUrl (Alerts.ch_config c)) = true ->
            k <> Alerts.KIncident ->
            Alerts.ch_type c = Alerts.Slack
            \/ Alerts.ch_type c = Alerts.Discord ->
            log = [ {| Alerts.att_channel := Alerts.ch_id c;
                       Alerts.att_kind := k;
                       Alerts.att_time := now |} ]))
    /\ (length log <= 1)%nat
    /\ (forall a, In a log ->
          Alerts.att_channel a = Alerts.ch_id c /\ Alerts.att_time a = now)
    /\ ((Alerts.ch_type c = Alerts.Email
         /\ Alerts.emails (Alerts.ch_config c) = [])
        \/ (Alerts.ch_type c = Alerts.Telegram
            /\ (JS.str_truthy (Alerts.telegramBotToken (Alerts.ch_config c))
                = false
                \/ JS.str_truthy (Alerts.telegramChatId (Alerts.ch_config c))
                   = false))
        \/ ((Alerts.ch_type c = Alerts.Webhook
             \/ Alerts.ch_type c = Alerts.Slack
             \/ Alerts.ch_type c = Alerts.Discord)
            /\ JS.str_truthy (Alerts.webhookUrl (Alerts.ch_config c)) = false) ->
        log = [] /\ ok = false).
Proof.
  intros tr now k c c' log ok. subst c' log ok.
  unfold Alerts.sendToChannel.
  set (a := {| Alerts.att_channel := Alerts.ch_id c; Alerts.att_kind := k;
               Alerts.att_time := now |}).
  split; [|split; [|split; [|split]]].
  - intros Hty.
    assert (Alerts.in_schema (Alerts.ch_type c) = true) as ->.
    { destruct Hty as [-> | [-> | ->]]; reflexivity. }
    split.
    + destruct (Alerts.dispatch tr a c); simpl; intros H;
        try discriminate; repeat split.
    + destruct (Alerts.dispatch tr a c); simpl; intros H;
        try discriminate; repeat split; eauto.
  - intros H1 H2 H3.
    assert (Alerts.in_schema (Alerts.ch_type c) = false) as ->.
    { destruct (Alerts.ch_type c); try reflexivity; congruence. }
    split; [reflexivity|]. split; [reflexivity|].
    intros Hu Hk Hty. unfold Alerts.dispatch.
    destruct Hty as [-> | ->];
      unfold Alerts.sendSlackAlert, Alerts.sendDiscordAlert;
      rewrite Hu; cbn [negb Alerts.att_kind a];
      destruct k; try contradiction; unfold Alerts.deliver;
      destruct (tr a); reflexivity.
  - destruct (Alerts.in_schema (Alerts.ch_type c));
      destruct (Alerts.dispatch tr a c); simpl; lia.
  - destruct (Alerts.in_schema (Alerts.ch_type c));
      destruct (Alerts.dispatch tr a c); simpl; intros x Hx;
      try contradiction; destruct Hx as [<-|[]]; split; reflexivity.
  - unfold Alerts.dispatch.
    intros [[-> He]|[[-> Ht]|[Hty Hu]]].
    + unfold Alerts.sendEmailAlert. rewrite He. split; reflexivity.
    + unfold Alerts.sendTelegramAlert.
      destruct Ht as [-> | ->]; rewrite ?orb_true_r; simpl;
        split; reflexivity.
    + destruct Hty as [-> | [-> | ->]];
        unfold Alerts.sendWebhookAlert, Alerts.sendSlackAlert,
          Alerts.sendDiscordAlert; rewrite Hu; simpl; split; reflexivity.
Qed.

(** A Telegram channel without a chat id: nothing is sent. *)
Lemma sendToChannel_bookkeeping_witness :
  snd (fst (Alerts.sendToChannel Samples.reliable 1000 Alerts.KDown
              Fixtures.telegram_no_chat)) = []
  /\ snd (Alerts.sendToChannel Samples.reliable 1000 Alerts.KDown
            Fixtures.telegram_no_chat) = false.
Proof.
  apply (proj2 (proj2 (proj2 (proj2
    (sendToChannel_bookkeeping Samples.reliable 1000 Alerts.KDown
       Fixtures.telegram_no_chat))))).
  right. left. split; [reflexivity|]. right. reflexivity.
Defined.

(** X16.  A webhook channel never reaches a delivery service: whatever
    its configuration and the kind of alert, [sendToChannel] makes no
    delivery attempt, the promise is rejected, [lastError] is set and
    [alertsSent] and [lastAlertAt] stay as they were. *)
Theorem webhook_channel_never_delivers :
  forall (tr : Alerts.Transport) (now : Z) (k : Alerts.kind)
         (c : Alerts.Channel),
    Alerts.ch_type c = Alerts.Webhook ->
    snd (fst (Alerts.sendToChannel tr now k c)) = []
    /\ snd (Alerts.sendToChannel tr now k c) = false
    /\ (exists msg,
          Alerts.lastError (fst (fst (Alerts.sendToChannel tr now k c)))
          = Some msg)
    /\ Alerts.alertsSent (fst (fst (Alerts.sendToChannel tr now k c)))
       = Alerts.alertsSent c
    /\ Alerts.lastAlertAt (fst (fst (Alerts.sendToChannel tr now k c)))
       = Alerts.lastAlertAt c.
Proof.
  intros tr now k c Hty.
  unfold Alerts.sendToChannel, Alerts.dispatch. rewrite Hty.
  cbn [Alerts.in_schema]. unfold Alerts.sendWebhookAlert.
  destruct (negb (JS.str_truthy (Alerts.webhookUrl (Alerts.ch_config c))));
    simpl; repeat split; eauto.
Qed.

Lemma webhook_channel_never_delivers_witness :
  snd (fst (Alerts.sendToChannel Samples.reliable 1000 Alerts.KDown
              Fixtures.webhook_channel)) = [].
Proof.
  exact (proj1 (webhook_channel_never_delivers Samples.reliable 1000
                  Alerts.KDown Fixtures.webhook_channel eq_refl)).
Defined.

(** The channel documents [sendAlert] leaves, one by one. *)
Lemma sendAlert_channels tr clock team k channels :
  fst (fst (Alerts.sendAlert tr clock team k channels))
  = List.map
      (fun c => if Alerts.selected team k c
                then fst (fst (Alerts.sendToChannel tr
                                 (clock (Alerts.ch_id c)) k c))
                else c)
      channels.
Proof.
  induction channels as [|c rest IH]; [reflexivity|].
  cbn [Alerts.sendAlert List.map].
  destruct (Alerts.sendAlert tr clock team k rest) as [[rest' log'] [s f]].
  simpl in IH. rewrite <- IH.
  destruct (Alerts.selected team k c); [|reflexivity].
  destruct (Alerts.sendToChannel tr (clock (Alerts.ch_id c)) k c)
    as [[c' log] ok].
  reflexivity.
Qed.

Lemma sendAlert_counts tr clock team k channels :
  let '(sent, failed) := snd (Alerts.sendAlert tr clock team k channels) in
  (sent
   = length (List.filter
               (fun c => Alerts.selected team k c
                         && snd (Alerts.sendToChannel tr
                                   (clock (Alerts.ch_id c)) k c))
               channels)
   /\ failed
      = length (List.filter
                  (fun c => Alerts.selected team k c
                            && negb (snd (Alerts.sendToChannel tr
                                            (clock (Alerts.ch_id c)) k c)))
                  channels))%nat.
Proof.
  induction channels as [|c rest IH]; [split; reflexivity|].
  cbn [Alerts.sendAlert List.filter].
  destruct (Alerts.sendAlert tr clock team k rest) as [[rest' log'] [s f]].
  simpl in IH. destruct IH as [-> ->].
  destruct (Alerts.selected team k c); [|split; reflexivity].
  destruct (Alerts.sendToChannel tr (clock (Alerts.ch_id c)) k c)
    as [[c' log] ok].
  destruct ok; simpl; split; reflexivity.
Qed.

Lemma sendAlert_log tr clock team k channels :
  snd (fst (Alerts.sendAlert tr clock team k channels))
  = concat
      (List.map
         (fun c => if Alerts.selected team k c
                   then snd (fst (Alerts.sendToChannel tr
                                    (clock (Alerts.ch_id c)) k c))
                   else [])
         channels).
Proof.
  induction channels as [|c rest IH]; [reflexivity|].
  cbn [Alerts.sendAlert List.map concat].
  destruct (Alerts.sendAlert tr clock team k rest) as [[rest' log'] [s f]].
  simpl in IH. rewrite <- IH.
  destruct (Alerts.selected team k c); [|reflexivity].
  destruct (Alerts.sendToChannel tr (clock (Alerts.ch_id c)) k c)
    as [[c' log] ok].
  reflexivity.
Qed.

(** X17.  [sendAlert] for a 'down', 'up' or 'sslExpiry' alert handles
    every channel of the team that is enabled and subscribed to the kind
    of alert, each on its own: such a channel ends as [sendToChannel]
    alone leaves it, whether the sends to the other channels succeed or
    fail; a channel of another team, a disabled one or one not subscribed
    is left as it is.  [sent] and [failed] add up to the number of
    channels handled, and no more delivery attempts are made than
    that. *)
Theorem sendAlert_fans_out :
  forall (tr : Alerts.Transport) (clock : string -> Z) (team : string)
         (k : Alerts.kind) (channels : list Alerts.Channel),
    k <> Alerts.KIncident ->
    let r := Alerts.sendAlert tr clock team k channels in
    (forall i c,
        channels !! i = Some c ->
        fst (fst r) !! i
        = Some (if String.eqb (Alerts.ch_teamId c) team
                   && Alerts.ch_enabled c && Alerts.notifies k c
                then fst (fst (Alerts.sendToChannel tr
                                 (clock (Alerts.ch_id c)) k c))
                else c))
    /\ length (fst (fst r)) = length channels
    /\ (fst (snd r) + snd (snd r)
        = length (List.filter (Alerts.selected team k) channels))%nat
    /\ (length (snd (fst r))
        <= length (List.filter (Alerts.selected team k) channels))%nat.
Proof.
  intros tr clock team k channels _ r. subst r.
  split; [|split; [|split]].
  - intros i c Hc. rewrite sendAlert_channels.
    rewrite list_lookup_fmap, Hc. reflexivity.
  - rewrite sendAlert_channels. apply length_map.
  - pose proof (sendAlert_counts tr clock team k channels) as H.
    destruct (snd (Alerts.sendAlert tr clock team k channels)) as [s f].
    destruct H as [-> ->]. simpl.
    clear. induction channels as [|c rest IH]; [reflexivity|].
    simpl. destruct (Alerts.selected team k c); simpl; [|exact IH].
    destruct (snd (Alerts.sendToChannel tr (clock (Alerts.ch_id c)) k c));
      simpl; lia.
  - rewrite sendAlert_log.
    induction channels as [|c rest IH]; [simpl; lia|].
    simpl. rewrite length_app.
    destruct (Alerts.selected team k c); simpl; [|exact IH].
    pose proof (sendToChannel_at_most_one_attempt tr
                  (clock (Alerts.ch_id c)) k c).
    lia.
Qed.

(** Two channels, the first one's delivery failing: the second is
    handled all the same. *)
Lemma sendAlert_fans_out_witness :
  let r := Alerts.sendAlert
             (fun a => if String.eqb (Alerts.att_channel a) "c3"
                       then Some "ECONNREFUSED" else None)
             (fun _ => 1000) "t1" Alerts.KDown
             [Fixtures.webhook_channel; Samples.mail_channel] in
  Nat.add (fst (snd r)) (snd (snd r))
  = length (List.filter (Alerts.selected "t1" Alerts.KDown)
              [Fixtures.webhook_channel; Samples.mail_channel]).
Proof.
  refine (proj1 (proj2 (proj2
    (sendAlert_fans_out _ (fun _ => 1000) "t1" Alerts.KDown
       [Fixtures.webhook_channel; Samples.mail_channel] _)))).
  discriminate.
Defined.

(** ** The save hook of the incident model *)

(** X18.  The save hook of the incident schema: a document saved as
    'resolved' without [resolvedAt] gets [resolvedAt] from the clock and
    [duration = resolvedAt - startedAt]; any other document is saved as it
    is; and saving again, at any later time, changes nothing more, so a
    resolution time once stored is never moved. *)
Theorem pre_save_hook :
  forall (now later : Z) (i : Incident),
    (i_status i = Resolved ->
     i_resolvedAt i = None ->
     i_resolvedAt (IncidentModel.pre_save now i) = Some now
     /\ i_duration (IncidentModel.pre_save now i) = Some (now - i_startedAt i)
     /\ i_status (IncidentModel.pre_save now i) = Resolved
     /\ i_startedAt (IncidentModel.pre_save now i) = i_startedAt i)
    /\ (i_status i <> Resolved -> IncidentModel.pre_save now i = i)
    /\ (forall t, i_resolvedAt i = Some t -> IncidentModel.pre_save now i = i)
    /\ IncidentModel.pre_save later (IncidentModel.pre_save now i)
       = IncidentModel.pre_save now i.
Proof.
  intros now later i. split; [|split; [|split]].
  - intros Hs Hr. unfold IncidentModel.pre_save. rewrite Hs, Hr.
    repeat split.
  - intros Hs. unfold IncidentModel.pre_save.
    destruct (incident_status_eqb (i_status i) Resolved) eqn:E;
      [apply incident_status_eqb_eq in E; contradiction | reflexivity].
  - intros t Hr. unfold IncidentModel.pre_save. rewrite Hr.
    rewrite andb_false_r. reflexivity.
  - unfold IncidentModel.pre_save.
    destruct (incident_status_eqb (i_status i) Resolved) eqn:E;
      destruct (i_resolvedAt i) eqn:R; simpl; rewrite ?E, ?R; reflexivity.
Qed.

Lemma pre_save_hook_witness :
  IncidentModel.pre_save 5000 Samples.open_incident_0 = Samples.open_incident_0.
Proof.
  refine (proj1 (proj2 (pre_save_hook 5000 6000 Samples.open_incident_0)) _).
  discriminate.
Defined.

(** ** The keyword check: shape of the result *)

(** X19.  What a result of [checkKeyword] tells: a successful result has
    no error and a status code from 200 to 399 and comes from a monitor
    with a non-empty keyword; a request that throws gives a failed result
    with no status code and the error's code, else its message, else
    'Request failed'; a monitor without keyword fails with 'No keyword
    specified' on every response from 200 to 399. *)
Theorem checkKeyword_result_shape :
  forall (toLowerCase : string -> string) (monitor : Keyword.Monitor)
         (o : Keyword.HttpOutcome) (elapsed : Z),
    let r := Keyword.checkKeyword toLowerCase monitor o elapsed in
    Keyword.responseMs r = elapsed
    /\ (Keyword.success r = true ->
        Keyword.error r = None
        /\ JS.str_truthy (Keyword.keyword monitor) = true
        /\ exists sc body,
             o = Keyword.Responded sc body
             /\ 200 <= sc < 400
             /\ Keyword.statusCode r = Some sc)
    /\ (forall code message,
          o = Keyword.Threw code message ->
          Keyword.success r = false
          /\ Keyword.statusCode r = None
          /\ Keyword.keywordFound r = false
          /\ Keyword.error r
             = Some (JS.str_or code (JS.str_or message "Request failed")))
    /\ (forall sc body,
          o = Keyword.Responded sc body ->
          200 <= sc < 400 ->
          JS.str_truthy (Keyword.keyword monitor) = false ->
          Keyword.success r = false
          /\ Keyword.error r = Some "No keyword specified").
Proof.
  intros toLowerCase monitor o elapsed r. subst r.
  split; [|split; [|split]].
  - unfold Keyword.checkKeyword.
    destruct o as [sc body|code message]; [|reflexivity].
    destruct ((sc <? 200) || (sc >=? 400)); [reflexivity|].
    destruct (Keyword.keyword monitor) as [[|c k]|]; try reflexivity.
    destruct (String.eqb _ "contains"); [reflexivity|].
    destruct (String.eqb _ "not_contains"); reflexivity.
  - unfold Keyword.checkKeyword.
    destruct o as [sc body|code message]; [|discriminate].
    destruct ((sc <? 200) || (sc >=? 400)) eqn:Hsc; [discriminate|].
    apply orb_false_iff in Hsc as [H1 H2].
    apply Z.ltb_ge in H1. rewrite Z.geb_leb in H2. apply Z.leb_gt in H2.
    destruct (Keyword.keyword monitor) as [[|c k]|]; try discriminate.
    destruct (String.eqb _ "contains").
    + simpl. intros ->. repeat split. exists sc, body.
      repeat split; lia.
    + destruct (String.eqb _ "not_contains"); [|discriminate].
      simpl. intros H. apply negb_true_iff in H. rewrite H.
      repeat split. exists sc, body. repeat split; lia.
  - intros code message ->. repeat split.
  - intros sc body -> Hsc Hk. unfold Keyword.checkKeyword.
    assert ((sc <? 200) || (sc >=? 400) = false) as ->.
    { apply orb_false_iff. split; [apply Z.ltb_ge; lia|].
      rewrite Z.geb_leb. apply Z.leb_gt. lia. }
    destruct (Keyword.keyword monitor) as [[|c k]|];
      try discriminate; split; reflexivity.
Qed.

Lemma checkKeyword_result_shape_witness :
  Keyword.success
    (Keyword.checkKeyword Text.fold_ascii (Samples.keyword_monitor "contains")
       (Keyword.Threw None (Some "socket hang up")) 7) = false
  /\ Keyword.error
       (Keyword.checkKeyword Text.fold_ascii
          (Samples.keyword_monitor "contains")
          (Keyword.Threw None (Some "socket hang up")) 7)
     = Some "socket hang up".
Proof.
  destruct (proj1 (proj2 (proj2
    (checkKeyword_result_shape Text.fold_ascii
       (Samples.keyword_monitor "contains")
       (Keyword.Threw None (Some "socket hang up")) 7)))
       None (Some "socket hang up") eq_refl) as (H1 & _ & _ & H4).
  split; [exact H1 | exact H4].
Defined.

(** X20.  On one and the same response with a status code from 200 to
    399, a 'contains' monitor and a 'not_contains' monitor for the same
    non-empty keyword never agree: exactly one of the two checks
    succeeds, and the one that fails says why. *)
Theorem contains_and_not_contains_are_opposite :
  forall (toLowerCase : string -> string) (m1 m2 : Keyword.Monitor)
         (kw : string) (sc : Z) (body : string) (t1 t2 : Z),
    Keyword.keyword m1 = Some kw ->
    Keyword.keyword m2 = Some kw ->
    kw <> EmptyString ->
    Keyword.keywordType m1 = Some "contains" ->
    Keyword.keywordType m2 = Some "not_contains" ->
    200 <= sc < 400 ->
    let r1 := Keyword.checkKeyword toLowerCase m1
                (Keyword.Responded sc body) t1 in
    let r2 := Keyword.checkKeyword toLowerCase m2
                (Keyword.Responded sc body) t2 in
    Keyword.success r1 = negb (Keyword.success r2)
    /\ Keyword.keywordFound r1 = Keyword.keywordFound r2
    /\ (Keyword.success r1 = false -> exists msg, Keyword.error r1 = Some msg)
    /\ (Keyword.success r2 = false -> exists msg, Keyword.error r2 = Some msg).
Proof.
  intros toLowerCase m1 m2 kw sc body t1 t2 Hk1 Hk2 Hne Ht1 Ht2 Hsc r1 r2.
  subst r1 r2. unfold Keyword.checkKeyword.
  rewrite Hk1, Hk2, Ht1, Ht2.
  assert ((sc <? 200) || (sc >=? 400) = false) as ->.
  { apply orb_false_iff. split; [apply Z.ltb_ge; lia|].
    rewrite Z.geb_leb. apply Z.leb_gt. lia. }
  destruct kw as [|c k]; [contradiction|].
  cbn [JS.str_or].
  change (String.eqb "contains" "contains") with true.
  change (String.eqb "not_contains" "contains") with false.
  change (String.eqb "not_contains" "not_contains") with true.
  cbn iota.
  destruct (Keyword.found toLowerCase body (String c k)); simpl;
    repeat split; try discriminate; intros _; eexists; reflexivity.
Qed.

Lemma contains_and_not_contains_are_opposite_witness :
  Keyword.success
    (Keyword.checkKeyword Text.fold_ascii (Samples.keyword_monitor "contains")
       (Keyword.Responded 200 "status: ok") 15)
  = negb (Keyword.success
            (Keyword.checkKeyword Text.fold_ascii
               (Samples.keyword_monitor "not_contains")
               (Keyword.Responded 200 "status: ok") 15)).
Proof.
  refine (proj1 (contains_and_not_contains_are_opposite Text.fold_ascii
                   (Samples.keyword_monitor "contains")
                   (Samples.keyword_monitor "not_contains")
                   "OK" 200 "status: ok" 15 15
                   eq_refl eq_refl _ eq_refl eq_refl _)).
  - discriminate.
  - lia.
Defined.

(** ** The heartbeat check *)

Lemma round_div_1000_near (n : Z) :
  n - 500 < 1000 * Heartbeat.round_div_1000 n <= n + 500.
Proof.
  unfold Heartbeat.round_div_1000. Z.div_mod_to_equations. lia.
Qed.

(** X21.  [checkHeartbeat] of a monitor that has pinged: it succeeds
    exactly while no more than the expected interval (300 seconds when
    none is configured) plus 30 seconds have passed since the last ping,
    the bound included; so once it fails it keeps failing until a new
    ping arrives; a failing check reports 'Heartbeat missed by N
    seconds' with N at least 30.  No request is made: [responseMs] is
    0. *)
Theorem checkHeartbeat_window :
  forall (now last : Z) (hb : Heartbeat.Monitor),
    Heartbeat.lastHeartbeat hb = Some last ->
    let interval := JS.num_or (Heartbeat.heartbeatInterval hb) 300 in
    let r := Heartbeat.checkHeartbeat now hb in
    (Heartbeat.success r = true <-> now - last <= (interval + 30) * 1000)
    /\ (Heartbeat.success r = true -> Heartbeat.error r = None)
    /\ (Heartbeat.success r = false ->
        exists n,
          30 <= n
          /\ Heartbeat.error r
             = Some ("Heartbeat missed by " +:+ show_Z n +:+ " seconds"))
    /\ (forall later,
          now <= later ->
          Heartbeat.success r = false ->
          Heartbeat.success (Heartbeat.checkHeartbeat later hb) = false)
    /\ Heartbeat.responseMs r = 0
    /\ Heartbeat.r_lastHeartbeat r = Some last.
Proof.
  intros now last hb Hl interval r. subst r.
  unfold Heartbeat.checkHeartbeat. rewrite Hl. fold interval.
  destruct (Z.leb_spec (now - last) ((interval + 30) * 1000)) as [Hle|Hgt];
    simpl.
  - repeat split; try discriminate; try tauto.
  - split; [split; [discriminate | lia]|].
    split; [discriminate|]. split; [|split; [|split; reflexivity]].
    + intros _. eexists. split; [|reflexivity].
      pose proof (round_div_1000_near (now - last - interval * 1000)). lia.
    + intros later Hlater _.
      destruct (Z.leb_spec (later - last) ((interval + 30) * 1000));
        [lia | reflexivity].
Qed.

Lemma checkHeartbeat_window_witness :
  Heartbeat.success
    (Heartbeat.checkHeartbeat 330000
       {| Heartbeat.lastHeartbeat := Some 0;
          Heartbeat.heartbeatInterval := None |}) = true.
Proof.
  apply (proj1 (checkHeartbeat_window 330000 0
                  {| Heartbeat.lastHeartbeat := Some 0;
                     Heartbeat.heartbeatInterval := None |} eq_refl)).
  vm_compute. discriminate.
Defined.

(** ** The next run of a cron expression *)

Section CronRuns.

Import JSDate.

Variable tz : Z.

(** Putting [m] into the minute of a local time. *)
Lemma minute_put (L m : Z) :
  0 <= m <= 59 ->
  MinFromTime (L + (m - MinFromTime L) * 60000) = m.
Proof.
  intros H. unfold MinFromTime, msPerMinute.
  Z.div_mod_to_equations. lia.
Qed.

Lemma hour_put (L h : Z) :
  0 <= h <= 23 ->
  HourFromTime (L + (h - HourFromTime L) * 3600000) = h
  /\ MinFromTime (L + (h - HourFromTime L) * 3600000) = MinFromTime L.
Proof.
  intros H. unfold HourFromTime, MinFromTime, msPerHour, msPerMinute.
  Z.div_mod_to_equations. lia.
Qed.

Lemma hours_later (L k : Z) :
  MinFromTime (L + k * 3600000) = MinFromTime L.
Proof.
  unfold MinFromTime, msPerMinute. Z.div_mod_to_equations. lia.
Qed.

Lemma days_later (L k : Z) :
  HourFromTime (L + k * 86400000) = HourFromTime L
  /\ MinFromTime (L + k * 86400000) = MinFromTime L.
Proof.
  unfold HourFromTime, MinFromTime, msPerHour, msPerMinute.
  Z.div_mod_to_equations. lia.
Qed.

(** The start of the minute of a local time. *)
Lemma minute_start (L : Z) :
  SecFromTime (L - L mod 60000) = 0
  /\ msFromTime (L - L mod 60000) = 0
  /\ MinFromTime (L - L mod 60000) = MinFromTime L
  /\ HourFromTime (L - L mod 60000) = HourFromTime L.
Proof.
  unfold SecFromTime, msFromTime, MinFromTime, HourFromTime,
    msPerSecond, msPerMinute, msPerHour.
  Z.div_mod_to_equations. lia.
Qed.

(** [setSeconds(0)] and [setMilliseconds(0)] go to the start of the
    local minute. *)
Lemma whole_minute_floor u :
  -8000000000000000 <= u <= 8600000000000000 ->
  setMilliseconds tz 0 (setSeconds tz 0 (Some u))
  = Some (u - (u + tz) mod 60000).
Proof.
  intros H.
  unfold setSeconds, LocalTime, UTC. rewrite seconds_replaced.
  unfold msPerSecond.
  set (t1 := u + tz + (0 - SecFromTime (u + tz)) * 1000) in *.
  assert (t1 = u + tz - ((u + tz) mod 60000 - (u + tz) mod 1000)
          /\ msFromTime t1 = (u + tz) mod 1000
          /\ 0 <= (u + tz) mod 60000 < 60000
          /\ 0 <= (u + tz) mod 1000 <= (u + tz) mod 60000) as (E1 & E2 & R1 & R2).
  { subst t1. unfold SecFromTime, msFromTime, msPerSecond.
    Z.div_mod_to_equations. lia. }
  rewrite TimeClip_small by lia.
  unfold setMilliseconds, LocalTime, UTC.
  replace (t1 - tz + tz) with t1 by lia.
  rewrite millis_replaced, E2.
  rewrite TimeClip_small by lia.
  f_equal. lia.
Qed.

(** The minute block with a number in the field. *)
Lemma set_minute_field_numeric now minute m :
  Cronjob.roomy now ->
  Passive.numeric_field 59 minute m ->
  exists j, Cronjob.set_minute_field tz now minute (Some now)
            = Some (now + 60000 * j)
            /\ 1 <= j <= 60
            /\ MinFromTime (now + 60000 * j + tz) = m.
Proof.
  intros Hn (Hns & Hp & Hm). unfold Cronjob.set_minute_field.
  rewrite (plain_field_not_star _ _ Hp), Hp. cbn [negb].
  pose proof (field_ranges (now + tz)) as (_ & Hmin & _).
  pose proof (minute_put (now + tz) m Hm) as Hput.
  unfold Cronjob.roomy, msPerMinute, msPerHour in *.
  rewrite setMinutes_valid by (unfold msPerMinute; lia).
  unfold msPerMinute. cbn [le].
  destruct (Z.leb_spec (now + (m - MinFromTime (now + tz)) * 60000) now).
  - rewrite addHour_valid by (unfold msPerHour; lia).
    exists (m - MinFromTime (now + tz) + 60).
    unfold msPerHour. split; [f_equal; lia|]. split; [lia|].
    replace (now + 60000 * (m - MinFromTime (now + tz) + 60) + tz)
      with (now + tz + (m - MinFromTime (now + tz)) * 60000 + 1 * 3600000)
      by lia.
    rewrite hours_later. exact Hput.
  - exists (m - MinFromTime (now + tz)).
    split; [f_equal; lia|]. split; [lia|].
    replace (now + 60000 * (m - MinFromTime (now + tz)) + tz)
      with (now + tz + (m - MinFromTime (now + tz)) * 60000) by lia.
    exact Hput.
Qed.

(** Setting the hour stays within a day of a base that is at most an
    hour ahead. *)
Lemma hour_put_bound (L j h : Z) :
  0 <= j <= 60 -> 0 <= h <= 23 ->
  L + 60000 * j + (h - HourFromTime (L + 60000 * j)) * 3600000
  <= L + 86400000.
Proof.
  intros Hj Hh. unfold HourFromTime, msPerHour.
  Z.div_mod_to_equations. lia.
Qed.

(** The hour block with a number in the field. *)
Lemma set_hour_field_numeric now hour j h :
  Cronjob.roomy now ->
  0 <= j <= 60 ->
  Passive.numeric_field 23 hour h ->
  exists i, Cronjob.set_hour_field tz now hour (Some (now + 60000 * j))
            = Some (now + 60000 * i)
            /\ 1 <= i <= 1440
            /\ HourFromTime (now + 60000 * i + tz) = h
            /\ MinFromTime (now + 60000 * i + tz)
               = MinFromTime (now + 60000 * j + tz).
Proof.
  intros Hn Hj (Hns & Hp & Hh). unfold Cronjob.set_hour_field.
  rewrite (plain_field_not_star _ _ Hp), Hp. cbn [negb].
  pose proof (field_ranges (now + 60000 * j + tz)) as (Hhr & _).
  pose proof (hour_put (now + 60000 * j + tz) h Hh) as (Hput1 & Hput2).
  pose proof (hour_put_bound (now + tz) j h Hj Hh) as Hb.
  replace (now + tz + 60000 * j) with (now + 60000 * j + tz) in Hb by lia.
  unfold Cronjob.roomy, msPerMinute, msPerHour, msPerDay in *.
  rewrite setHours_valid by (unfold msPerHour; lia).
  unfold msPerHour. cbn [le].
  set (k := h - HourFromTime (now + 60000 * j + tz)) in *.
  destruct (Z.leb_spec (now + 60000 * j + k * 3600000) now).
  - rewrite addDay_valid by (unfold msPerDay; lia).
    exists (j + 60 * k + 1440). unfold msPerDay.
    split; [f_equal; lia|]. split; [lia|].
    replace (now + 60000 * (j + 60 * k + 1440) + tz)
      with (now + 60000 * j + tz + k * 3600000 + 1 * 86400000) by lia.
    destruct (days_later (now + 60000 * j + tz + k * 3600000) 1) as (-> & ->).
    split; assumption.
  - exists (j + 60 * k).
    split; [f_equal; lia|]. split; [lia|].
    replace (now + 60000 * (j + 60 * k) + tz)
      with (now + 60000 * j + tz + k * 3600000) by lia.
    split; assumption.
Qed.


Lemma first_in_the_hour (L N T : Z) :
  N mod 60000 = 0 ->
  SecFromTime T = 0 -> msFromTime T = 0 ->
  MinFromTime T = MinFromTime N ->
  N <= L + 3600000 -> L < T -> N <= T.
Proof.
  unfold SecFromTime, msFromTime, MinFromTime, msPerSecond, msPerMinute.
  intros. Z.div_mod_to_equations. lia.
Qed.

Lemma first_in_the_day (L N T : Z) :
  N mod 60000 = 0 ->
  SecFromTime T = 0 -> msFromTime T = 0 ->
  MinFromTime T = MinFromTime N ->
  HourFromTime T = HourFromTime N ->
  N <= L + 86400000 -> L < T -> N <= T.
Proof.
  unfold SecFromTime, msFromTime, MinFromTime, HourFromTime,
    msPerSecond, msPerMinute, msPerHour.
  intros. Z.div_mod_to_equations. lia.
Qed.

Lemma minute_start_mod (L : Z) :
  (L - L mod 60000) mod 60000 = 0 /\ 0 <= L mod 60000 < 60000.
Proof. Z.div_mod_to_equations. lia. Qed.


Lemma plain_field_cases hi field :
  Cronjob.plain_field hi field ->
  field = "*" \/ exists v, Passive.numeric_field hi field v.
Proof.
  intros [-> | (v & Hp & Hv)]; [left; reflexivity|].
  right. exists v. split; [|split; assumption].
  intros ->. discriminate Hp.
Qed.

(** The date after the minute and the hour block. *)
Lemma cron_blocks now minute hour :
  Cronjob.roomy now ->
  Cronjob.plain_field 59 minute ->
  Cronjob.plain_field 23 hour ->
  exists i,
    Cronjob.set_hour_field tz now hour
      (Cronjob.set_minute_field tz now minute (Some now))
    = Some (now + 60000 * i)
    /\ 0 <= i <= 1440
    /\ (minute = "*" -> hour = "*" -> i = 0)
    /\ (minute <> "*" \/ hour <> "*" -> 1 <= i)
    /\ (hour = "*" -> i <= 60)
    /\ (forall m, Passive.numeric_field 59 minute m ->
                  MinFromTime (now + 60000 * i + tz) = m)
    /\ (forall h, Passive.numeric_field 23 hour h ->
                  HourFromTime (now + 60000 * i + tz) = h).
Proof.
  intros Hn Hmi Hh.
  assert (exists j, Cronjob.set_minute_field tz now minute (Some now)
                    = Some (now + 60000 * j)
                    /\ 0 <= j <= 60
                    /\ (minute = "*" -> j = 0)
                    /\ (minute <> "*" -> 1 <= j)
                    /\ (forall m, Passive.numeric_field 59 minute m ->
                                  MinFromTime (now + 60000 * j + tz) = m))
    as (j & -> & Hj & Hj0 & Hj1 & Hjm).
  { destruct (plain_field_cases _ _ Hmi) as [-> | (m & Hnum)].
    - exists 0. split; [unfold Cronjob.set_minute_field; simpl; f_equal; lia|].
      split; [lia|].
      split; [reflexivity|]. split; [contradiction|].
      intros m (Hns & _). contradiction.
    - destruct (set_minute_field_numeric now minute m Hn Hnum)
        as (j & E & Hj & Hm).
      exists j. split; [exact E|]. split; [lia|].
      split; [intros ->; destruct Hnum as (Hns & _); contradiction|].
      split; [lia|].
      intros m' (_ & Hp' & _). destruct Hnum as (_ & Hp & _).
      rewrite Hp in Hp'. injection Hp' as <-. exact Hm. }
  destruct (plain_field_cases _ _ Hh) as [-> | (h & Hnum)].
  - exists j. split; [reflexivity|]. split; [lia|].
    split; [auto|]. split; [intros [H|H]; [auto | contradiction]|].
    split; [lia|]. split; [exact Hjm|].
    intros h (Hns & _). contradiction.
  - destruct (set_hour_field_numeric now hour j h Hn Hj Hnum)
      as (i & E & Hi & Hhr & Hmin).
    exists i. split; [exact E|]. split; [lia|].
    split; [intros _ ->; destruct Hnum as (Hns & _); contradiction|].
    split; [lia|].
    split; [intros ->; destruct Hnum as (Hns & _); contradiction|].
    split.
    + intros m Hm. rewrite Hmin. apply Hjm, Hm.
    + intros h' (_ & Hp' & _). destruct Hnum as (_ & Hp & _).
      rewrite Hp in Hp'. injection Hp' as <-. exact Hhr.
Qed.

Lemma field_admits_numeric hi field v w :
  Passive.numeric_field hi field v ->
  Passive.field_admits field w -> w = v.
Proof.
  intros (Hns & Hp & _) [-> | Hw]; [contradiction|].
  rewrite Hp in Hw. injection Hw as ->. reflexivity.
Qed.

(** The date [getNextCronRun] returns, with plain minute and hour
    fields: the start of the minute of [now] plus [i] minutes. *)
Lemma getNextCronRun_value now expr minute hour dom month dow :
  Cronjob.roomy now ->
  Text.split_ws (Text.trim expr) = [minute; hour; dom; month; dow] ->
  Cronjob.plain_field 59 minute ->
  Cronjob.plain_field 23 hour ->
  exists i,
    Cronjob.getNextCronRun tz now expr
    = Some (Some (now + 60000 * i - (now + tz) mod 60000))
    /\ 0 <= i <= 1440
    /\ (minute = "*" -> hour = "*" -> i = 0)
    /\ (minute <> "*" \/ hour <> "*" -> 1 <= i)
    /\ (hour = "*" -> i <= 60)
    /\ (forall m, Passive.numeric_field 59 minute m ->
                  MinFromTime (now + 60000 * i + tz) = m)
    /\ (forall h, Passive.numeric_field 23 hour h ->
                  HourFromTime (now + 60000 * i + tz) = h).
Proof.
  intros Hn Hs Hmi Hh. unfold Cronjob.getNextCronRun. rewrite Hs.
  destruct (cron_blocks now minute hour Hn Hmi Hh) as (i & E & Hi & Hrest).
  cbv zeta. rewrite E.
  rewrite whole_minute_floor by (unfold Cronjob.roomy in Hn; lia).
  exists i. split; [|split; assumption].
  do 3 f_equal.
  replace (now + 60000 * i + tz) with (now + tz + i * 60000) by lia.
  apply Z_mod_plus_full.
Qed.

(** After it [now] is behind, unless both fields are stars. *)
Lemma getNextCronRun_after now expr minute hour dom month dow :
  Cronjob.roomy now ->
  Text.split_ws (Text.trim expr) = [minute; hour; dom; month; dow] ->
  Cronjob.plain_field 59 minute ->
  Cronjob.plain_field 23 hour ->
  exists next,
    Cronjob.getNextCronRun tz now expr = Some (Some next)
    /\ (minute = "*" -> hour = "*" -> now - 60000 < next <= now)
    /\ (minute <> "*" \/ hour <> "*" -> now < next <= now + 86400000).
Proof.
  intros Hn Hs Hmi Hh.
  destruct (getNextCronRun_value now expr minute hour dom month dow
              Hn Hs Hmi Hh) as (i & E & Hi & Hi0 & Hi1 & _).
  destruct (minute_start_mod (now + tz)) as (_ & Hrange).
  eexists. split; [exact E|]. split.
  - intros H1 H2. specialize (Hi0 H1 H2). lia.
  - intros H. specialize (Hi1 H). lia.
Qed.

End CronRuns.



(** ** Pings *)

Lemma findOne_Some token ty coll i d :
  Passive.findOne token ty coll = Some (i, d) ->
  coll !! i = Some d
  /\ Passive.heartbeatToken d = Some token
  /\ Passive.type d = ty
  /\ Passive.active d = true.
Proof.
  unfold Passive.findOne. intros H.
  apply list_find_Some in H as (Hl & Hm & _).
  split; [exact Hl|].
  unfold Passive.matches in Hm.
  apply andb_true_iff in Hm as (Hm & Ha).
  apply andb_true_iff in Hm as (Ht & Hty).
  destruct (Passive.heartbeatToken d) as [t|]; [|discriminate].
  apply String.eqb_eq in Ht, Hty. subst. auto.
Qed.

Lemma findOne_None token ty coll :
  (forall d, d ∈ coll ->
             Passive.heartbeatToken d = Some token ->
             Passive.type d = ty ->
             Passive.active d = false) ->
  Passive.findOne token ty coll = None.
Proof.
  intros H. unfold Passive.findOne. apply list_find_None.
  apply Forall_forall. intros d Hd Hm.
  unfold Passive.matches in Hm.
  apply andb_true_iff in Hm as (Hm & Ha).
  apply andb_true_iff in Hm as (Ht & Hty).
  destruct (Passive.heartbeatToken d) as [t|] eqn:E; [|discriminate].
  apply String.eqb_eq in Ht, Hty. subst.
  rewrite (H d Hd E eq_refl) in Ha. discriminate.
Qed.

Lemma pre_save_with_token fresh d :
  JS.str_truthy (Passive.heartbeatToken d) = true ->
  Passive.pre_save fresh d = d.
Proof.
  intros H. unfold Passive.pre_save. rewrite H.
  rewrite andb_false_r. reflexivity.
Qed.

Lemma pre_save_other_type fresh d :
  Passive.type d <> "heartbeat" ->
  Passive.pre_save fresh d = d.
Proof.
  intros H. unfold Passive.pre_save.
  destruct (String.eqb_spec (Passive.type d) "heartbeat"); [contradiction|].
  reflexivity.
Qed.

Lemma checkHeartbeat_success_iff now last hb :
  Heartbeat.lastHeartbeat hb = Some last ->
  Heartbeat.success (Heartbeat.checkHeartbeat now hb) = true
  <-> now - last <= (JS.num_or (Heartbeat.heartbeatInterval hb) 300 + 30) * 1000.
Proof.
  intros Hl. unfold Heartbeat.checkHeartbeat. rewrite Hl.
  destruct (Z.leb_spec (now - last)
              ((JS.num_or (Heartbeat.heartbeatInterval hb) 300 + 30) * 1000));
    simpl; split; intros; try lia; try reflexivity; discriminate.
Qed.

(** X23.  A ping with the token of an active heartbeat monitor is
    recorded on that monitor and on no other document: last heartbeat and
    last check at the two clock readings, status 'up', no failures, no
    error; the token stays valid; and from then on [checkHeartbeat] of
    the document succeeds up to and including the interval (300 seconds
    when none is configured) plus 30 seconds after the recorded time, and
    fails afterwards.  A ping whose token belongs to no active heartbeat
    monitor (a paused one, a cronjob monitor) is refused and nothing is
    written. *)
Theorem recordHeartbeat_then_checkHeartbeat :
  forall (t_heartbeat t_checked : Z) (fresh token : string)
         (coll : list Passive.Doc),
    token <> EmptyString ->
    (forall (i : nat) (d : Passive.Doc),
        Passive.findOne token "heartbeat" coll = Some (i, d) ->
        exists d',
          Passive.recordHeartbeat t_heartbeat t_checked fresh token coll
          = (<[i := d']> coll,
             Passive.HbRecorded (Passive._id d) (Passive.name d))
          /\ Passive.lastHeartbeat d' = Some t_heartbeat
          /\ Passive.lastChecked d' = Some t_checked
          /\ Passive.lastStatus d' = Some Up
          /\ Passive.consecutiveFailures d' = Some 0
          /\ Passive.lastError d' = None
          /\ Passive.heartbeatInterval d' = Passive.heartbeatInterval d
          /\ Passive.findOne token "heartbeat" (<[i := d']> coll)
             = Some (i, d')
          /\ (forall j, j <> i -> <[i := d']> coll !! j = coll !! j)
          /\ (forall later,
                Heartbeat.success
                  (Heartbeat.checkHeartbeat later (Passive.heartbeat_view d'))
                = true
                <-> later - t_heartbeat
                    <= (JS.num_or (Passive.heartbeatInterval d) 300 + 30)
                       * 1000))
    /\ ((forall d, d ∈ coll ->
                   Passive.heartbeatToken d = Some token ->
                   Passive.type d = "heartbeat" ->
                   Passive.active d = false) ->
        Passive.recordHeartbeat t_heartbeat t_checked fresh token coll
        = (coll, Passive.HbInvalid "Invalid heartbeat token")).
Proof.
  intros t1 t2 fresh token coll Hne. split.
  - intros i d Hfind.
    pose proof (findOne_Some _ _ _ _ _ Hfind) as (Hl & Htok & Hty & Hact).
    assert (JS.str_truthy (Some token) = true) as Htruthy.
    { destruct token; [contradiction | reflexivity]. }
    exists (Passive.beat t1 t2 d).
    unfold Passive.recordHeartbeat. rewrite Hfind.
    rewrite pre_save_with_token by (cbn [Passive.beat Passive.heartbeatToken];
                                    rewrite Htok; exact Htruthy).
    split; [reflexivity|].
    do 6 (split; [reflexivity|]).
    split; [|split].
    + unfold Passive.findOne in *.
      apply list_find_Some in Hfind as (_ & Hm & Hfirst).
      apply list_find_Some. split; [|split].
      * apply list_lookup_insert_eq. apply lookup_lt_Some in Hl. exact Hl.
      * exact Hm.
      * intros j y Hj Hlt. rewrite list_lookup_insert_ne in Hj by lia.
        apply (Hfirst j y Hj Hlt).
    + intros j Hj. apply list_lookup_insert_ne. congruence.
    + intros later. apply checkHeartbeat_success_iff. reflexivity.
  - intros Hnone. unfold Passive.recordHeartbeat.
    rewrite (findOne_None _ _ _ Hnone). reflexivity.
Qed.

Lemma five_fields_nonempty expr a b c d e :
  Text.split_ws (Text.trim expr) = [a; b; c; d; e] -> expr <> EmptyString.
Proof. intros H ->. discriminate H. Qed.

(** The cronjob check of a monitor that has reported and has its
    expected run stored. *)
Lemma checkCronjob_reported tz later inner2 monitor expr last next :
  Cronjob.cronExpression monitor = Some expr ->
  expr <> EmptyString ->
  Cronjob.lastCronRun monitor = Some last ->
  Cronjob.expectedCronRun monitor = Some next ->
  Z.abs (next + JS.num_or (Cronjob.cronGracePeriod monitor) 60 * 1000)
  <= 8640000000000000 ->
  Cronjob.checkCronjob tz later inner2 monitor
  = if (later >? next + JS.num_or (Cronjob.cronGracePeriod monitor) 60 * 1000)
       && (last <? next)
    then {| Cronjob.success := false;
            Cronjob.error :=
              Some ("Cron job missed at " +:+ JSDate.toISOString next);
            Cronjob.responseMs := 0; Cronjob.r_lastCronRun := Some last |}
    else {| Cronjob.success := true; Cronjob.error := None;
            Cronjob.responseMs := 0; Cronjob.r_lastCronRun := Some last |}.
Proof.
  intros He Hne Hl Hx Hb. unfold Cronjob.checkCronjob.
  rewrite He, Hl, Hx. destruct expr as [|c s]; [contradiction|].
  unfold Cronjob.plus_ms. rewrite (TimeClip_small _ Hb). reflexivity.
Qed.



Lemma recordHeartbeat_then_checkHeartbeat_witness :
  exists d',
    fst (Passive.recordHeartbeat 1000 1001 "f00d" "hb-1"
           PassiveFixtures.passive_monitors) !! 0%nat = Some d'
    /\ Heartbeat.success
         (Heartbeat.checkHeartbeat 91000 (Passive.heartbeat_view d')) = true.
Proof.
  destruct (proj1 (recordHeartbeat_then_checkHeartbeat 1000 1001 "f00d" "hb-1"
                     PassiveFixtures.passive_monitors ltac:(discriminate))
              0%nat PassiveFixtures.beacon eq_refl)
    as (d' & E & _ & _ & _ & _ & _ & _ & _ & _ & Hcheck).
  exists d'. split.
  - rewrite E. reflexivity.
  - apply Hcheck. vm_compute. discriminate.
Defined.


(** ** Validation *)

Lemma push_if_nil c msg errors :
  Validate.push_if c msg errors = [] <-> c = false /\ errors = [].
Proof.
  unfold Validate.push_if. destruct c.
  - split; [|intros [H _]; discriminate].
    intros H. apply app_eq_nil in H as [_ H]. discriminate.
  - tauto.
Qed.

Lemma length_zero_iff {A} (l : list A) : Nat.eqb (length l) 0 = true <-> l = [].
Proof. destruct l; simpl; split; intros; congruence. Qed.

(** X25.  [validateMonitorConfig]: a configuration is valid exactly when
    no error is listed.  A valid keyword monitor has a URL that starts
    with 'http' and a keyword, so that [checkKeyword] never answers a
    response with 'No keyword specified'; a valid cronjob monitor has an
    expression, so that [checkCronjob] never reports 'No cron expression
    specified'; a valid port monitor has a host and a port from 1 to
    65535.  An HTTP monitor without URL gets two messages for the one
    omission.  A type that is none of the seven known ones is valid
    whatever else is configured. *)
Theorem validateMonitorConfig_guards_the_checks :
  forall (monitor : Validate.Config),
    let v := Validate.validateMonitorConfig monitor in
    (Validate.valid v = true <-> Validate.errors v = [])
    /\ (Validate.valid v = true ->
        Validate.type monitor = Some "keyword" ->
        (exists u, Validate.url monitor = Some u
                   /\ String.prefix "http" u = true)
        /\ forall (toLowerCase : string -> string) (km : Keyword.Monitor)
                  (sc : Z) (body : string) (ms : Z),
             Keyword.keyword km = Validate.keyword monitor ->
             Keyword.error
               (Keyword.checkKeyword toLowerCase km
                  (Keyword.Responded sc body) ms)
             <> Some "No keyword specified")
    /\ (Validate.valid v = true ->
        Validate.type monitor = Some "cronjob" ->
        forall (cm : Cronjob.Monitor) (tz now inner : Z),
          Cronjob.cronExpression cm = Validate.cronExpression monitor ->
          Cronjob.error (Cronjob.checkCronjob tz now inner cm)
          <> Some "No cron expression specified")
    /\ (Validate.valid v = true ->
        Validate.type monitor = Some "port" ->
        JS.str_truthy (Validate.url monitor) = true
        /\ exists p, Validate.port monitor = Some p /\ 1 <= p <= 65535)
    /\ (JS.str_or (Validate.type monitor) "http" = "http" ->
        Validate.url monitor = None ->
        Validate.errors v
        = ["URL is required"; "URL must start with http:// or https://"])
    /\ (forall t,
          Validate.type monitor = Some t ->
          ~ In t ["http"; "keyword"; "ping"; "port"; "dns"; "heartbeat";
                  "cronjob"; ""] ->
          Validate.valid v = true).
Proof.
  intros monitor v. subst v.
  split; [apply length_zero_iff|].
  split; [|split; [|split; [|split]]].
  - intros Hv Hty. apply length_zero_iff in Hv.
    unfold Validate.validateMonitorConfig in Hv. rewrite Hty in Hv.
    cbn [JS.str_or] in Hv.
    change (String.eqb "keyword" "http") with false in Hv.
    change (String.eqb "keyword" "keyword") with true in Hv.
    cbn [orb andb Validate.errors] in Hv.
    apply push_if_nil in Hv as (Hk & Hv).
    apply push_if_nil in Hv as (Hh & Hv).
    apply negb_false_iff in Hk.
    split.
    + unfold Validate.not_http in Hh.
      destruct (Validate.url monitor) as [u|]; [|discriminate].
      exists u. split; [reflexivity|]. apply negb_false_iff, Hh.
    + intros toLowerCase km sc body ms Hkm. unfold Keyword.checkKeyword.
      rewrite Hkm.
      destruct (Validate.keyword monitor) as [[|c k]|]; try discriminate.
      destruct ((sc <? 200) || (sc >=? 400));
        [simpl; rewrite append_cons; congruence|].
      destruct (String.eqb _ "contains").
      * simpl. destruct (Keyword.found toLowerCase body (String c k));
          rewrite ?append_cons; congruence.
      * destruct (String.eqb _ "not_contains"); simpl; [|congruence].
        destruct (Keyword.found toLowerCase body (String c k)); simpl;
          rewrite ?append_cons; congruence.
  - intros Hv Hty cm tz now inner Hcm. apply length_zero_iff in Hv.
    unfold Validate.validateMonitorConfig in Hv. rewrite Hty in Hv.
    cbn [JS.str_or] in Hv.
    change (String.eqb "cronjob" "http") with false in Hv.
    change (String.eqb "cronjob" "keyword") with false in Hv.
    change (String.eqb "cronjob" "ping") with false in Hv.
    change (String.eqb "cronjob" "port") with false in Hv.
    change (String.eqb "cronjob" "dns") with false in Hv.
    change (String.eqb "cronjob" "heartbeat") with false in Hv.
    change (String.eqb "cronjob" "cronjob") with true in Hv.
    cbn [orb Validate.errors] in Hv.
    apply push_if_nil in Hv as (Hk & _). apply negb_false_iff in Hk.
    unfold Cronjob.checkCronjob. rewrite Hcm.
    destruct (Validate.cronExpression monitor) as [[|c k]|]; try discriminate.
    destruct (Cronjob.lastCronRun cm) as [last|].
    + destruct (match Cronjob.expectedCronRun cm with
                | Some e => Some (Some e)
                | None => Cronjob.getNextCronRun tz inner (String c k)
                end) as [expected|]; [|simpl; congruence].
      destruct (_ && _); simpl; [|congruence].
      rewrite append_cons. congruence.
    + destruct (Cronjob.getNextCronRun tz inner (String c k)) as [expected|];
        [|simpl; congruence].
      destruct (JSDate.gt _ _); simpl; congruence.
  - intros Hv Hty. apply length_zero_iff in Hv.
    unfold Validate.validateMonitorConfig in Hv. rewrite Hty in Hv.
    cbn [JS.str_or] in Hv.
    change (String.eqb "port" "http") with false in Hv.
    change (String.eqb "port" "keyword") with false in Hv.
    change (String.eqb "port" "ping") with false in Hv.
    change (String.eqb "port" "port") with true in Hv.
    cbn [orb Validate.errors] in Hv.
    apply push_if_nil in Hv as (Hr & Hv).
    apply push_if_nil in Hv as (Hp & Hv).
    apply push_if_nil in Hv as (Hu & _).
    split; [apply negb_false_iff, Hu|].
    unfold Validate.no_port, Validate.port_out_of_range in *.
    destruct (Validate.port monitor) as [p|]; [|discriminate].
    exists p. split; [reflexivity|].
    apply orb_false_iff in Hr as [H1 H2].
    apply Z.ltb_ge in H1. rewrite Z.gtb_ltb in H2. apply Z.ltb_ge in H2. lia.
  - intros Hty Hu. unfold Validate.validateMonitorConfig.
    rewrite Hty, Hu. reflexivity.
  - intros t Hty Hnot. apply length_zero_iff.
    unfold Validate.validateMonitorConfig. rewrite Hty.
    assert (JS.str_or (Some t) "http" = t) as ->.
    { destruct t; [|reflexivity]. exfalso. apply Hnot. simpl. tauto. }
    repeat match goal with
           | |- context [String.eqb t ?s] =>
               destruct (String.eqb_spec t s) as [->|_];
               [exfalso; apply Hnot; simpl; tauto|]
           end.
    reflexivity.
Qed.


Lemma validateMonitorConfig_guards_the_checks_witness :
  Validate.valid (Validate.validateMonitorConfig ConfigFixtures.port_config)
  = true
  /\ exists p, Validate.port ConfigFixtures.port_config = Some p
               /\ 1 <= p <= 65535.
Proof.
  split; [reflexivity|].
  apply (proj1 (proj2 (proj2 (proj2
    (validateMonitorConfig_guards_the_checks ConfigFixtures.port_config))))
    eq_refl eq_refl).
Defined.


(** ** Job data *)

Lemma copy_lookup monitor keys base k :
  foldr (Queue.copy monitor) base keys !! k
  = if decide (k ∈ keys)
    then match monitor !! k with
         | Some v => Some v
         | None => base !! k
         end
    else base !! k.
Proof.
  induction keys as [|k' keys IH]; simpl.
  - reflexivity.
  - unfold Queue.copy at 1.
    destruct (decide (k = k')) as [->|Hne].
    + rewrite decide_True by (apply elem_of_cons; auto).
      destruct (monitor !! k') as [v|] eqn:E.
      * apply lookup_insert_eq.
      * rewrite IH. destruct (decide (k' ∈ keys)); reflexivity.
    + assert (foldr (Queue.copy monitor) base keys !! k
              = match monitor !! k' with
                | Some v => <[k' := v]> (foldr (Queue.copy monitor) base keys)
                | None => foldr (Queue.copy monitor) base keys
                end !! k) as <-.
      { destruct (monitor !! k'); [|reflexivity].
        rewrite lookup_insert_ne by congruence. reflexivity. }
      rewrite IH.
      destruct (decide (k ∈ keys)) as [Hin|Hnin].
      * rewrite decide_True by (apply elem_of_cons; auto). reflexivity.
      * rewrite decide_False; [reflexivity|].
        intros [?|?]%elem_of_cons; contradiction.
Qed.

Lemma job_data_lookup monitor delay k :
  fst (Queue.addMonitorCheckJob monitor delay) !! k
  = if decide (k ∈ Queue.copied) then Queue.fields monitor !! k
    else if decide (k = "monitorId") then Some (Queue.VStr (Queue._id monitor))
    else if decide (k = "teamId") then Some (Queue.VStr (Queue.teamId monitor))
    else None.
Proof.
  unfold Queue.addMonitorCheckJob. cbn [fst]. rewrite copy_lookup.
  destruct (decide (k ∈ Queue.copied)) as [Hin|Hnin].
  - destruct (Queue.fields monitor !! k) eqn:E; [reflexivity|].
    assert (k <> "monitorId" /\ k <> "teamId") as [H1 H2].
    { split; intros ->; vm_compute in Hin;
        repeat (apply elem_of_cons in Hin as [Hin|Hin]; [discriminate|]);
        inversion Hin. }
    rewrite !lookup_insert_ne by congruence.
    apply lookup_empty.
  - destruct (decide (k = "monitorId")) as [->|H1];
      [apply lookup_insert_eq|].
    rewrite lookup_insert_ne by congruence.
    destruct (decide (k = "teamId")) as [->|H2];
      [apply lookup_insert_eq|].
    rewrite lookup_insert_ne by congruence.
    apply lookup_empty.
Qed.

Lemma processMonitorCheck_status id tid r clk db m :
  monitors db !! id = Some m ->
  m_lastStatus <$>
    (monitors (BullWorker.processMonitorCheck id tid r clk db) !! id)
  = Some (Some (status_of_success (BullWorker.success r))).
Proof.
  intros H. unfold BullWorker.processMonitorCheck. rewrite H.
  assert (forall db',
    m_lastStatus <$>
      (monitors (match BullWorker.sslInfo r with
                 | Some info =>
                     if BullWorker.within_30_days (BullWorker.sslInfo r)
                     then BullWorker.handleSslExpiryAlert m info tid db'
                     else db'
                 | None => db'
                 end) !! id)
    = m_lastStatus <$> (monitors db' !! id)) as Hssl.
  { intros db'. destruct (BullWorker.sslInfo r) as [info|]; [|reflexivity].
    destruct (BullWorker.within_30_days _); [|reflexivity].
    apply field_handleSslExpiryAlert. }
  rewrite Hssl.
  rewrite field_bull_handleStatusChange by reflexivity.
  simpl. rewrite lookup_alter_eq, H. simpl.
  destruct (BullWorker.sslInfo r); reflexivity.
Qed.

Lemma processMonitorCheck_lastError id tid r clk db m :
  monitors db !! id = Some m ->
  m_lastError <$>
    (monitors (BullWorker.processMonitorCheck id tid r clk db) !! id)
  = Some (BullWorker.error r).
Proof.
  intros H. unfold BullWorker.processMonitorCheck. rewrite H.
  assert (forall db',
    m_lastError <$>
      (monitors (match BullWorker.sslInfo r with
                 | Some info =>
                     if BullWorker.within_30_days (BullWorker.sslInfo r)
                     then BullWorker.handleSslExpiryAlert m info tid db'
                     else db'
                 | None => db'
                 end) !! id)
    = m_lastError <$> (monitors db' !! id)) as Hssl.
  { intros db'. destruct (BullWorker.sslInfo r) as [info|]; [|reflexivity].
    destruct (BullWorker.within_30_days _); [|reflexivity].
    apply field_handleSslExpiryAlert. }
  rewrite Hssl.
  rewrite field_bull_handleStatusChange by reflexivity.
  simpl. rewrite lookup_alter_eq, H. simpl.
  destruct (BullWorker.sslInfo r); reflexivity.
Qed.

Lemma getPriority_range (n : option Z) : 1 <= Queue.getPriority n <= 4.
Proof.
  unfold Queue.getPriority. destruct n as [n|]; [|lia].
  repeat match goal with |- context [?a <=? ?b] => destruct (a <=? b) end; lia.
Qed.

(** X26.  The job [addMonitorCheckJob] puts on the queue: its data hold
    the two ids and the sixteen configuration properties of the monitor,
    each as the document has it, and no other property; the job id is
    'check-' and the monitor id, the delay the one asked for; the
    priority is 1, 2, 3 or 4, never lower (a larger number) for a
    shorter interval, and with the schema's minimum of 30 seconds it is 1
    for that minimum only. *)
Theorem addMonitorCheckJob_job :
  forall (monitor : Queue.MonitorObject) (delay : Z),
    let data := fst (Queue.addMonitorCheckJob monitor delay) in
    let opts := snd (Queue.addMonitorCheckJob monitor delay) in
    data !! "monitorId" = Some (Queue.VStr (Queue._id monitor))
    /\ data !! "teamId" = Some (Queue.VStr (Queue.teamId monitor))
    /\ (forall k, k ∈ Queue.copied -> data !! k = Queue.fields monitor !! k)
    /\ (forall k, k ∉ Queue.copied -> k <> "monitorId" -> k <> "teamId" ->
                  data !! k = None)
    /\ Queue.jobId opts = "check-" +:+ Queue._id monitor
    /\ Queue.delay opts = delay
    /\ 1 <= Queue.priority opts <= 4
    /\ (forall (other : Queue.MonitorObject) (a b : Z),
          Queue.fields monitor !! "intervalSec" = Some (Queue.VNum a) ->
          Queue.fields other !! "intervalSec" = Some (Queue.VNum b) ->
          a <= b ->
          Queue.priority opts
          <= Queue.priority (snd (Queue.addMonitorCheckJob other delay)))
    /\ (forall a,
          Queue.fields monitor !! "intervalSec" = Some (Queue.VNum a) ->
          30 <= a ->
          (Queue.priority opts = 1 <-> a = 30)).
Proof.
  intros monitor delay data opts. subst data opts.
  split; [rewrite job_data_lookup; reflexivity|].
  split; [rewrite job_data_lookup; reflexivity|].
  split; [|split; [|split; [|split; [|split; [|split]]]]].
  - intros k Hk. rewrite job_data_lookup, decide_True by exact Hk.
    reflexivity.
  - intros k Hk H1 H2. rewrite job_data_lookup, decide_False by exact Hk.
    rewrite !decide_False by assumption. reflexivity.
  - reflexivity.
  - reflexivity.
  - apply getPriority_range.
  - intros other a b Ha Hb Hab. cbn [snd Queue.addMonitorCheckJob Queue.priority].
    rewrite Ha, Hb. cbn [Queue.to_number Queue.getPriority].
    repeat match goal with |- context [?x <=? ?y] =>
             destruct (Z.leb_spec x y) end; lia.
  - intros a Ha H30. cbn [snd Queue.addMonitorCheckJob Queue.priority].
    rewrite Ha. cbn [Queue.to_number Queue.getPriority].
    repeat match goal with |- context [?x <=? ?y] =>
             destruct (Z.leb_spec x y) end; lia.
Qed.

(** X27.  Queue mode and the passive monitors.  The job data carry
    neither [lastHeartbeat] nor [cronExpression], and [performCheck] is
    given the job data: the check of a heartbeat monitor fails with 'No
    heartbeat received yet' and the check of a cronjob monitor with 'No
    cron expression specified', whatever the document holds and whatever
    the time; [processMonitorCheck] then stores status 'down', that
    error and one failure more.  The same dispatcher on the document
    itself succeeds while the last heartbeat is recent enough. *)
Theorem queue_checks_of_passive_monitors :
  forall (monitor : Queue.MonitorObject) (delay tz now inner : Z)
         (network : BullWorker.CheckResult),
    let data := fst (Queue.addMonitorCheckJob monitor delay) in
    let r := Dispatch.performCheck tz now inner network data in
    (Queue.fields monitor !! "type" = Some (Queue.VStr "heartbeat") ->
     BullWorker.success r = false
     /\ BullWorker.error r = Some "No heartbeat received yet")
    /\ (Queue.fields monitor !! "type" = Some (Queue.VStr "cronjob") ->
        BullWorker.success r = false
        /\ BullWorker.error r = Some "No cron expression specified")
    /\ (forall (ty : string) (clk : Clock) (db : Db) (m : MonitorDoc),
          ty = "heartbeat" \/ ty = "cronjob" ->
          Queue.fields monitor !! "type" = Some (Queue.VStr ty) ->
          monitors db !! Queue._id monitor = Some m ->
          let db' := BullWorker.processMonitorCheck (Queue._id monitor)
                       (Queue.teamId monitor) r clk db in
          m_lastStatus <$> (monitors db' !! Queue._id monitor)
          = Some (Some Down)
          /\ m_lastError <$> (monitors db' !! Queue._id monitor)
             = Some (BullWorker.error r)
          /\ m_consecutiveFailures <$> (monitors db' !! Queue._id monitor)
             = Some (Some (JS.num_or (m_consecutiveFailures m) 0 + 1)))
    /\ (forall last,
          Queue.fields monitor !! "type" = Some (Queue.VStr "heartbeat") ->
          Queue.fields monitor !! "lastHeartbeat" = Some (Queue.VDate last) ->
          BullWorker.success
            (Dispatch.performCheck tz now inner network (Queue.fields monitor))
          = true
          <-> now - last
              <= (JS.num_or
                    (Queue.number_field
                       (Queue.fields monitor !! "heartbeatInterval")) 300
                  + 30) * 1000).
Proof.
  intros monitor delay tz now inner network data r.
  assert (Queue.fields monitor !! "type" = Some (Queue.VStr "heartbeat") ->
          r = Dispatch.of_heartbeat
                (Heartbeat.checkHeartbeat now
                   {| Heartbeat.lastHeartbeat := None;
                      Heartbeat.heartbeatInterval := None |})) as Hhb.
  { intros Hty. subst r data. unfold Dispatch.performCheck.
    rewrite job_data_lookup. rewrite decide_True by (apply (bool_decide_unpack _); vm_compute; exact I).
    rewrite Hty. cbn [Queue.string_field JS.str_or].
    change (String.eqb "heartbeat" "heartbeat") with true. cbn iota.
    unfold Queue.heartbeat_view. rewrite !job_data_lookup.
    reflexivity. }
  assert (Queue.fields monitor !! "type" = Some (Queue.VStr "cronjob") ->
          r = Dispatch.of_cronjob
                (Cronjob.checkCronjob tz now inner
                   {| Cronjob.lastCronRun := None;
                      Cronjob.cronGracePeriod := None;
                      Cronjob.cronExpression := None;
                      Cronjob.expectedCronRun := None |})) as Hcr.
  { intros Hty. subst r data. unfold Dispatch.performCheck.
    rewrite job_data_lookup. rewrite decide_True by (apply (bool_decide_unpack _); vm_compute; exact I).
    rewrite Hty. cbn [Queue.string_field JS.str_or].
    change (String.eqb "cronjob" "heartbeat") with false.
    change (String.eqb "cronjob" "cronjob") with true. cbn iota.
    unfold Queue.cron_view. rewrite !job_data_lookup.
    reflexivity. }
  split; [|split; [|split]].
  - intros Hty. rewrite (Hhb Hty). split; reflexivity.
  - intros Hty. rewrite (Hcr Hty). split; reflexivity.
  - intros ty clk db m Hor Hty Hm db'. subst db'.
    rewrite (processMonitorCheck_status _ _ _ _ _ _ Hm).
    rewrite (processMonitorCheck_lastError _ _ _ _ _ _ Hm).
    rewrite (processMonitorCheck_failures _ _ _ _ _ _ Hm).
    assert (BullWorker.success r = false) as ->.
    { destruct Hor as [-> | ->]; [rewrite (Hhb Hty) | rewrite (Hcr Hty)];
        reflexivity. }
    split; [reflexivity|]. split; reflexivity.
  - intros last Hty Hlast. unfold Dispatch.performCheck.
    rewrite Hty. cbn [Queue.string_field JS.str_or].
    change (String.eqb "heartbeat" "heartbeat") with true. cbn iota.
    cbn [Dispatch.of_heartbeat BullWorker.success].
    apply checkHeartbeat_success_iff.
    unfold Queue.heartbeat_view. rewrite Hlast. reflexivity.
Qed.


Lemma addMonitorCheckJob_job_witness :
  fst (Queue.addMonitorCheckJob ConfigFixtures.beacon_object 0) !! "url"
  = None
  /\ fst (Queue.addMonitorCheckJob ConfigFixtures.beacon_object 0)
       !! "lastHeartbeat" = None
  /\ Queue.priority (snd (Queue.addMonitorCheckJob ConfigFixtures.beacon_object 0))
     = 2.
Proof.
  destruct (addMonitorCheckJob_job ConfigFixtures.beacon_object 0)
    as (_ & _ & Hin & Hout & _).
  split; [|split].
  - rewrite Hin by (apply (bool_decide_unpack _); vm_compute; exact I). reflexivity.
  - apply Hout;
      [apply (bool_decide_unpack _); vm_compute; exact I
      | discriminate | discriminate].
  - reflexivity.
Defined.

(** The beacon was pinged a second ago; the queue's check of it fails
    all the same. *)
Lemma queue_checks_of_passive_monitors_witness :
  BullWorker.error
    (Dispatch.performCheck 0 PassiveFixtures.noon PassiveFixtures.noon
       Samples.ok_result
       (fst (Queue.addMonitorCheckJob ConfigFixtures.beacon_object 0)))
  = Some "No heartbeat received yet"
  /\ BullWorker.success
       (Dispatch.performCheck 0 PassiveFixtures.noon PassiveFixtures.noon
          Samples.ok_result (Queue.fields ConfigFixtures.beacon_object))
     = true.
Proof.
  destruct (queue_checks_of_passive_monitors ConfigFixtures.beacon_object 0 0
              PassiveFixtures.noon PassiveFixtures.noon Samples.ok_result)
    as (Hhb & _ & _ & Hdoc).
  split.
  - apply (Hhb eq_refl).
  - apply (Hdoc (PassiveFixtures.noon - 1000) eq_refl eq_refl).
    vm_compute. discriminate.
Defined.


(** ** Certificates *)

Lemma ceil_div_spec (a : Z) :
  Http.msPerDay * (Http.ceil_div a Http.msPerDay - 1) < a
  <= Http.msPerDay * Http.ceil_div a Http.msPerDay.
Proof.
  unfold Http.ceil_div, Http.msPerDay. Z.div_mod_to_equations. lia.
Qed.

Lemma ceil_div_unique (a d : Z) :
  Http.msPerDay * (d - 1) < a <= Http.msPerDay * d ->
  Http.ceil_div a Http.msPerDay = d.
Proof.
  pose proof (ceil_div_spec a). unfold Http.msPerDay in *. nia.
Qed.

(** X28.  An HTTPS monitor with the certificate check on, whose request
    was answered and whose certificate ends at [expiry]: the check result
    carries the certificate data of [getSslInfo]; [daysRemaining] is the
    time left in days rounded up, so [days - 1] days are less than the
    time left and [days] days are not; the certificate counts as valid
    exactly before [expiry]; the result is on an alert day exactly when
    the time left is more than [k - 1] and at most [k] days for one of
    the thresholds 30, 14, 7, 3, 1, hence never once the certificate has
    expired; and [processMonitorCheck] stores [daysRemaining] and
    requests one 'sslExpiry' alert on an alert day and none otherwise. *)
Theorem certificate_alert_windows :
  forall (now expiry : Z) (cert : Http.Cert) (monitor : Http.Monitor)
         (statusCode elapsed : Z),
    Http.valid_to cert = Some expiry ->
    Http.sslCheck monitor = true ->
    String.prefix "https://" (Http.url monitor) = true ->
    let r := Http.checkHttp monitor (Worker.Responded statusCode) elapsed now
               (Http.Handshake (Some cert)) in
    exists (rep : Http.SslReport) (days : Z),
      Http.getSslInfo now (Http.Handshake (Some cert)) = Some rep
      /\ BullWorker.sslInfo r = Some (Http.info rep)
      /\ BullWorker.expiresAt (Http.info rep) = expiry
      /\ BullWorker.daysRemaining (Http.info rep) = Some days
      /\ Http.msPerDay * (days - 1) < expiry - now <= Http.msPerDay * days
      /\ (Http.valid rep = true <-> now < expiry)
      /\ (BullWorker.on_alert_day r = true
          <-> exists k, In k BullWorker.alertDays
                        /\ Http.msPerDay * (k - 1) < expiry - now
                           <= Http.msPerDay * k)
      /\ (expiry <= now -> BullWorker.on_alert_day r = false)
      /\ (forall (id tid : string) (clk : Clock) (db : Db) (m : MonitorDoc),
            monitors db !! id = Some m ->
            let db' := BullWorker.processMonitorCheck id tid r clk db in
            m_sslDaysRemaining <$> (monitors db' !! id) = Some (Some days)
            /\ length (List.filter StateMachine.is_ssl_alert (outbox db'))
               = (length (List.filter StateMachine.is_ssl_alert (outbox db))
                  + (if BullWorker.on_alert_day r then 1 else 0))%nat).
Proof.
  intros now expiry cert monitor sc elapsed Hvt Hssl Hurl r.
  set (days := Http.ceil_div (expiry - now) Http.msPerDay).
  pose proof (ceil_div_spec (expiry - now)) as Hspec. fold days in Hspec.
  assert (exists rep,
            Http.getSslInfo now (Http.Handshake (Some cert)) = Some rep
            /\ BullWorker.expiresAt (Http.info rep) = expiry
            /\ BullWorker.daysRemaining (Http.info rep) = Some days
            /\ Http.valid rep = (days >? 0)) as (rep & Erep & Hexp & Hdays & Hval).
  { unfold Http.getSslInfo. rewrite Hvt. eexists. split; [reflexivity|].
    repeat split. }
  assert (BullWorker.sslInfo r = Some (Http.info rep)) as Hinfo.
  { subst r. cbn [Http.checkHttp BullWorker.sslInfo].
    rewrite Hssl, Hurl, Erep. reflexivity. }
  assert (BullWorker.on_alert_day r
          = BullWorker.includes BullWorker.alertDays (Some days)) as Hday.
  { unfold BullWorker.on_alert_day. rewrite Hinfo, Hdays. reflexivity. }
  exists rep, days.
  split; [exact Erep|]. split; [exact Hinfo|]. split; [exact Hexp|].
  split; [exact Hdays|]. split; [exact Hspec|].
  split; [|split; [|split]].
  - rewrite Hval. unfold Http.msPerDay in Hspec.
    destruct (Z.gtb_spec days 0); split; intros; try lia; try reflexivity;
      discriminate.
  - rewrite Hday, alertDays_includes. split.
    + intros H. exists days. split; [|exact Hspec].
      destruct H as [H|[H|[H|[H|H]]]]; injection H as ->; simpl; tauto.
    + intros (k & Hk & Hwin).
      assert (days = k) as -> by (subst days; apply ceil_div_unique, Hwin).
      simpl in Hk. destruct Hk as [<-|[<-|[<-|[<-|[<-|[]]]]]]; tauto.
  - intros Hexpired. rewrite Hday.
    destruct (BullWorker.includes BullWorker.alertDays (Some days)) eqn:E;
      [|reflexivity].
    apply alertDays_includes in E. unfold Http.msPerDay in Hspec.
    destruct E as [H|[H|[H|[H|H]]]]; injection H as H; lia.
  - intros id tid clk db m Hm db'. subst db'. split.
    + unfold BullWorker.processMonitorCheck. rewrite Hm, Hinfo.
      assert (forall db',
        m_sslDaysRemaining <$>
          (monitors (if BullWorker.within_30_days (Some (Http.info rep))
                     then BullWorker.handleSslExpiryAlert m (Http.info rep)
                            tid db'
                     else db') !! id)
        = m_sslDaysRemaining <$> (monitors db' !! id)) as Hs.
      { intros db'. destruct (BullWorker.within_30_days _); [|reflexivity].
        apply field_handleSslExpiryAlert. }
      rewrite Hs.
      rewrite field_bull_handleStatusChange by reflexivity.
      simpl. rewrite lookup_alter_eq, Hm. simpl. rewrite Hdays. reflexivity.
    + rewrite (processMonitorCheck_ssl_alerts id tid r clk db m Hm).
      rewrite length_app, Hinfo.
      destruct (BullWorker.on_alert_day r); reflexivity.
Qed.

Lemma certificate_alert_windows_witness :
  BullWorker.on_alert_day
    (Http.checkHttp ConfigFixtures.shop_monitor (Worker.Responded 200) 120
       PassiveFixtures.noon (Http.Handshake (Some ConfigFixtures.shop_cert)))
  = true.
Proof.
  destruct (certificate_alert_windows PassiveFixtures.noon
              (PassiveFixtures.noon + 6 * 86400000 + 3600000)
              ConfigFixtures.shop_cert ConfigFixtures.shop_monitor 200 120
              eq_refl eq_refl eq_refl)
    as (rep & days & _ & _ & _ & _ & _ & _ & Hday & _).
  apply Hday. exists 7. split; [simpl; tauto|].
  unfold Http.msPerDay, PassiveFixtures.noon. lia.
Defined.

(** X29.  The result of [checkHttp]: the check succeeds exactly when a
    response arrives whose status code is the expected one, 200 when
    none (or 0) is configured; a successful result has no error, a failed
    one has one; the status code of a response is always reported, and
    the measured time in both cases; certificate data are there only for
    a monitor with the certificate check on and an 'https://' URL, after
    a response, when the TLS handshake gave a certificate with an end
    date, which is the reported expiry. *)
Theorem checkHttp_result :
  forall (monitor : Http.Monitor) (o : Worker.HttpOutcome)
         (elapsed ssl_now : Z) (tls : Http.TlsOutcome),
    let r := Http.checkHttp monitor o elapsed ssl_now tls in
    let expected := JS.num_or (Http.expectedCode monitor) 200 in
    (BullWorker.success r = true <-> o = Worker.Responded expected)
    /\ (BullWorker.success r = true -> BullWorker.error r = None)
    /\ (BullWorker.success r = false ->
        exists msg, BullWorker.error r = Some msg)
    /\ (forall sc, o = Worker.Responded sc ->
                   BullWorker.statusCode r = Some sc)
    /\ BullWorker.responseMs r = elapsed
    /\ (forall info,
          BullWorker.sslInfo r = Some info ->
          Http.sslCheck monitor = true
          /\ String.prefix "https://" (Http.url monitor) = true
          /\ (exists sc, o = Worker.Responded sc)
          /\ exists cert,
               tls = Http.Handshake (Some cert)
               /\ Http.valid_to cert = Some (BullWorker.expiresAt info)).
Proof.
  intros monitor o elapsed ssl_now tls r expected. subst r.
  destruct o as [sc|code message]; cbn [Http.checkHttp BullWorker.success
    BullWorker.error BullWorker.statusCode BullWorker.responseMs
    BullWorker.sslInfo]; fold expected.
  - split; [|split; [|split; [|split; [|split]]]].
    + destruct (Z.eqb_spec sc expected) as [->|Hne].
      * split; reflexivity.
      * split; [discriminate|]. intros H. injection H as H. contradiction.
    + intros ->. reflexivity.
    + intros ->. eexists. reflexivity.
    + intros sc' H. injection H as ->. reflexivity.
    + reflexivity.
    + intros info Hinfo.
      destruct (Http.sslCheck monitor); [|discriminate].
      destruct (String.prefix "https://" (Http.url monitor)); [|discriminate].
      cbn [andb] in Hinfo.
      split; [reflexivity|]. split; [reflexivity|].
      split; [exists sc; reflexivity|].
      unfold Http.getSslInfo in Hinfo.
      destruct tls as [[cert|]|]; try discriminate.
      destruct (Http.valid_to cert) as [e|] eqn:E; [|discriminate].
      injection Hinfo as <-. exists cert. split; [reflexivity|]. exact E.
  - split; [|split; [|split; [|split; [|split]]]].
    + split; discriminate.
    + discriminate.
    + intros _. eexists. reflexivity.
    + discriminate.
    + reflexivity.
    + discriminate.
Qed.


Lemma checkHttp_result_witness :
  BullWorker.error
    (Http.checkHttp ConfigFixtures.shop_monitor (Worker.Responded 200) 120
       PassiveFixtures.noon Http.NoHandshake) = None.
Proof.
  destruct (checkHttp_result ConfigFixtures.shop_monitor
              (Worker.Responded 200) 120 PassiveFixtures.noon
              Http.NoHandshake) as (Hs & Hok & _).
  apply Hok, Hs. reflexivity.
Defined.


(** ** Escaping *)

(** The four passes of [escapeHtml]. *)
Lemma escapeHtml_cons (a : ascii) (r : string) :
  Telegram.escapeHtml (Some (String a r))
  = Telegram.escaped a +:+ Telegram.escapeHtml (Some r).
Proof.
  assert (Telegram.escapeHtml (Some r)
          = Telegram.replace_all Keyword.dquote "&quot;"
              (Telegram.replace_all ">" "&gt;"
                 (Telegram.replace_all "<" "&lt;"
                    (Telegram.replace_all "&" "&amp;" r)))) as ->.
  { destruct r; reflexivity. }
  unfold Telegram.escapeHtml, Telegram.escaped.
  cbn [Telegram.replace_all].
  destruct (Ascii.eqb_spec a "&") as [->|H1].
  { rewrite !append_cons, !append_nil_l. reflexivity. }
  cbn [Telegram.replace_all].
  destruct (Ascii.eqb_spec a "<") as [->|H2].
  { rewrite !append_cons, !append_nil_l. reflexivity. }
  cbn [Telegram.replace_all].
  destruct (Ascii.eqb_spec a ">") as [->|H3].
  { rewrite !append_cons, !append_nil_l. reflexivity. }
  cbn [Telegram.replace_all].
  destruct (Ascii.eqb_spec a Keyword.dquote) as [->|H4].
  { rewrite !append_cons, !append_nil_l. reflexivity. }
  rewrite !append_cons, !append_nil_l. reflexivity.
Qed.

Lemma unescape_escaped (a : ascii) (x : string) :
  Telegram.unescape (Telegram.escaped a +:+ x) = String a (Telegram.unescape x).
Proof.
  unfold Telegram.escaped.
  destruct (Ascii.eqb_spec a "&") as [->|H1];
    [rewrite !append_cons, !append_nil_l; reflexivity|].
  destruct (Ascii.eqb_spec a "<") as [->|H2];
    [rewrite !append_cons, !append_nil_l; reflexivity|].
  destruct (Ascii.eqb_spec a ">") as [->|H3];
    [rewrite !append_cons, !append_nil_l; reflexivity|].
  destruct (Ascii.eqb_spec a Keyword.dquote) as [->|H4];
    [rewrite !append_cons, !append_nil_l; reflexivity|].
  rewrite !append_cons, !append_nil_l.
  destruct a as [[] [] [] [] [] [] [] []];
    try reflexivity; contradiction.
Qed.

Lemma mentions_escaped (c a : ascii) (x : string) :
  c = "<"%char \/ c = ">"%char \/ c = Keyword.dquote ->
  Telegram.mentions c (Telegram.escaped a +:+ x) = Telegram.mentions c x.
Proof.
  intros Hc. unfold Telegram.escaped.
  destruct (Ascii.eqb_spec a "&") as [->|H1];
    [rewrite !append_cons, !append_nil_l;
     destruct Hc as [->|[->| ->]]; reflexivity|].
  destruct (Ascii.eqb_spec a "<") as [->|H2];
    [rewrite !append_cons, !append_nil_l;
     destruct Hc as [->|[->| ->]]; reflexivity|].
  destruct (Ascii.eqb_spec a ">") as [->|H3];
    [rewrite !append_cons, !append_nil_l;
     destruct Hc as [->|[->| ->]]; reflexivity|].
  destruct (Ascii.eqb_spec a Keyword.dquote) as [->|H4];
    [rewrite !append_cons, !append_nil_l;
     destruct Hc as [->|[->| ->]]; reflexivity|].
  rewrite !append_cons, !append_nil_l. cbn [Telegram.mentions].
  destruct Hc as [->|[->| ->]];
    match goal with
    | |- (Ascii.eqb a ?c || _) = _ =>
        destruct (Ascii.eqb_spec a c); [contradiction | reflexivity]
    end.
Qed.

Lemma escaped_plain (a : ascii) :
  Ascii.eqb a "&" = false -> Ascii.eqb a "<" = false ->
  Ascii.eqb a ">" = false -> Ascii.eqb a Keyword.dquote = false ->
  Telegram.escaped a = String a EmptyString.
Proof. intros H1 H2 H3 H4. unfold Telegram.escaped. rewrite H1, H2, H3, H4. reflexivity. Qed.

(** X30.  [escapeHtml]: the escaped text holds no '<', no '>' and no
    double quote, whatever the text, so that nothing of a monitor's name,
    URL or error message can open or close a tag of the Telegram message;
    nothing is lost, since reading the four entities back gives the text,
    and so two different texts are never escaped to the same one; a text
    without '&', '<', '>' and double quote is left as it is; a missing
    text gives the empty one. *)
Theorem escapeHtml_escapes :
  forall (s : string),
    Telegram.mentions "<" (Telegram.escapeHtml (Some s)) = false
    /\ Telegram.mentions ">" (Telegram.escapeHtml (Some s)) = false
    /\ Telegram.mentions Keyword.dquote (Telegram.escapeHtml (Some s)) = false
    /\ Telegram.unescape (Telegram.escapeHtml (Some s)) = s
    /\ (forall t, Telegram.escapeHtml (Some s) = Telegram.escapeHtml (Some t) ->
                  s = t)
    /\ (Telegram.mentions "&" s = false ->
        Telegram.mentions "<" s = false ->
        Telegram.mentions ">" s = false ->
        Telegram.mentions Keyword.dquote s = false ->
        Telegram.escapeHtml (Some s) = s)
    /\ Telegram.escapeHtml None = EmptyString.
Proof.
  assert (forall s, Telegram.unescape (Telegram.escapeHtml (Some s)) = s)
    as Hback.
  { induction s as [|a r IH]; [reflexivity|].
    rewrite escapeHtml_cons, unescape_escaped, IH. reflexivity. }
  assert (forall c s,
            c = "<"%char \/ c = ">"%char \/ c = Keyword.dquote ->
            Telegram.mentions c (Telegram.escapeHtml (Some s)) = false)
    as Hclean.
  { intros c s Hc. induction s as [|a r IH]; [reflexivity|].
    rewrite escapeHtml_cons, mentions_escaped by exact Hc. exact IH. }
  intros s.
  split; [apply Hclean; auto|]. split; [apply Hclean; auto|].
  split; [apply Hclean; auto|]. split; [apply Hback|].
  split; [|split; [|reflexivity]].
  - intros t H. rewrite <- (Hback s), <- (Hback t), H. reflexivity.
  - induction s as [|a r IH]; [reflexivity|].
    cbn [Telegram.mentions]. intros H1 H2 H3 H4.
    apply orb_false_iff in H1 as [H1 H1'], H2 as [H2 H2'],
      H3 as [H3 H3'], H4 as [H4 H4'].
    rewrite escapeHtml_cons, (escaped_plain a H1 H2 H3 H4).
    rewrite append_cons, append_nil_l, (IH H1' H2' H3' H4'). reflexivity.
Qed.

Lemma escapeHtml_escapes_witness :
  Telegram.escapeHtml (Some "api.example.com") = "api.example.com".
Proof.
  apply (proj1 (proj2 (proj2 (proj2 (proj2 (proj2
    (escapeHtml_escapes "api.example.com")))))));
    reflexivity.
Defined.

